(** * release_folder: a Capistrano-style release directory manager

    Shallow embedding of [src/release_folder.py] (an Ansible module written
    for Python 2) and the properties its specification states about it.

    The module talks to the operating system through [os], [os.path] and
    [shutil].  Those calls are modelled here over a small POSIX-like file
    tree: regular files, directories and symbolic links, with the kernel's
    path walk (".", "..", repeated and trailing slashes, symlinks followed
    up to a fixed depth).  Permissions, I/O errors and concurrent writers are
    outside the model: a call fails only for structural reasons (missing
    entry, entry of the wrong kind, symlink loop). *)

From Stdlib Require Import ZArith Ascii String.
From Stdlib Require Import Sorting.Sorted Sorting.Permutation.
From stdpp Require Import gmap strings list fin_maps sorting.

Open Scope string_scope.
Open Scope list_scope.

(** ** Python values and string helpers *)

(** The values a module parameter can take once Ansible has parsed the task
    arguments.  [release_folder] tests them with truthiness and with
    [isinstance(_, basestring)]. *)
Inductive pyval :=
  | PNone
  | PStr (s : string)
  | PInt (n : Z)
  | PBool (b : bool).

(** [bool(v)] *)
Definition truthy (v : pyval) : bool :=
  match v with
  | PNone => false
  | PStr s => negb (String.eqb s "")
  | PInt n => negb (Z.eqb n 0)
  | PBool b => b
  end.

(** [isinstance(v, basestring)] *)
Definition is_basestring (v : pyval) : bool :=
  match v with PStr _ => true | _ => false end.

(** [sys.maxint] of a 64-bit build of Python 2: an integer outside
    [-sys.maxint - 1 .. sys.maxint] is a [long], which is no instance of
    [int]. *)
Definition sys_maxint : Z := 9223372036854775807.

(** [isinstance(n, int)] for an integer [n] *)
Definition isinstance_int (n : Z) : bool :=
  (- sys_maxint - 1 <=? n)%Z && (n <=? sys_maxint)%Z.

(** [a == b]; Python booleans are the integers 0 and 1. *)
Definition py_eqb (a b : pyval) : bool :=
  match a, b with
  | PNone, PNone => true
  | PStr s, PStr t => String.eqb s t
  | PInt n, PInt m => Z.eqb n m
  | PBool x, PBool y => Bool.eqb x y
  | PInt n, PBool y => Z.eqb n (if y then 1 else 0)
  | PBool x, PInt m => Z.eqb (if x then 1 else 0) m
  | _, _ => false
  end.

(** [x in l] *)
Definition py_in (x : pyval) (l : list pyval) : bool := existsb (py_eqb x) l.

(** [s.split(sep)] for a one-character separator: never the empty list. *)
Fixpoint str_split (sep : ascii) (s : string) : list string :=
  match s with
  | EmptyString => [""]
  | String c s' =>
      if Ascii.eqb c sep then "" :: str_split sep s'
      else match str_split sep s' with
           | w :: ws => String c w :: ws
           | [] => [String c ""]
           end
  end.

(** [s.startswith(p)] *)
Definition startswith (s p : string) : bool := String.prefix p s.

(** [s.endswith("/")] *)
Fixpoint ends_with_slash (s : string) : bool :=
  match s with
  | EmptyString => false
  | String c EmptyString => Ascii.eqb c "/"%char
  | String _ s' => ends_with_slash s'
  end.

(** A Python dict, kept as an association list: [d[k] = v] overwrites the
    entry of an equal key and appends otherwise. *)
Fixpoint dict_set {V : Type} (k : pyval) (v : V) (d : list (pyval * V)) : list (pyval * V) :=
  match d with
  | [] => [(k, v)]
  | (k', v') :: d' => if py_eqb k' k then (k', v) :: d' else (k', v') :: dict_set k v d'
  end.

Fixpoint dict_get {V : Type} (k : pyval) (d : list (pyval * V)) : option V :=
  match d with
  | [] => None
  | (k', v') :: d' => if py_eqb k' k then Some v' else dict_get k d'
  end.

(** [sorted(l, reverse=True)] on strings: the order is Python's [str]
    comparison, character codes compared left to right.  Any sorting
    algorithm gives the same list, the order being total and antisymmetric. *)
Definition str_ge (a b : string) : Prop := String.leb b a = true.

#[global] Instance str_ge_dec a b : Decision (str_ge a b).
Proof. unfold str_ge. apply _. Defined.

Definition sorted_reverse (l : list string) : list string := merge_sort str_ge l.

(** [l[k:]] for [k >= 0] *)
Definition slice_from (k : Z) (l : list string) : list string := drop (Z.to_nat k) l.

(** [l.remove(x)] on a list of strings: drops the first occurrence, [None]
    stands for the [ValueError] raised when there is none. *)
Fixpoint list_remove (x : string) (l : list string) : option (list string) :=
  match l with
  | [] => None
  | y :: l' => if String.eqb y x then Some l'
               else option_map (cons y) (list_remove x l')
  end.

(** ** The file tree *)

Inductive node :=
  | File
  | Dir
  | Link (target : string).

(** Canonical absolute paths: the names from the root down.  The root itself
    ([[]]) is always a directory and has no entry of its own. *)
Abbreviation fpath := (list string).
Abbreviation FS := (gmap (list string) node).

Inductive errno := ENOENT | ENOTDIR | EEXIST | ELOOP | EINVAL | EISDIR | EBUSY.

(** Limit on the symlinks followed during one path walk (Linux: 40). *)
Definition MAXSYMLINKS : nat := 40.

Definition is_abs (s : string) : bool := String.prefix "/" s.

Definition components (s : string) : list string := str_split "/"%char s.

Definition is_dot (c : string) : bool := String.eqb c "" || String.eqb c ".".

(** The kernel's path walk from directory [cur] along [todo].  Returns the
    canonical path reached and the node found there; [None] as node means
    that the last name is free in an existing directory.  [follow] tells
    whether a symlink in last position is followed ([stat]) or returned
    ([lstat]); a name followed by a slash is never in last position. *)
Fixpoint namei (links : nat) (fs : FS) (follow : bool) (cur : fpath) (todo : list string)
  {struct links} : errno + (fpath * option node) :=
  (fix walk (cur : fpath) (todo : list string) {struct todo} : errno + (fpath * option node) :=
     match todo with
     | [] => inr (cur, Some Dir)
     | c :: rest =>
         if is_dot c then walk cur rest
         else if String.eqb c ".." then walk (removelast cur) rest
         else
           let p := cur ++ [c] in
           match fs !! p with
           | None => if forallb (String.eqb "") rest then inr (p, None) else inl ENOENT
           | Some Dir => walk p rest
           | Some File => match rest with [] => inr (p, Some File) | _ => inl ENOTDIR end
           | Some (Link t) =>
               match rest, follow with
               | [], false => inr (p, Some (Link t))
               | _, _ =>
                   match links with
                   | O => inl ELOOP
                   | S links' =>
                       if String.eqb t "" then inl ENOENT
                       else namei links' fs follow (if is_abs t then [] else cur)
                                  (components t ++ rest)
                   end
               end
           end
     end) cur todo.

(** Paths given to a system call are resolved from the root: the module makes
    its base path absolute before it uses it. *)
Definition resolve (fs : FS) (follow : bool) (s : string) : errno + (fpath * option node) :=
  if String.eqb s "" then inl ENOENT
  else namei MAXSYMLINKS fs follow [] (components s).

Definition stat (fs : FS) (s : string) : errno + (fpath * option node) := resolve fs true s.
Definition lstat (fs : FS) (s : string) : errno + (fpath * option node) := resolve fs false s.

(** The names directly under directory [p]. *)
Definition child_of (p k : fpath) : option string :=
  match reverse k with
  | c :: rq => if decide (reverse rq = p) then Some c else None
  | [] => None
  end.

Definition children (fs : FS) (p : fpath) : list string :=
  omap (child_of p) (map_to_list fs).*1.

(** [p] is [q] or lies below it. *)
Definition under (q p : fpath) : bool := bool_decide (take (length q) p = q).

(** ** Computations: a state and exception monad over the file tree *)

Inductive exn :=
  | OSError (e : errno)
  | UnboundLocalError (var : string)
  | AttributeError
  | TypeError
  | ValueError
  | RuntimeError.

(** The [module.fail_json(msg=...)] calls of [main], one constructor each. *)
Inductive failure :=
  | Invalid_prefix
  | Invalid_keep
  | Could_not_remove_directory (remove_dir : string)
  | Invalid_timestamp
  | Invalid_symlink
  | Release_directory_not_a_directory (release_dir : string)
  | Error_creating_release_directory (release_dir : string)
  | Symlink_exists_but_is_not_a_symlink (symlink_dir : string)
  | Error_creating_symlink.

Definition msg (f : failure) : string :=
  match f with
  | Invalid_prefix => "Invalid prefix parameter"
  | Invalid_keep => "Invalid keep parameter"
  | Could_not_remove_directory d => "Could not remove directory " +:+ d
  | Invalid_timestamp => "Invalid timestamp parameter"
  | Invalid_symlink => "Invalid symlink parameter"
  | Release_directory_not_a_directory d =>
      "Release directory exists,but is not a directory: " +:+ d
  | Error_creating_release_directory d => "Error creating release directory: " +:+ d
  | Symlink_exists_but_is_not_a_symlink d => "Symlink exists but is not a symlink: " +:+ d
  | Error_creating_symlink => "Error creating symlink"
  end.

(** How a computation ends: with a value, with an uncaught Python exception,
    or in [fail_json]; each time with the file tree it leaves behind. *)
Inductive res (A : Type) :=
  | Ok (a : A) (fs : FS)
  | Raise (e : exn) (fs : FS)
  | FailJson (f : failure) (fs : FS).
Arguments Ok {A} a fs.
Arguments Raise {A} e fs.
Arguments FailJson {A} f fs.

Definition M (A : Type) : Type := FS -> res A.

Definition ret {A} (a : A) : M A := fun fs => Ok a fs.

Definition bind {A B} (m : M A) (k : A -> M B) : M B :=
  fun fs =>
    match m fs with
    | Ok a fs' => k a fs'
    | Raise e fs' => Raise e fs'
    | FailJson f fs' => FailJson f fs'
    end.

Definition raise {A} (e : exn) : M A := fun fs => Raise e fs.
Definition fail_json {A} (f : failure) : M A := fun fs => FailJson f fs.

Declare Scope py_scope.
Delimit Scope py_scope with py.
Notation "x <- m ;; k" := (bind m (fun x => k))
  (at level 100, m at next level, right associativity) : py_scope.
Notation "m ;; k" := (bind m (fun _ => k))
  (at level 100, right associativity) : py_scope.
Open Scope py_scope.

(** [try: body except OSError: handler] *)
Definition try_except_OSError {A} (body : M A) (handler : M A) : M A :=
  fun fs =>
    match body fs with
    | Raise (OSError _) fs' => handler fs'
    | r => r
    end.

(** [try: body except: handler] with a body that never calls [fail_json] *)
Definition try_except {A} (body : M A) (handler : M A) : M A :=
  fun fs =>
    match body fs with
    | Raise _ fs' => handler fs'
    | r => r
    end.

(** [if c: body] *)
Definition when (c : bool) (body : M unit) : M unit := if c then body else ret tt.

(** [for x in l: s = body(x, s)] *)
Fixpoint for_each {A S} (l : list A) (body : A -> S -> M S) (s : S) : M S :=
  match l with
  | [] => ret s
  | x :: l' => s' <- body x s ;; for_each l' body s'
  end.

(** Reading a local variable that may not have been assigned yet. *)
Definition local {A} (var : string) (v : option A) : M A :=
  match v with
  | Some a => ret a
  | None => raise (UnboundLocalError var)
  end.

(** ** The library calls the module makes *)

Module os.

(** [os.listdir(path)] *)
Definition listdir (path : string) : M (list string) :=
  fun fs =>
    match stat fs path with
    | inr (p, Some Dir) => Ok (children fs p) fs
    | inr (_, Some _) => Raise (OSError ENOTDIR) fs
    | inr (_, None) => Raise (OSError ENOENT) fs
    | inl e => Raise (OSError e) fs
    end.

(** [os.readlink(path)]: the text stored in the link, as it is *)
Definition readlink (path : string) : M string :=
  fun fs =>
    match lstat fs path with
    | inr (_, Some (Link t)) => Ok t fs
    | inr (_, Some _) => Raise (OSError EINVAL) fs
    | inr (_, None) => Raise (OSError ENOENT) fs
    | inl e => Raise (OSError e) fs
    end.

(** [os.mkdir(path)] *)
Definition mkdir (path : string) : M unit :=
  fun fs =>
    match lstat fs path with
    | inr (p, None) => Ok tt (<[p := Dir]> fs)
    | inr (_, Some _) => Raise (OSError EEXIST) fs
    | inl e => Raise (OSError e) fs
    end.

(** [os.symlink(src, dst)]: a link at [dst] holding the text [src]; a new
    name followed by a slash is refused *)
Definition symlink (src dst : string) : M unit :=
  fun fs =>
    match lstat fs dst with
    | inr (p, None) =>
        if ends_with_slash dst then Raise (OSError ENOENT) fs
        else Ok tt (<[p := Link src]> fs)
    | inr (_, Some _) => Raise (OSError EEXIST) fs
    | inl e => Raise (OSError e) fs
    end.

(** [os.unlink(path)] *)
Definition unlink (path : string) : M unit :=
  fun fs =>
    match lstat fs path with
    | inr (p, Some Dir) => Raise (OSError EISDIR) fs
    | inr (p, Some _) => Ok tt (delete p fs)
    | inr (_, None) => Raise (OSError ENOENT) fs
    | inl e => Raise (OSError e) fs
    end.

Module path.

(** [os.path.join(a, b)] *)
Definition join (a b : string) : string :=
  if startswith b "/" then b
  else if String.eqb a "" || ends_with_slash a then a +:+ b
  else a +:+ "/" +:+ b.

(** [os.path.join(a, b, c)] *)
Definition join3 (a b c : string) : string := join (join a b) c.

(** [os.path.basename(p)]: what follows the last slash *)
Definition basename (p : string) : string := List.last (components p) "".

(** [p[:i], p[i:]] for [i = p.rfind('/') + 1] *)
Fixpoint cut_at_last_slash (p : string) : string * string :=
  match p with
  | EmptyString => ("", "")
  | String c p' =>
      let (h, t) := cut_at_last_slash p' in
      if String.eqb h "" then
        if Ascii.eqb c "/"%char then ("/", t) else ("", String c t)
      else (String c h, t)
  end.

(** [s.rstrip('/')] *)
Fixpoint rstrip_slash (s : string) : string :=
  match s with
  | EmptyString => ""
  | String c s' =>
      match rstrip_slash s' with
      | EmptyString => if Ascii.eqb c "/"%char then "" else String c ""
      | r => String c r
      end
  end.

(** [os.path.split(p)]: the head loses its trailing slashes unless it
    consists of slashes only *)
Definition split (p : string) : string * string :=
  let (head, tail) := cut_at_last_slash p in
  let stripped := rstrip_slash head in
  (if String.eqb stripped "" then head else stripped, tail).

(** [os.path.exists(path)]: follows symlinks, false on any error *)
Definition exists_ (path : string) : M bool :=
  fun fs =>
    match stat fs path with
    | inr (_, Some _) => Ok true fs
    | _ => Ok false fs
    end.

(** [os.path.isdir(path)]: follows symlinks *)
Definition isdir (path : string) : M bool :=
  fun fs =>
    match stat fs path with
    | inr (_, Some Dir) => Ok true fs
    | _ => Ok false fs
    end.

(** [os.path.islink(path)] *)
Definition islink (path : string) : M bool :=
  fun fs =>
    match lstat fs path with
    | inr (_, Some (Link _)) => Ok true fs
    | _ => Ok false fs
    end.

End path.

(** [os.makedirs(name)] of Python 2.7: create the missing ancestors, then
    the leaf.  [depth] bounds the recursion; Python gives up with a
    [RuntimeError] when its own bound is passed. *)
Fixpoint makedirs_rec (depth : nat) (name : string) : M unit :=
  let (head, tail) := path.split name in
  let (head, tail) := if String.eqb tail "" then path.split head else (head, tail) in
  returned <-
    (if negb (String.eqb head "") && negb (String.eqb tail "") then
       e <- path.exists_ head ;;
       if negb e then
         match depth with
         | O => raise RuntimeError
         | S depth' =>
             (fun fs =>
                match makedirs_rec depth' head fs with
                | Raise (OSError EEXIST) fs' => Ok tt fs'
                | r => r
                end) ;;
             ret (String.eqb tail ".")
         end
       else ret false
     else ret false) ;;
  if returned : bool then ret tt else mkdir name.

(** Each recursive call is on a strictly shorter name. *)
Definition makedirs (name : string) : M unit :=
  makedirs_rec (String.length name) name.

End os.

Module shutil.

(** [shutil.rmtree(path)]: refuses a symlink (an [OSError] without number,
    [EINVAL] here), needs a directory, removes everything below it and then
    the directory itself.  The module does not import [shutil]; the name
    comes with [from ansible.module_utils.basic import *]. *)
Definition rmtree (path : string) : M unit :=
  l <- os.path.islink path ;;
  if l : bool then raise (OSError EINVAL)
  else
    fun fs =>
      match stat fs path with
      | inr (p, Some Dir) =>
          let fs' := filter (fun kv : fpath * node => under p kv.1 = false) fs in
          match p with
          | [] => Raise (OSError EBUSY) fs'
          | _ => Ok tt fs'
          end
      | inr (_, Some _) => Raise (OSError ENOTDIR) fs
      | inr (_, None) => Raise (OSError ENOENT) fs
      | inl e => Raise (OSError e) fs
      end.

End shutil.

(** ** The module *)

(** [a and b], [not a] on tests that read the file tree *)
Definition and_ (a b : M bool) : M bool := x <- a ;; if x : bool then b else ret false.
Definition not_ (a : M bool) : M bool := x <- a ;; ret (negb x).

(** [os.path.join(a, b)] on a parameter value: a value without
    [startswith] raises. *)
Definition join_py (a : string) (b : pyval) : M string :=
  match b with
  | PStr s => ret (os.path.join a s)
  | _ => raise AttributeError
  end.

(** [a + b] on a string and a parameter value *)
Definition add_py (a : string) (b : pyval) : M string :=
  match b with
  | PStr s => ret (a +:+ s)
  | _ => raise TypeError
  end.

(** [l.remove(x)] *)
Definition remove_py (x : string) (l : list string) : M (list string) :=
  match list_remove x l with
  | Some l' => ret l'
  | None => raise ValueError
  end.

Inductive state_choice := State_exists | State_cleaned.

(** [module.params] after [AnsibleModule] has applied [argument_spec]:
    [keep] is coerced to an integer (an [int], or a [long] when it does not
    fit one) and [keep_symlinked_dirs] to a boolean,
    [state] is one of the two choices or absent, the other parameters arrive
    as given.  [path] stands for the value bound at line 131, the base path
    made absolute by [os.path.realpath(os.path.expanduser(path))]; those two
    calls only read. *)
Record params_t := {
  path : string;
  prefix : pyval;
  subfolder : string;
  keep : Z;
  keep_symlinked_dirs : bool;
  symlink_dirs : pyval;
  state : option state_choice;
  timestamp : pyval;
  symlink : pyval
}.

Record AnsibleModule := {
  params : params_t;
  check_mode : bool
}.

(** The arguments of [module.exit_json]. *)
Record result := {
  changed : bool;
  removed_releases : list string;
  absolute_path : string;
  symlinked_folders : list (pyval * option string);
  releases : list string;
  releases_path : string
}.

Definition get_releases (path subfolder prefix : string) : M (list string) :=
  let abs_path := os.path.join path subfolder in
  files <- os.listdir abs_path ;;
  for_each files
    (fun file get_releases =>
       let abs_file := os.path.join abs_path file in
       keep <- and_ (ret (startswith file prefix))
                 (and_ (os.path.isdir abs_file) (not_ (os.path.islink abs_file))) ;;
       if keep : bool then ret (get_releases ++ [file]) else ret get_releases)
    [].

Definition ensure_dir (path : string) : M unit :=
  e <- os.path.exists_ path ;;
  when (negb e) (os.makedirs path).

(** Lines 163-169: make sure the base directory and the release directory
    exist; in check mode only look. *)
Definition setup (check_mode : bool) (path subfolder : string) : M bool :=
  if negb check_mode then
    ensure_dir path ;;
    ensure_dir (os.path.join path subfolder) ;;
    ret true
  else
    and_ (os.path.exists_ path) (os.path.exists_ (os.path.join path subfolder)).

(** Lines 147-151 and 171-174: the watched symlinks, with [symlink] added. *)
Definition watched (symlink_dirs symlink : pyval) : list pyval :=
  let symlink_dirs :=
    match symlink_dirs with
    | PStr s => map PStr (str_split ","%char s)
    | _ => []
    end in
  if truthy symlink then
    if negb (py_in symlink symlink_dirs) then symlink_dirs ++ [symlink] else symlink_dirs
  else symlink_dirs.

(** Lines 182-188: drop from the list what the watched symlinks name. *)
Definition protect (path : string) (symlink_dirs : list pyval) (dirs_to_remove : list string)
  : M (list string) :=
  for_each symlink_dirs
    (fun symlink_dir dirs_to_remove =>
       try_except
         (link <- join_py path symlink_dir ;;
          target <- os.readlink link ;;
          let protected := os.path.basename target in
          remove_py protected dirs_to_remove)
         (ret dirs_to_remove))
    dirs_to_remove.

(** Lines 178-188: the releases found, less the protected ones. *)
Definition candidates (path subfolder prefix : string) (keep_symlinked_dirs : bool)
    (symlink_dirs : list pyval) : M (list string) :=
  dirs_to_remove <- get_releases path subfolder prefix ;;
  if keep_symlinked_dirs then protect path symlink_dirs dirs_to_remove
  else ret dirs_to_remove.

(** Lines 176-205: [state == 'cleaned'].  Gives [dirs_to_remove] and
    [changed]. *)
Definition cleaned (check_mode : bool) (path subfolder prefix : string) (keep : Z)
    (keep_symlinked_dirs : bool) (symlink_dirs : list pyval) : M (list string * bool) :=
  dirs_to_remove <- candidates path subfolder prefix keep_symlinked_dirs symlink_dirs ;;
  let dirs_to_remove := slice_from keep (sorted_reverse dirs_to_remove) in
  when (negb check_mode)
    (for_each dirs_to_remove
       (fun dir _ =>
          let remove_dir := os.path.join3 path subfolder dir in
          try_except_OSError (shutil.rmtree remove_dir)
            (fail_json (Could_not_remove_directory remove_dir)))
       tt) ;;
  ret (dirs_to_remove, (0 <? length dirs_to_remove)%nat).

(** Lines 209-230: check the parameters, then create the release directory
    if it does not exist.  Gives [release_dir]. *)
Definition release_directory (path subfolder prefix : string) (timestamp symlink : pyval)
  : M string :=
  if negb (truthy timestamp) || negb (is_basestring timestamp) then
    fail_json Invalid_timestamp
  else if truthy symlink && negb (is_basestring symlink) then
    fail_json Invalid_symlink
  else
    name <- add_py prefix timestamp ;;
    let release_dir := os.path.join3 path subfolder name in
    occupied <- and_ (os.path.exists_ release_dir) (not_ (os.path.isdir release_dir)) ;;
    if occupied : bool then fail_json (Release_directory_not_a_directory release_dir)
    else
      missing <- not_ (os.path.exists_ release_dir) ;;
      when missing
        (try_except_OSError (os.makedirs release_dir)
           (fail_json (Error_creating_release_directory release_dir))) ;;
      ret release_dir.

(** Lines 232-247: create or update the symlink.  The local [symlink_dir] is
    bound only inside [if symlink:]; it is read again under [if not
    module.check_mode:], which stands one level further out.  (The loop of
    line 183 binds the same name, but only when [state == 'cleaned'].) *)
Definition link (check_mode : bool) (path : string) (symlink : pyval) (release_dir : string)
  : M unit :=
  symlink_dir <-
    (if truthy symlink then
       symlink_dir <- join_py path symlink ;;
       conflict <- and_ (os.path.exists_ symlink_dir) (not_ (os.path.islink symlink_dir)) ;;
       if conflict : bool then fail_json (Symlink_exists_but_is_not_a_symlink symlink_dir)
       else ret (Some symlink_dir)
     else ret None) ;;
  when (negb check_mode)
    (try_except_OSError
       (symlink_dir <- local "symlink_dir" symlink_dir ;;
        l <- os.path.islink symlink_dir ;;
        when l (os.unlink symlink_dir) ;;
        os.symlink release_dir symlink_dir)
       (fail_json Error_creating_symlink)).

(** Lines 207-249: [state == 'exists'].  Gives [changed]. *)
Definition exists_ (check_mode : bool) (path subfolder prefix : string)
    (timestamp symlink : pyval) : M bool :=
  release_dir <- release_directory path subfolder prefix timestamp symlink ;;
  link check_mode path symlink release_dir ;;
  ret true.

(** Lines 253-263: the releases and the symlink targets found on disk. *)
Definition gather (path subfolder prefix : string) (symlink_dirs : list pyval)
  : M (list string * list (pyval * option string)) :=
  existing_dirs <- get_releases path subfolder prefix ;;
  symlinked_folders <-
    for_each symlink_dirs
      (fun symlink_dir symlinked_folders =>
         try_except
           (link <- join_py path symlink_dir ;;
            target <- os.readlink link ;;
            ret (dict_set symlink_dir (Some (os.path.join path target)) symlinked_folders))
           (ret (dict_set symlink_dir None symlinked_folders)))
      [] ;;
  ret (existing_dirs, symlinked_folders).

Definition main (module : AnsibleModule) : M result :=
  let state := state (params module) in
  let path := path (params module) in
  match prefix (params module) with
  | PStr prefix =>
      let subfolder := subfolder (params module) in
      let keep := keep (params module) in
      if negb (isinstance_int keep) || (keep <? 0)%Z then fail_json Invalid_keep
      else
        let keep_symlinked_dirs := keep_symlinked_dirs (params module) in
        let symlink := symlink (params module) in
        let timestamp := timestamp (params module) in
        directories_exist <- setup (check_mode module) path subfolder ;;
        let symlink_dirs := watched (symlink_dirs (params module)) symlink in
        removal <-
          match state with
          | Some State_cleaned =>
              cleaned (check_mode module) path subfolder prefix keep
                keep_symlinked_dirs symlink_dirs
          | _ => ret ([], false)
          end ;;
        let '(dirs_to_remove, changed) := removal in
        changed <-
          match state with
          | Some State_exists =>
              exists_ (check_mode module) path subfolder prefix timestamp symlink
          | _ => ret changed
          end ;;
        found <-
          (if directories_exist : bool then gather path subfolder prefix symlink_dirs
           else ret ([], [])) ;;
        let '(existing_dirs, symlinked_folders) := found in
        ret {| changed := changed;
               removed_releases := dirs_to_remove;
               absolute_path := path;
               symlinked_folders := symlinked_folders;
               releases := existing_dirs;
               releases_path := os.path.join path subfolder |}
  | _ => fail_json Invalid_prefix
  end.

(** ** Vocabulary of the specification *)

(** The file tree a computation leaves behind, however it ends. *)
Definition state_of {A} (r : res A) : FS :=
  match r with
  | Ok _ fs => fs
  | Raise _ fs => fs
  | FailJson _ fs => fs
  end.

(** The error kinds of the specification (section 7), and the kind of each
    [fail_json] message. *)
Inductive error_kind := ConfigurationError | ConflictError | FilesystemError.

Definition kind (f : failure) : error_kind :=
  match f with
  | Invalid_prefix | Invalid_keep | Invalid_timestamp | Invalid_symlink => ConfigurationError
  | Release_directory_not_a_directory _ | Symlink_exists_but_is_not_a_symlink _ => ConflictError
  | Could_not_remove_directory _ | Error_creating_release_directory _
  | Error_creating_symlink => FilesystemError
  end.

(** The tests of [os.path] as functions of the tree. *)
Definition exists_b (fs : FS) (s : string) : bool :=
  match stat fs s with inr (_, Some _) => true | _ => false end.
Definition isdir_b (fs : FS) (s : string) : bool :=
  match stat fs s with inr (_, Some Dir) => true | _ => false end.
Definition islink_b (fs : FS) (s : string) : bool :=
  match lstat fs s with inr (_, Some (Link _)) => true | _ => false end.

(** The text of the link at [s], if [s] is a link. *)
Definition link_text (fs : FS) (s : string) : option string :=
  match lstat fs s with inr (_, Some (Link t)) => Some t | _ => None end.

(** The test of line 101. *)
Definition is_release (fs : FS) (abs_path prefix file : string) : bool :=
  startswith file prefix
  && (isdir_b fs (os.path.join abs_path file)
      && negb (islink_b fs (os.path.join abs_path file))).

(** The release a watched name protects: the basename of the text of the
    link [path/name]. *)
Definition protected_by (fs : FS) (path : string) (symlink_dir : pyval) : option string :=
  match symlink_dir with
  | PStr s => os.path.basename <$> link_text fs (os.path.join path s)
  | _ => None
  end.

(** What the report says about a watched name. *)
Definition reported (fs : FS) (path : string) (symlink_dir : pyval) : option string :=
  match symlink_dir with
  | PStr s => os.path.join path <$> link_text fs (os.path.join path s)
  | _ => None
  end.

(** The link [path/name] resolves to the release [release] of the releases
    subfolder: following it ends on an existing entry whose place is
    [release] directly under the directory [path/subfolder]. *)
Definition resolves_to_release (fs : FS) (path subfolder : string) (symlink_dir : pyval)
    (release : string) : Prop :=
  exists s p q n,
    symlink_dir = PStr s /\
    islink_b fs (os.path.join path s) = true /\
    stat fs (os.path.join path s) = inr (p, Some n) /\
    stat fs (os.path.join path subfolder) = inr (q, Some Dir) /\
    p = q ++ [release].

(** [fs'] is [fs] with some directories added: nothing removed, nothing
    altered, no file and no link created. *)
Definition extends (fs fs' : FS) : Prop :=
  fs ⊆ fs' /\ forall p n, fs' !! p = Some n -> fs !! p = None -> n = Dir.

(** A file tree written down entry by entry. *)
Definition tree (l : list (fpath * node)) : FS := list_to_map l.

(** What one can see of an outcome: how it ended and the entries left. *)
Definition observe {A} (r : res A) : (A + (exn + failure)) * list (fpath * node) :=
  match r with
  | Ok a fs => (inl a, map_to_list fs)
  | Raise e fs => (inr (inl e), map_to_list fs)
  | FailJson f fs => (inr (inr f), map_to_list fs)
  end.

(** One round of the loop of lines 183-188 as a function of the tree. *)
Definition unprotect (fs : FS) (path : string) (dirs_to_remove : list string)
    (symlink_dir : pyval) : list string :=
  match protected_by fs path symlink_dir with
  | Some protected => default dirs_to_remove (list_remove protected dirs_to_remove)
  | None => dirs_to_remove
  end.

(** The claim of the specification about protection, in its words: a
    release leaves the candidates only on account of a watched symlink that
    resolves to it inside the releases subfolder. *)
Definition protects_only_resolved (fs : FS) (path subfolder prefix : string)
    (symlink_dirs : list pyval) : Prop :=
  forall (rels cands : list string) (release : string),
    get_releases path subfolder prefix fs = Ok rels fs ->
    candidates path subfolder prefix true symlink_dirs fs = Ok cands fs ->
    release ∈ rels -> release ∉ cands ->
    exists symlink_dir,
      symlink_dir ∈ symlink_dirs /\
      resolves_to_release fs path subfolder symlink_dir release.

(** The claim of the specification about configuration errors, in its
    words: an invocation that fails with one has not touched the tree. *)
Definition configuration_errors_before_access : Prop :=
  forall (module : AnsibleModule) (fs : FS) (f : failure) (fs' : FS),
    main module fs = FailJson f fs' -> kind f = ConfigurationError -> fs' = fs.

(** A computation that only looks at the file tree. *)
Definition reads_only {A} (m : M A) : Prop := forall fs, state_of (m fs) = fs.

(** An outcome reached from [fs] by adding directories at most, and not
    through [fail_json]. *)
Definition mkdirs_outcome {A : Type} (fs : FS) (r : res A) : Prop :=
  match r with
  | Ok _ fs' | Raise _ fs' => extends fs fs'
  | FailJson _ _ => False
  end.

(** A name as a directory holds it: not empty, not "." or "..", and
    without a slash. *)
Definition plain_name (c : string) : bool :=
  negb (is_dot c) && negb (String.eqb c "..") && bool_decide (components c = [c]).

(** Every name on every path of the tree is such a name, as in any file
    system. *)
Definition plain_names (fs : FS) : bool :=
  forallb (fun kv : fpath * node => forallb plain_name kv.1) (map_to_list fs).

(** Python's [==] on parameter values is equality up to reading booleans
    as integers. *)
Definition py_key (v : pyval) : pyval :=
  match v with
  | PBool b => PInt (if b then 1 else 0)
  | _ => v
  end.

(** ** Scenarios *)

(** A task on [/srv/app] with the defaults of [argument_spec] for the
    prefix, the subfolder and [keep_symlinked_dirs]. *)
Definition task (state : option state_choice) (keep : Z)
    (symlink_dirs timestamp symlink : pyval) (check_mode : bool) : AnsibleModule :=
  {| params := {| path := "/srv/app"; prefix := PStr "release-"; subfolder := "releases";
                  keep := keep; keep_symlinked_dirs := true; symlink_dirs := symlink_dirs;
                  state := state; timestamp := timestamp; symlink := symlink |};
     check_mode := check_mode |}.

(** The base path and an empty releases subfolder. *)
Definition base_tree : FS :=
  tree [ (["srv"], Dir); (["srv"; "app"], Dir); (["srv"; "app"; "releases"], Dir) ].

(** The same with one release. *)
Definition one_release_tree : FS :=
  tree [ (["srv"], Dir); (["srv"; "app"], Dir); (["srv"; "app"; "releases"], Dir);
         (["srv"; "app"; "releases"; "release-20150212"], Dir) ].

(** The same with [current] pointing at that release. *)
Definition linked_release_tree : FS :=
  tree [ (["srv"], Dir); (["srv"; "app"], Dir); (["srv"; "app"; "releases"], Dir);
         (["srv"; "app"; "releases"; "release-20150212"], Dir);
         (["srv"; "app"; "current"], Link "/srv/app/releases/release-20150212") ].

(** Three releases, [current] pointing at the second. *)
Definition three_releases_tree : FS :=
  tree [ (["srv"], Dir); (["srv"; "app"], Dir); (["srv"; "app"; "releases"], Dir);
         (["srv"; "app"; "releases"; "release-1"], Dir);
         (["srv"; "app"; "releases"; "release-2"], Dir);
         (["srv"; "app"; "releases"; "release-3"], Dir);
         (["srv"; "app"; "current"], Link "/srv/app/releases/release-2") ].

(** What is left of it once the first and the third release are gone. *)
Definition second_release_tree : FS :=
  tree [ (["srv"], Dir); (["srv"; "app"], Dir); (["srv"; "app"; "releases"], Dir);
         (["srv"; "app"; "releases"; "release-2"], Dir);
         (["srv"; "app"; "current"], Link "/srv/app/releases/release-2") ].

(** Three dated releases, no symlink. *)
Definition dated_releases_tree : FS :=
  tree [ (["srv"], Dir); (["srv"; "app"], Dir); (["srv"; "app"; "releases"], Dir);
         (["srv"; "app"; "releases"; "release-20240101"], Dir);
         (["srv"; "app"; "releases"; "release-20240102"], Dir);
         (["srv"; "app"; "releases"; "release-20240103"], Dir) ].

Definition newest_release_tree : FS :=
  tree [ (["srv"], Dir); (["srv"; "app"], Dir); (["srv"; "app"; "releases"], Dir);
         (["srv"; "app"; "releases"; "release-20240103"], Dir) ].

(** A plain file where the symlink [current] is to go. *)
Definition taken_tree : FS :=
  tree [ (["srv"], Dir); (["srv"; "app"], Dir); (["srv"; "app"; "releases"], Dir);
         (["srv"; "app"; "current"], File) ].

Definition taken_release_tree : FS :=
  tree [ (["srv"], Dir); (["srv"; "app"], Dir); (["srv"; "app"; "releases"], Dir);
         (["srv"; "app"; "current"], File);
         (["srv"; "app"; "releases"; "release-20150212"], Dir) ].

(** A releases subfolder with a release, a file, a link and a directory
    of another name. *)
Definition enumeration_tree : FS :=
  tree [ (["srv"], Dir);
         (["srv"; "app"], Dir);
         (["srv"; "app"; "releases"], Dir);
         (["srv"; "app"; "releases"; "release-1"], Dir);
         (["srv"; "app"; "releases"; "release-2"], File);
         (["srv"; "app"; "releases"; "release-3"], Link "release-1");
         (["srv"; "app"; "releases"; "shared"], Dir) ].

(** Three releases; [current] points at a directory of the same name as a
    release but outside the releases subfolder, [previous] points nowhere. *)
Definition stray_links_tree : FS :=
  tree [ (["srv"], Dir);
         (["srv"; "app"], Dir);
         (["srv"; "app"; "releases"], Dir);
         (["srv"; "app"; "releases"; "release-1"], Dir);
         (["srv"; "app"; "releases"; "release-2"], Dir);
         (["srv"; "app"; "releases"; "release-3"], Dir);
         (["srv"; "backup"], Dir);
         (["srv"; "backup"; "release-2"], Dir);
         (["srv"; "app"; "current"], Link "/srv/backup/release-2");
         (["srv"; "app"; "previous"], Link "/nowhere/release-1") ].




(** Three releases, [current] pointing at [latest] and [latest] at the
    second release. *)
Definition chained_links_tree : FS :=
  tree [ (["srv"], Dir); (["srv"; "app"], Dir); (["srv"; "app"; "releases"], Dir);
         (["srv"; "app"; "releases"; "release-1"], Dir);
         (["srv"; "app"; "releases"; "release-2"], Dir);
         (["srv"; "app"; "releases"; "release-3"], Dir);
         (["srv"; "app"; "latest"], Link "releases/release-2");
         (["srv"; "app"; "current"], Link "latest") ].

(** A plain file where the release directory is to go. *)
Definition occupied_tree : FS :=
  tree [ (["srv"], Dir); (["srv"; "app"], Dir); (["srv"; "app"; "releases"], Dir);
         (["srv"; "app"; "releases"; "release-20150212"], File) ].

(** What is left of the three releases once the third and the second are
    gone. *)
Definition first_release_tree : FS :=
  tree [ (["srv"], Dir); (["srv"; "app"], Dir); (["srv"; "app"; "releases"], Dir);
         (["srv"; "app"; "releases"; "release-1"], Dir);
         (["srv"; "app"; "current"], Link "/srv/app/releases/release-2") ].

(** A clean task whose releases subfolder is named through one of the
    releases. *)
Definition nested_task : AnsibleModule :=
  {| params := {| path := "/srv/app"; prefix := PStr "release-";
                  subfolder := "releases/release-2/..";
                  keep := 0; keep_symlinked_dirs := true; symlink_dirs := PNone;
                  state := Some State_cleaned; timestamp := PNone; symlink := PNone |};
     check_mode := false |}.

(** The tasks of the scenarios below and what they report. *)
Definition clean_task : AnsibleModule :=
  task (Some State_cleaned) 0 PNone PNone (PStr "current") false.

Definition clean_report : result :=
  {| changed := true;
     removed_releases := ["release-3"; "release-1"];
     absolute_path := "/srv/app";
     symlinked_folders := [(PStr "current", Some "/srv/app/releases/release-2")];
     releases := ["release-2"];
     releases_path := "/srv/app/releases" |}.

Definition create_task (check_mode : bool) : AnsibleModule :=
  task (Some State_exists) 5 PNone (PStr "20150212") (PStr "current") check_mode.

Definition create_report : result :=
  {| changed := true;
     removed_releases := [];
     absolute_path := "/srv/app";
     symlinked_folders := [(PStr "current", Some "/srv/app/releases/release-20150212")];
     releases := ["release-20150212"];
     releases_path := "/srv/app/releases" |}.

Definition keep_all_task : AnsibleModule :=
  task (Some State_cleaned) 5 PNone PNone PNone false.

Definition keep_all_report : result :=
  {| changed := false;
     removed_releases := [];
     absolute_path := "/srv/app";
     symlinked_folders := [];
     releases := ["release-20240103"; "release-20240102"; "release-20240101"];
     releases_path := "/srv/app/releases" |}.

(** ** Frames *)

(** [fs'] has every file and every directory of [fs], as it was; links may
    have gone or changed. *)
Definition keeps_files_and_dirs (fs fs' : FS) : Prop :=
  forall k n, fs !! k = Some n -> (forall t, n <> Link t) -> fs' !! k = Some n.

(** A computation whose final tree is related by [R] to the tree it starts
    from, however it ends. *)
Definition frames {A : Type} (R : relation FS) (m : M A) : Prop :=
  forall fs, R fs (state_of (m fs)).

(** No entry of [fs] lies at [p] or below it. *)
Definition nothing_under (p : fpath) (fs : FS) : Prop :=
  forall k n, fs !! k = Some n -> under p k = false.

(** * Properties *)

(** The path walk is unfolded by its equation, never by [simpl]. *)
#[global] Arguments namei : simpl never.
#[global] Arguments resolve : simpl never.
#[global] Arguments stat : simpl never.
#[global] Arguments lstat : simpl never.

(** ** The order on names *)

Lemma string_compare_le_trans (a b c : string) :
  String.compare a b <> Gt -> String.compare b c <> Gt -> String.compare a c <> Gt.
Proof.
  revert b c. induction a as [|x a IH]; intros [|y b] [|z c]; simpl; try congruence.
  destruct (Ascii.compare x y) eqn:Exy; [| |congruence].
  - apply Ascii.compare_eq_iff in Exy as ->.
    destruct (Ascii.compare y z); [apply IH|congruence|congruence].
  - intros _. destruct (Ascii.compare y z) eqn:Eyz; [| |congruence].
    + apply Ascii.compare_eq_iff in Eyz as <-. rewrite Exy. congruence.
    + intros _. unfold Ascii.compare in *.
      rewrite N.compare_lt_iff in Exy, Eyz.
      assert (H : (N_of_ascii x ?= N_of_ascii z)%N = Lt)
        by (apply N.compare_lt_iff; lia).
      rewrite H. congruence.
Qed.

#[global] Instance str_ge_trans : Transitive str_ge.
Proof.
  intros a b c Hab Hbc. unfold str_ge, String.leb in *.
  pose proof (string_compare_le_trans c b a) as H.
  destruct (String.compare c b); destruct (String.compare b a);
    destruct (String.compare c a); try done; exfalso; apply H; congruence.
Qed.

#[global] Instance str_ge_total : Total str_ge.
Proof. intros a b. unfold str_ge. destruct (String.leb_total a b); auto. Qed.

#[global] Instance str_ge_antisym : AntiSymm (=) str_ge.
Proof. intros a b Hab Hba. unfold str_ge in *. by apply String.leb_antisym. Qed.

Lemma sorted_reverse_sorted (l : list string) : StronglySorted str_ge (sorted_reverse l).
Proof. apply StronglySorted_merge_sort; apply _. Qed.

Lemma sorted_reverse_perm (l : list string) : sorted_reverse l ≡ₚ l.
Proof. apply merge_sort_Permutation. Qed.

(** Python's [sorted] is some other stable sort; on names it cannot give
    another list: a descending arrangement of a list is unique. *)
Lemma sorted_reverse_unique (l l' : list string) :
  l' ≡ₚ l -> StronglySorted str_ge l' -> l' = sorted_reverse l.
Proof.
  intros Hp Hs. apply (StronglySorted_unique str_ge); [done| |].
  - apply sorted_reverse_sorted.
  - by rewrite sorted_reverse_perm.
Qed.

Lemma slice_from_split (k : Z) (l : list string) :
  l = take (Z.to_nat k) l ++ slice_from k l.
Proof. unfold slice_from. by rewrite take_drop. Qed.

Lemma kept_above_removed (k : Z) (l : list string) (x y : string) :
  x ∈ take (Z.to_nat k) (sorted_reverse l) ->
  y ∈ slice_from k (sorted_reverse l) ->
  str_ge x y.
Proof.
  intros Hx Hy. pose proof (sorted_reverse_sorted l) as Hs.
  rewrite (slice_from_split k (sorted_reverse l)) in Hs.
  by eapply StronglySorted_app_1_elem_of in Hs.
Qed.

(** ** Computations *)

Lemma bind_Ok {A B} (m : M A) (k : A -> M B) fs b fs' :
  bind m k fs = Ok b fs' <-> exists a fs1, m fs = Ok a fs1 /\ k a fs1 = Ok b fs'.
Proof.
  unfold bind. split.
  - destruct (m fs) as [a fs1| |]; [eauto|done|done].
  - by intros (a & fs1 & -> & ?).
Qed.

Lemma bind_FailJson {A B} (m : M A) (k : A -> M B) fs f fs' :
  bind m k fs = FailJson f fs' <->
  m fs = FailJson f fs' \/ exists a fs1, m fs = Ok a fs1 /\ k a fs1 = FailJson f fs'.
Proof.
  unfold bind. split.
  - destruct (m fs) as [a fs1| |]; intros H; [right; eauto|discriminate|left; congruence].
  - intros [->|(a & fs1 & -> & ?)]; done.
Qed.

Lemma bind_Raise {A B} (m : M A) (k : A -> M B) fs e fs' :
  bind m k fs = Raise e fs' <->
  m fs = Raise e fs' \/ exists a fs1, m fs = Ok a fs1 /\ k a fs1 = Raise e fs'.
Proof.
  unfold bind. split.
  - destruct (m fs) as [a fs1| |]; intros H; [right; eauto|left; congruence|discriminate].
  - intros [->|(a & fs1 & -> & ?)]; done.
Qed.

Lemma bind_reads {A B} (m : M A) (k : A -> M B) fs a :
  m fs = Ok a fs -> bind m k fs = k a fs.
Proof. unfold bind. by intros ->. Qed.

Lemma exists_spec s fs : os.path.exists_ s fs = Ok (exists_b fs s) fs.
Proof.
  unfold os.path.exists_, exists_b.
  destruct (stat fs s) as [|[? [|]]]; done.
Qed.

Lemma isdir_spec s fs : os.path.isdir s fs = Ok (isdir_b fs s) fs.
Proof.
  unfold os.path.isdir, isdir_b.
  destruct (stat fs s) as [|[? [[]|]]]; done.
Qed.

Lemma islink_spec s fs : os.path.islink s fs = Ok (islink_b fs s) fs.
Proof.
  unfold os.path.islink, islink_b.
  destruct (lstat fs s) as [|[? [[]|]]]; done.
Qed.

Lemma readlink_spec s fs :
  os.readlink s fs =
  match link_text fs s with
  | Some t => Ok t fs
  | None => Raise (OSError match lstat fs s with
                           | inl e => e
                           | inr (_, Some _) => EINVAL
                           | inr (_, None) => ENOENT
                           end) fs
  end.
Proof.
  unfold os.readlink, link_text.
  destruct (lstat fs s) as [|[? [[]|]]]; done.
Qed.

Lemma listdir_state s fs : state_of (os.listdir s fs) = fs.
Proof.
  unfold os.listdir. destruct (stat fs s) as [|[? [[]|]]]; done.
Qed.

Lemma listdir_Ok s fs files fs' :
  os.listdir s fs = Ok files fs' ->
  fs' = fs /\ exists p, stat fs s = inr (p, Some Dir) /\ files = children fs p.
Proof.
  unfold os.listdir. destruct (stat fs s) as [|[p [[]|]]]; try done.
  intros [= <- <-]. eauto.
Qed.

Lemma and_spec (a b : M bool) fs x y :
  a fs = Ok x fs -> b fs = Ok y fs -> and_ a b fs = Ok (x && y) fs.
Proof.
  intros Ha Hb. unfold and_. rewrite (bind_reads _ _ _ _ Ha). by destruct x.
Qed.

Lemma not_spec (a : M bool) fs x : a fs = Ok x fs -> not_ a fs = Ok (negb x) fs.
Proof. intros Ha. unfold not_. by rewrite (bind_reads _ _ _ _ Ha). Qed.

(** ** Enumeration *)

Lemma get_releases_body fs abs_path prefix file (acc : list string) :
  (let abs_file := os.path.join abs_path file in
   keep <- and_ (ret (startswith file prefix))
             (and_ (os.path.isdir abs_file) (not_ (os.path.islink abs_file))) ;;
   if keep : bool then ret (acc ++ [file]) else ret acc) fs
  = Ok (if is_release fs abs_path prefix file then acc ++ [file] else acc) fs.
Proof.
  cbv zeta. unfold is_release.
  rewrite (bind_reads _ _ _ (startswith file prefix
     && (isdir_b fs (os.path.join abs_path file) && negb (islink_b fs (os.path.join abs_path file))))).
  - by destruct (_ && _).
  - apply and_spec; [reflexivity|]. apply and_spec; [apply isdir_spec|].
    apply not_spec, islink_spec.
Qed.

Lemma get_releases_loop fs abs_path prefix files acc :
  for_each files
    (fun file get_releases =>
       let abs_file := os.path.join abs_path file in
       keep <- and_ (ret (startswith file prefix))
                 (and_ (os.path.isdir abs_file) (not_ (os.path.islink abs_file))) ;;
       if keep : bool then ret (get_releases ++ [file]) else ret get_releases)
    acc fs
  = Ok (acc ++ filter (fun file => is_release fs abs_path prefix file) files) fs.
Proof.
  revert acc. induction files as [|file files IH]; intros acc; simpl.
  - by rewrite app_nil_r.
  - rewrite (bind_reads _ _ _ _ (get_releases_body fs abs_path prefix file acc)).
    rewrite IH, filter_cons.
    destruct (is_release fs abs_path prefix file) eqn:E.
    + rewrite decide_True by done. by rewrite <- app_assoc.
    + rewrite decide_False; [done|]. by intros [].
Qed.

Lemma get_releases_spec path subfolder prefix fs :
  get_releases path subfolder prefix fs =
  match os.listdir (os.path.join path subfolder) fs with
  | Ok files _ =>
      Ok (filter (fun file => is_release fs (os.path.join path subfolder) prefix file) files) fs
  | Raise e _ => Raise e fs
  | FailJson f _ => FailJson f fs
  end.
Proof.
  unfold get_releases, bind.
  pose proof (listdir_state (os.path.join path subfolder) fs) as Hs.
  destruct (os.listdir (os.path.join path subfolder) fs) as [files fs1|e fs1|f fs1];
    simpl in Hs; subst fs1; [|done|done].
  apply get_releases_loop.
Qed.

Lemma get_releases_reads path subfolder prefix : reads_only (get_releases path subfolder prefix).
Proof.
  intros fs. rewrite get_releases_spec.
  by destruct (os.listdir (os.path.join path subfolder) fs).
Qed.

Lemma child_of_Some p k c : child_of p k = Some c <-> k = p ++ [c].
Proof.
  unfold child_of. split.
  - destruct (reverse k) as [|c' rq] eqn:E; [done|].
    case_decide as Hp; [|done]. intros [= ->].
    apply (f_equal reverse) in E. rewrite reverse_involutive in E.
    by rewrite E, reverse_cons, Hp.
  - intros ->. rewrite reverse_app. simpl. rewrite decide_True; [done|].
    apply reverse_involutive.
Qed.

Lemma elem_of_children fs p c : c ∈ children fs p <-> is_Some (fs !! (p ++ [c])).
Proof.
  unfold children. rewrite list_elem_of_omap. split.
  - intros (k & Hk & Hc). apply child_of_Some in Hc as ->.
    apply list_elem_of_fmap in Hk as ([k v] & -> & Hkv).
    apply elem_of_map_to_list in Hkv. eauto.
  - intros [v Hv]. exists (p ++ [c]). split; [|by apply child_of_Some].
    apply list_elem_of_fmap. exists (p ++ [c], v). split; [done|].
    by apply elem_of_map_to_list.
Qed.

Lemma NoDup_omap_inj {A B} (f : A -> option B) (l : list A) :
  (forall x y z, f x = Some z -> f y = Some z -> x = y) ->
  NoDup l -> NoDup (omap f l).
Proof.
  intros Hinj. induction 1 as [|x l Hx Hl IH]; simpl; [constructor|].
  destruct (f x) as [z|] eqn:E; [|done].
  constructor; [|done]. rewrite list_elem_of_omap. intros (y & Hy & Hfy).
  by rewrite (Hinj x y z E Hfy) in Hx.
Qed.

Lemma NoDup_children fs p : NoDup (children fs p).
Proof.
  apply NoDup_omap_inj; [|apply NoDup_fst_map_to_list].
  intros x y z Hx Hy. apply child_of_Some in Hx, Hy. congruence.
Qed.

Lemma get_releases_Ok path subfolder prefix fs rels fs' :
  get_releases path subfolder prefix fs = Ok rels fs' ->
  fs' = fs /\ NoDup rels /\
  exists files,
    os.listdir (os.path.join path subfolder) fs = Ok files fs /\
    rels = filter (fun file => is_release fs (os.path.join path subfolder) prefix file) files.
Proof.
  rewrite get_releases_spec.
  destruct (os.listdir (os.path.join path subfolder) fs) as [files fs1| |] eqn:E; [|done|done].
  intros [= <- <-]. apply listdir_Ok in E as (-> & p & Hp & ->).
  split; [done|]. split; [apply NoDup_filter, NoDup_children|]. eauto.
Qed.

Lemma observe_inj {A} (r1 r2 : res A) : observe r1 = observe r2 -> r1 = r2.
Proof.
  destruct r1, r2; simpl; intros H; inversion H as [[Ha Hl]]; subst;
    f_equal; apply map_to_list_inj; by rewrite Hl.
Qed.

(** C5. For every entry of the releases subfolder: it is among the
    enumerated releases iff its name starts with the prefix, it is a
    directory and it is not a symlink.  The enumeration leaves the file
    tree as it found it. *)
Theorem enumeration_filter path subfolder prefix fs files :
  os.listdir (os.path.join path subfolder) fs = Ok files fs ->
  exists rels,
    get_releases path subfolder prefix fs = Ok rels fs /\
    forall file,
      file ∈ rels <->
      file ∈ files /\
      startswith file prefix = true /\
      os.path.isdir (os.path.join (os.path.join path subfolder) file) fs = Ok true fs /\
      os.path.islink (os.path.join (os.path.join path subfolder) file) fs = Ok false fs.
Proof.
  intros Hl. eexists. split; [by rewrite get_releases_spec, Hl|].
  intros file. rewrite list_elem_of_filter, isdir_spec, islink_spec.
  unfold is_release.
  destruct (startswith file prefix), (isdir_b fs _), (islink_b fs _); simpl;
    (split; [intros [? ?]|intros (? & ? & ? & ?)]); done.
Qed.

Lemma enumeration_filter_witness :
  exists rels,
    get_releases "/srv/app" "releases" "release-" enumeration_tree
    = Ok rels enumeration_tree /\
    forall file,
      file ∈ rels <->
      file ∈ children enumeration_tree ["srv"; "app"; "releases"] /\
      startswith file "release-" = true /\
      os.path.isdir (os.path.join (os.path.join "/srv/app" "releases") file) enumeration_tree
      = Ok true enumeration_tree /\
      os.path.islink (os.path.join (os.path.join "/srv/app" "releases") file) enumeration_tree
      = Ok false enumeration_tree.
Proof.
  apply (enumeration_filter "/srv/app" "releases" "release-" enumeration_tree).
  apply observe_inj. vm_compute. reflexivity.
Defined.

Example enumeration_example :
  get_releases "/srv/app" "releases" "release-" enumeration_tree
  = Ok ["release-1"] enumeration_tree.
Proof. apply observe_inj. vm_compute. reflexivity. Qed.

(** ** Protection *)

Lemma list_remove_None x l : list_remove x l = None <-> x ∉ l.
Proof.
  induction l as [|y l IH]; simpl.
  - split; [intros _; apply not_elem_of_nil|done].
  - destruct (String.eqb_spec y x) as [->|Hne].
    + split; [done|]. intros H. destruct H. by left.
    + rewrite not_elem_of_cons, <- IH.
      destruct (list_remove x l); simpl; split; try done; intros [? ?]; done.
Qed.

Lemma list_remove_Some x l l' :
  NoDup l -> list_remove x l = Some l' ->
  NoDup l' /\ forall y, y ∈ l' <-> y ∈ l /\ y <> x.
Proof.
  intros Hnd. revert l'. induction Hnd as [|y l Hy Hnd IH]; intros l'; simpl; [done|].
  destruct (String.eqb_spec y x) as [->|Hne].
  - intros [= <-]. split; [done|]. intros z. rewrite elem_of_cons.
    split; [|intros [[?|?] ?]; done]. intros Hz. split; [by right|]. by intros ->.
  - destruct (list_remove x l) as [l0|]; simpl; [|done]. intros [= <-].
    destruct (IH l0 eq_refl) as [Hnd0 Hin0]. split.
    + constructor; [|done]. rewrite Hin0. by intros [? _].
    + intros z. rewrite !elem_of_cons, Hin0. split.
      * intros [->|[? ?]]; split; auto.
      * intros [[->|?] ?]; auto.
Qed.

Lemma unprotect_spec fs path l v :
  NoDup l ->
  NoDup (unprotect fs path l v) /\
  forall y, y ∈ unprotect fs path l v <-> y ∈ l /\ protected_by fs path v <> Some y.
Proof.
  intros Hnd. unfold unprotect. destruct (protected_by fs path v) as [x|].
  - destruct (list_remove x l) as [l'|] eqn:E; simpl.
    + destruct (list_remove_Some x l l' Hnd E) as [? Hin]. split; [done|].
      intros y. rewrite Hin. split; intros [? ?]; split; congruence.
    + apply list_remove_None in E. split; [done|]. intros y.
      split; [|by intros [? _]]. intros Hy. split; [done|]. by intros [= ->].
  - split; [done|]. intros y. split; [|by intros [? _]]. by intros ?.
Qed.

Lemma protect_round fs path v l :
  try_except
    (link <- join_py path v ;;
     target <- os.readlink link ;;
     let protected := os.path.basename target in
     remove_py protected l)
    (ret l) fs
  = Ok (unprotect fs path l v) fs.
Proof.
  unfold try_except, unprotect, protected_by, bind, join_py.
  destruct v as [|s|n|b]; try done. unfold ret at 1.
  rewrite readlink_spec. destruct (link_text fs (os.path.join path s)) as [t|]; [|done].
  simpl. unfold remove_py. by destruct (list_remove (os.path.basename t) l).
Qed.

Lemma protect_spec fs path vs l :
  protect path vs l fs = Ok (foldl (unprotect fs path) l vs) fs.
Proof.
  unfold protect. revert l. induction vs as [|v vs IH]; intros l; simpl; [done|].
  by rewrite (bind_reads _ _ _ _ (protect_round fs path v l)).
Qed.

Lemma foldl_unprotect_spec fs path vs l :
  NoDup l ->
  NoDup (foldl (unprotect fs path) l vs) /\
  forall y, y ∈ foldl (unprotect fs path) l vs <->
            y ∈ l /\ forall v, v ∈ vs -> protected_by fs path v <> Some y.
Proof.
  revert l. induction vs as [|v vs IH]; intros l Hnd; simpl.
  - split; [done|]. intros y. split; [|by intros [? _]].
    intros ?. split; [done|]. intros v Hv. by apply not_elem_of_nil in Hv.
  - destruct (unprotect_spec fs path l v Hnd) as [Hnd1 Hin1].
    destruct (IH _ Hnd1) as [Hnd2 Hin2]. split; [done|].
    intros y. rewrite Hin2, Hin1. split.
    + intros [[? ?] Hvs]. split; [done|]. intros v' [->|?]%elem_of_cons; auto.
    + intros [? Hvs]. split; [split; [done|]|].
      * apply Hvs. by left.
      * intros v' ?. apply Hvs. by right.
Qed.

Lemma candidates_spec path subfolder prefix keep_symlinked_dirs vs fs :
  candidates path subfolder prefix keep_symlinked_dirs vs fs =
  match get_releases path subfolder prefix fs with
  | Ok rels _ =>
      Ok (if keep_symlinked_dirs then foldl (unprotect fs path) rels vs else rels) fs
  | Raise e _ => Raise e fs
  | FailJson f _ => FailJson f fs
  end.
Proof.
  unfold candidates, bind.
  pose proof (get_releases_reads path subfolder prefix fs) as Hs.
  destruct (get_releases path subfolder prefix fs) as [rels fs1|e fs1|f fs1];
    simpl in Hs; subst fs1; [|done|done].
  destruct keep_symlinked_dirs; [apply protect_spec|done].
Qed.

Lemma candidates_reads path subfolder prefix keep_symlinked_dirs vs :
  reads_only (candidates path subfolder prefix keep_symlinked_dirs vs).
Proof.
  intros fs. rewrite candidates_spec.
  by destruct (get_releases path subfolder prefix fs).
Qed.

Lemma stray_links_facts :
  stat stray_links_tree "/srv/app/current" = inr (["srv"; "backup"; "release-2"], Some Dir) /\
  stat stray_links_tree "/srv/app/previous" = inl ENOENT /\
  stat stray_links_tree "/srv/app/releases" = inr (["srv"; "app"; "releases"], Some Dir) /\
  get_releases "/srv/app" "releases" "release-" stray_links_tree
  = Ok ["release-3"; "release-2"; "release-1"] stray_links_tree /\
  candidates "/srv/app" "releases" "release-" true [PStr "current"; PStr "previous"]
    stray_links_tree
  = Ok ["release-3"] stray_links_tree.
Proof.
  repeat split; try (vm_compute; reflexivity); apply observe_inj; vm_compute; reflexivity.
Qed.

(** C3, as stated, fails: a link that points outside the releases subfolder
    and a broken link each protect the release whose name ends their text. *)
Lemma stray_links_protect :
  ~ protects_only_resolved stray_links_tree "/srv/app" "releases" "release-"
      [PStr "current"; PStr "previous"].
Proof.
  destruct stray_links_facts as (Hcur & Hprev & Hrel & Hget & Hcand).
  intros H.
  destruct (H _ _ "release-1" Hget Hcand) as (v & Hv & s & p & q & n & -> & _ & Hs & Hq & ->).
  { by apply (bool_decide_unpack _). }
  { by apply (bool_decide_unpack _). }
  change (os.path.join "/srv/app" "releases") with "/srv/app/releases" in Hq.
  rewrite Hrel in Hq. injection Hq as <-.
  apply elem_of_cons in Hv as [[= ->]|Hv].
  - change (os.path.join "/srv/app" "current") with "/srv/app/current" in Hs.
    rewrite Hcur in Hs. discriminate.
  - apply list_elem_of_singleton in Hv as [= ->].
    change (os.path.join "/srv/app" "previous") with "/srv/app/previous" in Hs.
    rewrite Hprev in Hs. discriminate.
Qed.

(** C3, amended.  With protection on, a release leaves the candidates
    exactly when some watched name is a symlink under the base path whose
    text ends, after its last slash, in the release's name.  The target is
    not resolved: it need not exist nor lie inside the releases subfolder. *)
Theorem protection_by_link_text path subfolder prefix symlink_dirs fs rels :
  get_releases path subfolder prefix fs = Ok rels fs ->
  exists cands,
    candidates path subfolder prefix true symlink_dirs fs = Ok cands fs /\
    forall release,
      release ∈ cands <->
      release ∈ rels /\
      forall symlink_dir,
        symlink_dir ∈ symlink_dirs -> protected_by fs path symlink_dir <> Some release.
Proof.
  intros Hget. rewrite candidates_spec, Hget. eexists. split; [done|].
  apply get_releases_Ok in Hget as (_ & Hnd & _).
  by apply foldl_unprotect_spec.
Qed.

Lemma protection_by_link_text_witness :
  exists cands,
    candidates "/srv/app" "releases" "release-" true [PStr "current"; PStr "previous"]
      stray_links_tree
    = Ok cands stray_links_tree /\
    forall release,
      release ∈ cands <->
      release ∈ ["release-3"; "release-2"; "release-1"] /\
      forall symlink_dir,
        symlink_dir ∈ [PStr "current"; PStr "previous"] ->
        protected_by stray_links_tree "/srv/app" symlink_dir <> Some release.
Proof.
  apply (protection_by_link_text "/srv/app" "releases" "release-"
           [PStr "current"; PStr "previous"] stray_links_tree).
  apply observe_inj. vm_compute. reflexivity.
Defined.

(** ** The shape of a run *)

Ltac bind_inv H :=
  let a := fresh "a" in
  let fs := fresh "fs" in
  let H1 := fresh "H" in
  apply bind_Ok in H as (a & fs & H1 & H).

Lemma keep_accepted n :
  negb (isinstance_int n) || (n <? 0)%Z = false <-> isinstance_int n = true /\ (0 <= n)%Z.
Proof.
  rewrite orb_false_iff, negb_false_iff, Z.ltb_ge. done.
Qed.

Lemma main_Ok module fs r fs' :
  main module fs = Ok r fs' ->
  exists prefix_s directories_exist fs1 dirs_to_remove changed0 fs2 changed1 fs3
         existing_dirs folders,
    prefix (params module) = PStr prefix_s /\
    (0 <= keep (params module))%Z /\
    setup (check_mode module) (path (params module)) (subfolder (params module)) fs
    = Ok directories_exist fs1 /\
    match state (params module) with
    | Some State_cleaned =>
        cleaned (check_mode module) (path (params module)) (subfolder (params module))
          prefix_s (keep (params module)) (keep_symlinked_dirs (params module))
          (watched (symlink_dirs (params module)) (symlink (params module)))
    | _ => ret ([], false)
    end fs1 = Ok (dirs_to_remove, changed0) fs2 /\
    match state (params module) with
    | Some State_exists =>
        exists_ (check_mode module) (path (params module)) (subfolder (params module))
          prefix_s (timestamp (params module)) (symlink (params module))
    | _ => ret changed0
    end fs2 = Ok changed1 fs3 /\
    (if directories_exist
     then gather (path (params module)) (subfolder (params module)) prefix_s
            (watched (symlink_dirs (params module)) (symlink (params module)))
     else ret ([], [])) fs3 = Ok (existing_dirs, folders) fs' /\
    r = {| changed := changed1;
           removed_releases := dirs_to_remove;
           absolute_path := path (params module);
           symlinked_folders := folders;
           releases := existing_dirs;
           releases_path := os.path.join (path (params module)) (subfolder (params module)) |}.
Proof.
  unfold main. destruct (prefix (params module)) as [|prefix_s| |]; try done.
  destruct (negb (isinstance_int (keep (params module))) || (keep (params module) <? 0)%Z)
    eqn:Hk; [done|].
  apply keep_accepted in Hk as [_ Hk].
  intros H. bind_inv H. bind_inv H. destruct a0 as [dirs_to_remove changed0].
  bind_inv H. bind_inv H. destruct a1 as [existing_dirs folders].
  injection H as <- <-.
  exists prefix_s, a, fs0, dirs_to_remove, changed0, fs1, a0, fs2, existing_dirs, folders.
  done.
Qed.

Lemma cleaned_Ok check_mode path subfolder prefix keep keep_symlinked_dirs vs fs d c fs' :
  cleaned check_mode path subfolder prefix keep keep_symlinked_dirs vs fs = Ok (d, c) fs' ->
  exists cands,
    candidates path subfolder prefix keep_symlinked_dirs vs fs = Ok cands fs /\
    d = slice_from keep (sorted_reverse cands) /\
    c = (0 <? length d)%nat.
Proof.
  unfold cleaned. intros H. bind_inv H. bind_inv H. injection H as <- <- <-.
  pose proof (candidates_reads path subfolder prefix keep_symlinked_dirs vs fs) as Hr.
  rewrite H0 in Hr. simpl in Hr. subst fs0. eauto.
Qed.

(** ** Retention *)

(** ** The path walk *)

Lemma namei_eq links fs follow cur todo :
  namei links fs follow cur todo =
  match todo with
  | [] => inr (cur, Some Dir)
  | c :: rest =>
      if is_dot c then namei links fs follow cur rest
      else if String.eqb c ".." then namei links fs follow (removelast cur) rest
      else
        let p := cur ++ [c] in
        match fs !! p with
        | None => if forallb (String.eqb "") rest then inr (p, None) else inl ENOENT
        | Some Dir => namei links fs follow p rest
        | Some File => match rest with [] => inr (p, Some File) | _ => inl ENOTDIR end
        | Some (Link t) =>
            match rest, follow with
            | [], false => inr (p, Some (Link t))
            | _, _ =>
                match links with
                | O => inl ELOOP
                | S links' =>
                    if String.eqb t "" then inl ENOENT
                    else namei links' fs follow (if is_abs t then [] else cur)
                               (components t ++ rest)
                end
            end
        end
  end.
Proof. destruct links, todo; reflexivity. Qed.

(** What a walk finds stays where it is when entries are added. *)
Lemma namei_mono links fs fs' follow cur todo p n :
  fs ⊆ fs' ->
  namei links fs follow cur todo = inr (p, Some n) ->
  namei links fs' follow cur todo = inr (p, Some n).
Proof.
  intros Hsub. revert cur todo.
  induction links as [|links IHl]; intros cur todo; revert cur;
    induction todo as [|c rest IHt]; intros cur;
    rewrite (namei_eq _ fs), (namei_eq _ fs'); try done;
    (destruct (is_dot c); [apply IHt|]);
    (destruct (String.eqb c ".."); [apply IHt|]); cbv zeta;
    (destruct (fs !! (cur ++ [c])) as [nd|] eqn:E;
      [rewrite (lookup_weaken _ _ _ _ E Hsub)|by destruct (forallb _ rest)]);
    (destruct nd as [| |t]; [done|apply IHt|]);
    destruct rest, follow; try done;
    destruct (String.eqb t ""); try done; apply IHl.
Qed.

(** A free name reported by a walk has no entry. *)
Lemma namei_free links fs follow cur todo p :
  namei links fs follow cur todo = inr (p, None) -> fs !! p = None.
Proof.
  revert cur todo.
  induction links as [|links IHl]; intros cur todo; revert cur;
    induction todo as [|c rest IHt]; intros cur;
    rewrite (namei_eq _ fs); try done;
    (destruct (is_dot c); [apply IHt|]);
    (destruct (String.eqb c ".."); [apply IHt|]); cbv zeta;
    (destruct (fs !! (cur ++ [c])) as [nd|] eqn:E;
      [|destruct (forallb _ rest); [by intros [= <-]|done]]);
    (destruct nd as [| |t]; [by destruct rest|apply IHt|]);
    destruct rest, follow; try done;
    destruct (String.eqb t ""); try done; apply IHl.
Qed.

(** What [stat] finds, [lstat] finds too, possibly a link on the way. *)
Lemma namei_nofollow links fs cur todo p n :
  namei links fs true cur todo = inr (p, Some n) ->
  exists p' n', namei links fs false cur todo = inr (p', Some n').
Proof.
  revert cur todo.
  induction links as [|links IHl]; intros cur todo; revert cur;
    induction todo as [|c rest IHt]; intros cur;
    rewrite (namei_eq _ fs true), (namei_eq _ fs false); try (by eauto);
    (destruct (is_dot c); [apply IHt|]);
    (destruct (String.eqb c ".."); [apply IHt|]); cbv zeta;
    (destruct (fs !! (cur ++ [c])) as [nd|] eqn:E; [|by destruct (forallb _ rest)]);
    (destruct nd as [| |t]; [by destruct rest; eauto|apply IHt|]);
    destruct rest; try (by eauto);
    destruct (String.eqb t ""); try done; apply IHl.
Qed.

Lemma resolve_mono fs fs' follow s p n :
  fs ⊆ fs' -> resolve fs follow s = inr (p, Some n) -> resolve fs' follow s = inr (p, Some n).
Proof.
  unfold resolve. intros Hsub. destruct (String.eqb s ""); [done|]. by apply namei_mono.
Qed.

Lemma resolve_free fs follow s p : resolve fs follow s = inr (p, None) -> fs !! p = None.
Proof. unfold resolve. destruct (String.eqb s ""); [done|]. apply namei_free. Qed.

Lemma resolve_nofollow fs s p n :
  resolve fs true s = inr (p, Some n) -> exists p' n', resolve fs false s = inr (p', Some n').
Proof. unfold resolve. destruct (String.eqb s ""); [done|]. apply namei_nofollow. Qed.

Lemma exists_b_mono fs fs' s : fs ⊆ fs' -> exists_b fs s = true -> exists_b fs' s = true.
Proof.
  unfold exists_b, stat. intros Hsub.
  destruct (resolve fs true s) as [|[p [n|]]] eqn:E; try done.
  by rewrite (resolve_mono _ _ _ _ _ _ Hsub E).
Qed.

Lemma isdir_b_mono fs fs' s : fs ⊆ fs' -> isdir_b fs s = true -> isdir_b fs' s = true.
Proof.
  unfold isdir_b, stat. intros Hsub.
  destruct (resolve fs true s) as [|[p [[]|]]] eqn:E; try done.
  by rewrite (resolve_mono _ _ _ _ _ _ Hsub E).
Qed.

Lemma link_text_mono fs fs' s t :
  fs ⊆ fs' -> link_text fs s = Some t -> link_text fs' s = Some t.
Proof.
  unfold link_text, lstat. intros Hsub.
  destruct (resolve fs false s) as [|[p [n|]]] eqn:E; try done.
  rewrite (resolve_mono _ _ _ _ _ _ Hsub E). done.
Qed.

(** An existing entry keeps its kind when entries are added. *)
Lemma lstat_mono_exists fs fs' s :
  fs ⊆ fs' -> exists_b fs s = true -> lstat fs' s = lstat fs s.
Proof.
  unfold exists_b, stat, lstat. intros Hsub Hex.
  destruct (resolve fs true s) as [|[p [n|]]] eqn:E; try discriminate Hex.
  apply resolve_nofollow in E as (p' & n' & E).
  by rewrite E, (resolve_mono _ _ _ _ _ _ Hsub E).
Qed.

Lemma islink_b_mono fs fs' s :
  fs ⊆ fs' -> exists_b fs s = true -> islink_b fs' s = islink_b fs s.
Proof. intros Hsub Hex. unfold islink_b. by rewrite (lstat_mono_exists _ _ _ Hsub Hex). Qed.

(** ** Creating directories *)

Lemma extends_refl fs : extends fs fs.
Proof. split; [done|]. intros p n H1 H2. congruence. Qed.

Lemma extends_trans fs1 fs2 fs3 : extends fs1 fs2 -> extends fs2 fs3 -> extends fs1 fs3.
Proof.
  intros [Hs1 Hd1] [Hs2 Hd2]. split; [by etrans|].
  intros p n H3 H1. destruct (fs2 !! p) as [n2|] eqn:E2.
  - rewrite (lookup_weaken _ _ _ _ E2 Hs2) in H3. injection H3 as <-. eauto.
  - eauto.
Qed.

Lemma extends_insert fs p : fs !! p = None -> extends fs (<[p:=Dir]> fs).
Proof.
  intros Hp. split; [by apply insert_subseteq|].
  intros q n Hq Hfree. destruct (decide (p = q)) as [->|Hne].
  - rewrite lookup_insert_eq in Hq. congruence.
  - rewrite lookup_insert_ne in Hq by done. congruence.
Qed.

Lemma mkdir_outcome s fs : mkdirs_outcome fs (os.mkdir s fs).
Proof.
  unfold os.mkdir. destruct (lstat fs s) as [e|[p [n|]]] eqn:E; simpl;
    try apply extends_refl.
  apply extends_insert. by apply resolve_free in E.
Qed.

Lemma mkdirs_outcome_trans {A B} fs fs1 (r : res B) (r' : res A) :
  extends fs fs1 -> mkdirs_outcome fs1 r -> state_of r' = state_of r ->
  match r, r' with
  | FailJson _ _, _ => True
  | _, FailJson _ _ => False
  | _, _ => True
  end ->
  mkdirs_outcome fs r'.
Proof.
  intros He Hr Hs Hk. destruct r, r'; simpl in *; subst; try done;
    by eapply extends_trans.
Qed.

Lemma makedirs_rec_outcome depth name fs : mkdirs_outcome fs (os.makedirs_rec depth name fs).
Proof.
  revert name fs. induction depth as [|depth IH]; intros name fs; simpl;
    destruct (os.path.split name) as [head tail];
    destruct (if String.eqb tail "" then os.path.split head else (head, tail))
      as [head' tail'];
    unfold bind; rewrite ?exists_spec;
    destruct (negb (String.eqb head' "") && negb (String.eqb tail' ""));
    try apply mkdir_outcome;
    rewrite exists_spec; destruct (exists_b fs head'); simpl;
    try apply mkdir_outcome; try apply extends_refl.
  pose proof (IH head' fs) as Hrec.
  destruct (os.makedirs_rec depth head' fs) as [[] fs1|e fs1|f fs1]; simpl in *; [| |done].
  - unfold ret. destruct (String.eqb tail' "."); [done|].
    eapply (mkdirs_outcome_trans _ _ (os.mkdir name fs1)); eauto using mkdir_outcome.
    by destruct (os.mkdir name fs1).
  - destruct e as [[]| | | | |]; simpl; try done.
    unfold ret. destruct (String.eqb tail' "."); [done|].
    eapply (mkdirs_outcome_trans _ _ (os.mkdir name fs1)); eauto using mkdir_outcome.
    by destruct (os.mkdir name fs1).
Qed.

Lemma ensure_dir_outcome s fs : mkdirs_outcome fs (ensure_dir s fs).
Proof.
  unfold ensure_dir, bind. rewrite exists_spec. destruct (exists_b fs s); simpl.
  - apply extends_refl.
  - apply makedirs_rec_outcome.
Qed.

Lemma setup_outcome check_mode path subfolder fs :
  mkdirs_outcome fs (setup check_mode path subfolder fs).
Proof.
  unfold setup. destruct check_mode; simpl.
  - rewrite (and_spec _ _ _ _ _ (exists_spec _ _) (exists_spec _ _)). apply extends_refl.
  - unfold bind. pose proof (ensure_dir_outcome path fs) as H1.
    destruct (ensure_dir path fs) as [[] fs1|e fs1|f fs1]; simpl in *; [|done|done].
    pose proof (ensure_dir_outcome (os.path.join path subfolder) fs1) as H2.
    destruct (ensure_dir (os.path.join path subfolder) fs1) as [[] fs2|e fs2|f fs2];
      simpl in *; [| |done]; by eapply extends_trans.
Qed.

Lemma setup_check_mode path subfolder fs :
  setup true path subfolder fs
  = Ok (exists_b fs path && exists_b fs (os.path.join path subfolder)) fs.
Proof. unfold setup. simpl. apply and_spec; apply exists_spec. Qed.

Lemma setup_Ok check_mode path subfolder fs b fs1 :
  setup check_mode path subfolder fs = Ok b fs1 ->
  extends fs fs1 /\ (check_mode = true -> fs1 = fs) /\ (check_mode = false -> b = true).
Proof.
  intros H. pose proof (setup_outcome check_mode path subfolder fs) as Ho.
  rewrite H in Ho. split; [done|]. split.
  - intros ->. rewrite setup_check_mode in H. congruence.
  - intros ->. unfold setup in H. simpl in H. bind_inv H. bind_inv H. by injection H as <-.
Qed.

(** ** Create and link *)

Lemma listdir_not_FailJson s fs f fs' : os.listdir s fs <> FailJson f fs'.
Proof. unfold os.listdir. by destruct (stat fs s) as [|[? [[]|]]]. Qed.

Lemma release_directory_outcome path subfolder prefix timestamp symlink fs :
  match release_directory path subfolder prefix timestamp symlink fs with
  | Ok release_dir fs' => extends fs fs'
  | Raise e fs' => extends fs fs'
  | FailJson f fs' =>
      extends fs fs' /\
      (kind f = ConfigurationError ->
       fs' = fs /\ (f = Invalid_timestamp \/ f = Invalid_symlink))
  end.
Proof.
  unfold release_directory.
  destruct (negb (truthy timestamp) || negb (is_basestring timestamp));
    [simpl; split; [apply extends_refl|auto]|].
  destruct (truthy symlink && negb (is_basestring symlink));
    [simpl; split; [apply extends_refl|auto]|].
  unfold bind at 1. destruct timestamp as [|ts| |]; simpl; try apply extends_refl.
  set (release_dir := os.path.join3 path subfolder (prefix +:+ ts)).
  rewrite (bind_reads _ _ _ _
             (and_spec _ _ _ _ _ (exists_spec _ _) (not_spec _ _ _ (isdir_spec _ _)))).
  destruct (exists_b fs release_dir && negb (isdir_b fs release_dir));
    [simpl; split; [apply extends_refl|done]|].
  rewrite (bind_reads _ _ _ _ (not_spec _ _ _ (exists_spec _ _))).
  unfold bind, when, try_except_OSError.
  destruct (negb (exists_b fs release_dir)); simpl; [|apply extends_refl].
  pose proof (makedirs_rec_outcome (String.length release_dir) release_dir fs) as Hm.
  unfold os.makedirs.
  destruct (os.makedirs_rec (String.length release_dir) release_dir fs)
    as [[] fs1|e fs1|f fs1]; simpl in *; [done| |done].
  destruct e; simpl; done.
Qed.

Lemma release_directory_Ok path subfolder prefix timestamp symlink fs release_dir fs' :
  release_directory path subfolder prefix timestamp symlink fs = Ok release_dir fs' ->
  extends fs fs'.
Proof.
  intros H. pose proof (release_directory_outcome path subfolder prefix timestamp symlink fs).
  by rewrite H in *.
Qed.

(** The test of line 236 on a name that is there and is no link. *)
Lemma link_conflict check_mode path s release_dir fs :
  s <> "" ->
  exists_b fs (os.path.join path s) = true ->
  islink_b fs (os.path.join path s) = false ->
  link check_mode path (PStr s) release_dir fs
  = FailJson (Symlink_exists_but_is_not_a_symlink (os.path.join path s)) fs.
Proof.
  intros Hs Hex Hl. unfold link, truthy.
  apply String.eqb_neq in Hs. rewrite Hs. simpl. unfold bind at 1. unfold bind at 1.
  unfold ret at 1.
  rewrite (bind_reads _ _ _ _
             (and_spec _ _ _ _ _ (exists_spec _ _) (not_spec _ _ _ (islink_spec _ _)))).
  by rewrite Hex, Hl.
Qed.

(** Without a symlink to set and outside check mode, line 242 reads a
    local that was never bound. *)
Lemma link_unbound path symlink release_dir fs :
  truthy symlink = false ->
  link false path symlink release_dir fs = Raise (UnboundLocalError "symlink_dir") fs.
Proof. intros Hs. unfold link. rewrite Hs. reflexivity. Qed.

Lemma symlink_not_FailJson src dst fs f fs' : os.symlink src dst fs <> FailJson f fs'.
Proof.
  unfold os.symlink. destruct (lstat fs dst) as [|[? [[]|]]]; try done.
  by destruct (ends_with_slash dst).
Qed.

Lemma link_FailJson check_mode path symlink release_dir fs f fs' :
  link check_mode path symlink release_dir fs = FailJson f fs' ->
  kind f <> ConfigurationError.
Proof.
  unfold link. intros H. apply bind_FailJson in H as [H|(sd & fs1 & H1 & H)].
  - destruct (truthy symlink); [|done].
    apply bind_FailJson in H as [H|(x & fs2 & _ & H)]; [by destruct symlink|].
    apply bind_FailJson in H as [H|(c & fs3 & _ & H)].
    + unfold and_, not_, bind in H. rewrite exists_spec in H.
      destruct (exists_b fs2 x); [|done]. by rewrite islink_spec in H.
    + destruct c; [|done]. by injection H as <- _.
  - destruct check_mode; simpl in H; [done|]. unfold try_except_OSError in H.
    destruct (bind (local "symlink_dir" sd) _ fs1) as [| [] |] eqn:E; try done.
    + by injection H as <- _.
    + exfalso. destruct sd as [sd|]; [|done]. simpl in E. unfold bind in E.
      unfold ret at 1 in E. rewrite islink_spec in E.
      destruct (islink_b fs1 sd); simpl in E.
      * unfold os.unlink in E. destruct (lstat fs1 sd) as [|[? [[]|]]]; try done.
        all: by apply symlink_not_FailJson in E.
      * unfold ret in E. by apply symlink_not_FailJson in E.
Qed.

Lemma main_exists module fs prefix_s :
  state (params module) = Some State_exists ->
  prefix (params module) = PStr prefix_s ->
  isinstance_int (keep (params module)) = true ->
  (0 <= keep (params module))%Z ->
  main module fs =
  (directories_exist <-
     setup (check_mode module) (path (params module)) (subfolder (params module)) ;;
   changed <-
     exists_ (check_mode module) (path (params module)) (subfolder (params module))
       prefix_s (timestamp (params module)) (symlink (params module)) ;;
   found <-
     (if directories_exist : bool
      then gather (path (params module)) (subfolder (params module)) prefix_s
             (watched (symlink_dirs (params module)) (symlink (params module)))
      else ret ([], [])) ;;
   ret {| changed := changed;
          removed_releases := [];
          absolute_path := path (params module);
          symlinked_folders := found.2;
          releases := found.1;
          releases_path :=
            os.path.join (path (params module)) (subfolder (params module)) |}) fs.
Proof.
  intros Hs Hp Hi Hk. unfold main. rewrite Hs, Hp.
  rewrite (proj2 (keep_accepted _) (conj Hi Hk)). unfold bind.
  destruct (setup _ _ _ fs) as [de fs1| |]; [|done|done]. simpl.
  destruct (exists_ _ _ _ _ _ _ fs1) as [c fs2| |]; [|done|done].
  destruct de; [destruct (gather _ _ _ _ fs2) as [[] ?| |]|]; done.
Qed.

(** C9, amended.  A create operation with a [keep] that line 141 accepts (an
    [int], not negative) that is to set a symlink whose path is taken by
    something that is not a symlink never succeeds; every entry that exists
    stays as it is, the one at the taken path included, and what is added
    are directories only (those of the setup and the release directory,
    which can lie inside the taken path); once the base directories and the
    release directory are in place it fails on the conflict, with "Symlink
    exists but is not a symlink", and the link step changes nothing. *)
Theorem conflict_detection module fs prefix_s s :
  state (params module) = Some State_exists ->
  prefix (params module) = PStr prefix_s ->
  isinstance_int (keep (params module)) = true ->
  (0 <= keep (params module))%Z ->
  symlink (params module) = PStr s ->
  s <> "" ->
  os.path.exists_ (os.path.join (path (params module)) s) fs = Ok true fs ->
  os.path.islink (os.path.join (path (params module)) s) fs = Ok false fs ->
  let symlink_dir := os.path.join (path (params module)) s in
  (forall r fs', main module fs <> Ok r fs') /\
  extends fs (state_of (main module fs)) /\
  lstat (state_of (main module fs)) symlink_dir = lstat fs symlink_dir /\
  kind (Symlink_exists_but_is_not_a_symlink symlink_dir) = ConflictError /\
  forall directories_exist fs1 release_dir fs2,
    setup (check_mode module) (path (params module)) (subfolder (params module)) fs
    = Ok directories_exist fs1 ->
    release_directory (path (params module)) (subfolder (params module)) prefix_s
      (timestamp (params module)) (symlink (params module)) fs1
    = Ok release_dir fs2 ->
    main module fs = FailJson (Symlink_exists_but_is_not_a_symlink symlink_dir) fs2.
Proof.
  intros Hstate Hp Hi Hk Hsym Hs Hex Hl symlink_dir.
  rewrite exists_spec in Hex. rewrite islink_spec in Hl.
  injection Hex as Hex. injection Hl as Hl. fold symlink_dir in Hex, Hl.
  assert (Hrun : forall directories_exist fs1 release_dir fs2,
    setup (check_mode module) (path (params module)) (subfolder (params module)) fs
    = Ok directories_exist fs1 ->
    release_directory (path (params module)) (subfolder (params module)) prefix_s
      (timestamp (params module)) (symlink (params module)) fs1
    = Ok release_dir fs2 ->
    extends fs fs2 /\
    main module fs = FailJson (Symlink_exists_but_is_not_a_symlink symlink_dir) fs2).
  { intros de fs1 rd fs2 Hsetup Hrd.
    assert (He : extends fs fs2).
    { eapply extends_trans; [by apply setup_Ok in Hsetup as [? _]|].
      by apply release_directory_Ok in Hrd. }
    split; [done|].
    rewrite (main_exists _ _ _ Hstate Hp Hi Hk). unfold bind at 1. rewrite Hsetup.
    unfold bind at 1. unfold exists_. unfold bind at 1. rewrite Hrd.
    unfold bind at 1. rewrite Hsym, link_conflict; [done|done| |].
    - eapply exists_b_mono; [apply He|done].
    - fold symlink_dir. by rewrite (islink_b_mono fs fs2) by (done || apply He). }
  assert (Hst : extends fs (state_of (main module fs)) /\
                forall r fs', main module fs <> Ok r fs').
  { pose proof (setup_outcome (check_mode module) (path (params module))
                  (subfolder (params module)) fs) as Ho1.
    destruct (setup (check_mode module) (path (params module))
                (subfolder (params module)) fs) as [de fs1|e fs1|f fs1] eqn:Hsetup;
      simpl in Ho1; [| |done].
    - pose proof (release_directory_outcome (path (params module))
                    (subfolder (params module)) prefix_s (timestamp (params module))
                    (symlink (params module)) fs1) as Ho2.
      destruct (release_directory (path (params module)) (subfolder (params module))
                  prefix_s (timestamp (params module)) (symlink (params module)) fs1)
        as [rd fs2|e fs2|f fs2] eqn:Hrd.
      + destruct (Hrun _ _ _ _ eq_refl Hrd) as [He ->]. done.
      + assert (main module fs = Raise e fs2) as ->.
        { rewrite (main_exists _ _ _ Hstate Hp Hi Hk). unfold bind at 1. rewrite Hsetup.
          unfold bind at 1. unfold exists_. unfold bind at 1. by rewrite Hrd. }
        split; [by eapply extends_trans|done].
      + assert (main module fs = FailJson f fs2) as ->.
        { rewrite (main_exists _ _ _ Hstate Hp Hi Hk). unfold bind at 1. rewrite Hsetup.
          unfold bind at 1. unfold exists_. unfold bind at 1. by rewrite Hrd. }
        split; [eapply extends_trans; [done|apply Ho2]|done].
    - assert (main module fs = Raise e fs1) as ->.
      { rewrite (main_exists _ _ _ Hstate Hp Hi Hk). unfold bind at 1. by rewrite Hsetup. }
      done. }
  destruct Hst as [He Hnever].
  split; [exact Hnever|]. split; [exact He|]. split; [|split; [reflexivity|]].
  - apply lstat_mono_exists; [apply He|exact Hex].
  - intros de fs1 rd fs2 H1 H2. by destruct (Hrun _ _ _ _ H1 H2).
Qed.

(** ** Watched symlinks and the report *)

Lemma py_eqb_key a b : py_eqb a b = true <-> py_key a = py_key b.
Proof.
  destruct a as [|s|n|x], b as [|t|m|y]; unfold py_eqb, py_key; split; try done.
  all: try (intros ?%String.eqb_eq; by subst).
  all: try (intros [= ->]; apply String.eqb_refl).
  all: try (intros ?%Z.eqb_eq; by subst).
  all: try (intros [= ->]; apply Z.eqb_refl).
  all: try (intros [= <-]; apply Z.eqb_refl).
  all: by destruct x, y.
Qed.

Lemma py_eqb_false a b : py_eqb a b = false <-> py_key a <> py_key b.
Proof.
  rewrite <- py_eqb_key. destruct (py_eqb a b); split; try done; intros H; by destruct H.
Qed.

Lemma py_eqb_refl a : py_eqb a a = true.
Proof. by apply py_eqb_key. Qed.

Lemma py_in_spec x l : py_in x l = true <-> exists v, v ∈ l /\ py_key x = py_key v.
Proof.
  unfold py_in. rewrite existsb_exists. setoid_rewrite py_eqb_key.
  by setoid_rewrite list_elem_of_In.
Qed.

Lemma dict_get_set {V} k k2 (v : V) d :
  dict_get k (dict_set k2 v d) = if py_eqb k2 k then Some v else dict_get k d.
Proof.
  induction d as [|[k' v'] d IH]; simpl; [done|].
  destruct (py_eqb k' k2) eqn:E12; simpl.
  - apply py_eqb_key in E12.
    destruct (py_eqb k' k) eqn:E1, (py_eqb k2 k) eqn:E2; try done; exfalso.
    + apply py_eqb_key in E1. apply py_eqb_false in E2. congruence.
    + apply py_eqb_key in E2. apply py_eqb_false in E1. congruence.
  - rewrite IH. apply py_eqb_false in E12.
    destruct (py_eqb k' k) eqn:E1, (py_eqb k2 k) eqn:E2; try done; exfalso.
    apply py_eqb_key in E1, E2. congruence.
Qed.

Lemma dict_get_foldl {V} (f : pyval -> V) k vs d :
  (forall a b, py_key a = py_key b -> f a = f b) ->
  dict_get k (foldl (fun d v => dict_set v (f v) d) d vs) =
  if py_in k vs then Some (f k) else dict_get k d.
Proof.
  intros Hf. revert d. induction vs as [|v vs IH]; intros d; simpl; [done|].
  rewrite IH, dict_get_set. unfold py_in. simpl.
  destruct (existsb (py_eqb k) vs) eqn:E1; [by rewrite orb_true_r|].
  rewrite orb_false_r. destruct (py_eqb k v) eqn:E2.
  - apply py_eqb_key in E2. rewrite (proj2 (py_eqb_key v k)) by done.
    by rewrite (Hf k v).
  - apply py_eqb_false in E2. by rewrite (proj2 (py_eqb_false v k)).
Qed.

Lemma reported_key fs path a b : py_key a = py_key b -> reported fs path a = reported fs path b.
Proof. destruct a as [| | |[]], b as [| | |[]]; simpl; try done. by intros [= ->]. Qed.

Lemma protected_by_key fs path a b :
  py_key a = py_key b -> protected_by fs path a = protected_by fs path b.
Proof. destruct a as [| | |[]], b as [| | |[]]; simpl; try done. by intros [= ->]. Qed.

Lemma gather_round fs path v d :
  try_except
    (link <- join_py path v ;;
     target <- os.readlink link ;;
     ret (dict_set v (Some (os.path.join path target)) d))
    (ret (dict_set v None d)) fs
  = Ok (dict_set v (reported fs path v) d) fs.
Proof.
  unfold try_except, reported, bind, join_py.
  destruct v as [|s|n|b]; try done. unfold ret at 1.
  rewrite readlink_spec. by destruct (link_text fs (os.path.join path s)).
Qed.

Lemma gather_spec path subfolder prefix vs fs :
  gather path subfolder prefix vs fs =
  match get_releases path subfolder prefix fs with
  | Ok rels _ => Ok (rels, foldl (fun d v => dict_set v (reported fs path v) d) [] vs) fs
  | Raise e _ => Raise e fs
  | FailJson f _ => FailJson f fs
  end.
Proof.
  unfold gather. unfold bind at 1.
  pose proof (get_releases_reads path subfolder prefix fs) as Hs.
  destruct (get_releases path subfolder prefix fs) as [rels fs1|e fs1|f fs1];
    simpl in Hs; subst fs1; [|done|done].
  assert (Hloop : forall d,
    for_each vs
      (fun symlink_dir symlinked_folders =>
         try_except
           (link <- join_py path symlink_dir ;;
            target <- os.readlink link ;;
            ret (dict_set symlink_dir (Some (os.path.join path target)) symlinked_folders))
           (ret (dict_set symlink_dir None symlinked_folders))) d fs
    = Ok (foldl (fun d v => dict_set v (reported fs path v) d) d vs) fs).
  { induction vs as [|v vs IH]; intros d; simpl; [done|].
    by rewrite (bind_reads _ _ _ _ (gather_round fs path v d)). }
  by rewrite (bind_reads _ _ _ _ (Hloop [])).
Qed.

Lemma gather_reads path subfolder prefix vs : reads_only (gather path subfolder prefix vs).
Proof.
  intros fs. rewrite gather_spec. by destruct (get_releases path subfolder prefix fs).
Qed.

Lemma watched_spec symlink_dirs symlink :
  let given :=
    match symlink_dirs with
    | PStr s => PStr <$> str_split ","%char s
    | _ => []
    end in
  watched symlink_dirs symlink =
  if truthy symlink && negb (py_in symlink given) then given ++ [symlink] else given.
Proof. unfold watched. simpl. by destruct (truthy symlink), (py_in symlink _). Qed.

Lemma watched_contains symlink_dirs symlink :
  truthy symlink = true -> py_in symlink (watched symlink_dirs symlink) = true.
Proof.
  intros Ht. rewrite watched_spec. cbv zeta. rewrite Ht.
  set (given := match symlink_dirs with PStr s => _ | _ => [] end).
  destruct (py_in symlink given) eqn:E; simpl; [done|].
  unfold py_in. rewrite existsb_app. simpl. by rewrite py_eqb_refl, !orb_true_r.
Qed.

Lemma protected_by_mono fs fs' path v release :
  fs ⊆ fs' -> protected_by fs path v = Some release -> protected_by fs' path v = Some release.
Proof.
  intros Hsub. unfold protected_by. destruct v as [|s| |]; [done| |done|done].
  destruct (link_text fs (os.path.join path s)) as [t|] eqn:E; [|done].
  by rewrite (link_text_mono _ _ _ _ Hsub E).
Qed.

(** C10, amended.  A symlink to set is added to the watched names unless it
    is there already.  So, whenever the run succeeds: if the report step
    ran, [symlinked_folders] has an entry for it, holding the link's text
    joined to the base path (the link is read, not resolved), or [None]
    when there is no link to read; and in a clean operation with protection
    on, the release its text names is not marked for removal. *)
Theorem symlink_is_watched module fs r fs' :
  truthy (symlink (params module)) = true ->
  main module fs = Ok r fs' ->
  (let given :=
     match symlink_dirs (params module) with
     | PStr s => PStr <$> str_split ","%char s
     | _ => []
     end in
   watched (symlink_dirs (params module)) (symlink (params module)) =
   if py_in (symlink (params module)) given then given
   else given ++ [symlink (params module)]) /\
  py_in (symlink (params module))
    (watched (symlink_dirs (params module)) (symlink (params module))) = true /\
  (forall fs1,
     setup (check_mode module) (path (params module)) (subfolder (params module)) fs
     = Ok true fs1 ->
     dict_get (symlink (params module)) (symlinked_folders r)
     = Some (reported fs' (path (params module)) (symlink (params module)))) /\
  (state (params module) = Some State_cleaned ->
   keep_symlinked_dirs (params module) = true ->
   forall release,
     protected_by fs (path (params module)) (symlink (params module)) = Some release ->
     release ∉ removed_releases r).
Proof.
  intros Ht Hmain.
  pose proof (watched_contains (symlink_dirs (params module)) _ Ht) as Hin.
  apply main_Ok in Hmain
    as (prefix_s & de & fs1 & d & c0 & fs2 & c1 & fs3 & ex & fo & Hp & Hk & Hsetup & Hop1 & Hop2 & Hrep & ->).
  split.
  { rewrite watched_spec. cbv zeta. rewrite Ht.
    set (given := match symlink_dirs (params module) with PStr s => _ | _ => [] end).
    by destruct (py_in (symlink (params module)) given). }
  split; [done|]. split.
  - intros fs1' Hsetup'. rewrite Hsetup in Hsetup'. injection Hsetup' as -> <-.
    rewrite gather_spec in Hrep.
    destruct (get_releases _ _ _ fs3) as [rels ?| |]; [|done|done].
    injection Hrep as <- <- <-. simpl.
    rewrite (dict_get_foldl (reported fs3 (path (params module)))).
    + by rewrite Hin.
    + apply reported_key.
  - intros Hstate Hksd release Hprot. simpl. rewrite Hstate in Hop1.
    apply cleaned_Ok in Hop1 as (cands & Hc & -> & _).
    rewrite candidates_spec, Hksd in Hc.
    destruct (get_releases _ _ _ fs1) as [rels fs1'| |] eqn:Hget; [|done|done].
    injection Hc as <-. apply get_releases_Ok in Hget as (_ & Hnd & _).
    apply py_in_spec in Hin as (v & Hv & Hkey).
    apply setup_Ok in Hsetup as ([Hsub _] & _).
    apply (protected_by_mono _ _ _ _ _ Hsub) in Hprot.
    rewrite (protected_by_key _ _ _ _ Hkey) in Hprot.
    intros Hrel. unfold slice_from in Hrel.
    apply (subseteq_drop (Z.to_nat (keep (params module)))) in Hrel.
    unfold sorted_reverse in Hrel. rewrite merge_sort_Permutation in Hrel.
    apply (foldl_unprotect_spec _ _ _ _ Hnd) in Hrel as [_ Hno]. by apply (Hno v).
Qed.

(** ** Failures *)

Lemma get_releases_not_FailJson path subfolder prefix fs f fs' :
  get_releases path subfolder prefix fs <> FailJson f fs'.
Proof.
  rewrite get_releases_spec.
  destruct (os.listdir (os.path.join path subfolder) fs) eqn:E; try done.
  by apply listdir_not_FailJson in E.
Qed.

Lemma candidates_not_FailJson path subfolder prefix keep_symlinked_dirs vs fs f fs' :
  candidates path subfolder prefix keep_symlinked_dirs vs fs <> FailJson f fs'.
Proof.
  rewrite candidates_spec.
  destruct (get_releases path subfolder prefix fs) eqn:E; try done.
  by apply get_releases_not_FailJson in E.
Qed.

Lemma gather_not_FailJson path subfolder prefix vs fs f fs' :
  gather path subfolder prefix vs fs <> FailJson f fs'.
Proof.
  rewrite gather_spec.
  destruct (get_releases path subfolder prefix fs) eqn:E; try done.
  by apply get_releases_not_FailJson in E.
Qed.

Lemma rmtree_not_FailJson s fs f fs' : shutil.rmtree s fs <> FailJson f fs'.
Proof.
  unfold shutil.rmtree, bind. rewrite islink_spec.
  destruct (islink_b fs s); [done|].
  destruct (stat fs s) as [|[[|] [[]|]]]; done.
Qed.

Lemma remove_loop_FailJson path subfolder dirs fs f fs' :
  for_each dirs
    (fun dir _ =>
       let remove_dir := os.path.join3 path subfolder dir in
       try_except_OSError (shutil.rmtree remove_dir)
         (fail_json (Could_not_remove_directory remove_dir)))
    tt fs = FailJson f fs' ->
  kind f = FilesystemError.
Proof.
  revert fs. induction dirs as [|dir dirs IH]; intros fs; simpl; [done|].
  intros H. apply bind_FailJson in H as [H|([] & fs1 & _ & H)]; [|by eapply IH].
  unfold try_except_OSError in H.
  destruct (shutil.rmtree _ fs) as [|[]|] eqn:E; try done.
  - by injection H as <- _.
  - by apply rmtree_not_FailJson in E.
Qed.

Lemma cleaned_FailJson check_mode path subfolder prefix keep keep_symlinked_dirs vs fs f fs' :
  cleaned check_mode path subfolder prefix keep keep_symlinked_dirs vs fs = FailJson f fs' ->
  kind f = FilesystemError.
Proof.
  unfold cleaned. intros H.
  apply bind_FailJson in H as [H|(cands & fs1 & _ & H)];
    [by apply candidates_not_FailJson in H|].
  apply bind_FailJson in H as [H|(? & fs2 & _ & H)]; [|done].
  destruct check_mode; simpl in H; [done|]. by apply remove_loop_FailJson in H.
Qed.

Lemma exists_FailJson check_mode path subfolder prefix timestamp symlink fs f fs' :
  exists_ check_mode path subfolder prefix timestamp symlink fs = FailJson f fs' ->
  kind f = ConfigurationError ->
  fs' = fs /\ (f = Invalid_timestamp \/ f = Invalid_symlink).
Proof.
  unfold exists_. intros H Hk.
  apply bind_FailJson in H as [H|(rd & fs1 & _ & H)].
  - pose proof (release_directory_outcome path subfolder prefix timestamp symlink fs) as Ho.
    rewrite H in Ho. by apply Ho.
  - apply bind_FailJson in H as [H|(? & fs2 & _ & H)]; [|done].
    by apply link_FailJson in H.
Qed.

(** C4, as stated, fails: a create operation without a timestamp, outside
    check mode and on an empty tree, is refused with "Invalid timestamp
    parameter" after the base path and the releases subfolder were made. *)
Lemma timestamp_checked_after_setup : ~ configuration_errors_before_access.
Proof.
  intros H.
  specialize (H {| params := {| path := "/srv/app"; prefix := PStr "release-";
                                subfolder := "releases"; keep := 5;
                                keep_symlinked_dirs := true; symlink_dirs := PNone;
                                state := Some State_exists; timestamp := PNone;
                                symlink := PNone |};
                   check_mode := false |}
                ∅ Invalid_timestamp
                (tree [ (["srv"], Dir); (["srv"; "app"], Dir);
                        (["srv"; "app"; "releases"], Dir) ])).
  assert (Hne : tree [ (["srv"], Dir); (["srv"; "app"], Dir);
                       (["srv"; "app"; "releases"], Dir) ] !! ["srv"] = Some Dir)
    by (vm_compute; reflexivity).
  rewrite H in Hne; [done| |reflexivity].
  apply observe_inj. vm_compute. reflexivity.
Qed.

(** C4, amended.  A wrong prefix or a negative [keep] is refused before the
    tree is touched.  A missing or non-string timestamp (or a non-string
    symlink name) of a create operation is refused after the structural
    setup: in check mode the tree is as it was, otherwise the base path and
    the releases subfolder may have been created, and nothing else. *)
Theorem configuration_errors module fs f fs' :
  main module fs = FailJson f fs' ->
  kind f = ConfigurationError ->
  (f = Invalid_prefix \/ f = Invalid_keep) /\ fs' = fs
  \/
  (f = Invalid_timestamp \/ f = Invalid_symlink) /\
  state (params module) = Some State_exists /\
  exists directories_exist,
    setup (check_mode module) (path (params module)) (subfolder (params module)) fs
    = Ok directories_exist fs' /\
    extends fs fs' /\
    (check_mode module = true -> fs' = fs).
Proof.
  unfold main. intros H Hkind.
  destruct (prefix (params module)) as [|prefix_s| |];
    try (injection H as <- <-; left; auto).
  destruct (negb (isinstance_int (keep (params module))) || (keep (params module) <? 0)%Z); [injection H as <- <-; left; auto|].
  apply bind_FailJson in H as [H|(de & fs1 & Hsetup & H)].
  { pose proof (setup_outcome (check_mode module) (path (params module))
                  (subfolder (params module)) fs) as Ho. by rewrite H in Ho. }
  apply bind_FailJson in H as [H|([d c0] & fs2 & Hop1 & H)].
  { destruct (state (params module)) as [[]|]; try done.
    apply cleaned_FailJson in H. congruence. }
  apply bind_FailJson in H as [H|(c1 & fs3 & Hop2 & H)].
  { destruct (state (params module)) as [[]|] eqn:Hstate; try done.
    injection Hop1 as _ _ <-.
    apply exists_FailJson in H as [-> Hf]; [|done].
    right. split; [done|]. split; [done|]. exists de. split; [done|].
    apply setup_Ok in Hsetup as (? & ? & _). done. }
  apply bind_FailJson in H as [H|([ex fo] & fs4 & _ & H)]; [|done].
  destruct de; [|done]. by apply gather_not_FailJson in H.
Qed.

(** ** The scenarios of the specification *)

Ltac run := apply observe_inj; vm_compute; reflexivity.

(** C1: the code breaks it.  In check mode a create operation on a tree
    that has no such release returns a result, does not make the symlink,
    and does make the release directory: line 227 is not under
    [if not module.check_mode]. *)
Theorem check_mode_makes_release_directory :
  main (task (Some State_exists) 5 PNone (PStr "20150212") (PStr "current") true) base_tree
  = Ok {| changed := true;
          removed_releases := [];
          absolute_path := "/srv/app";
          symlinked_folders := [(PStr "current", None)];
          releases := ["release-20150212"];
          releases_path := "/srv/app/releases" |}
       one_release_tree
  /\ base_tree !! ["srv"; "app"; "releases"; "release-20150212"] = None
  /\ one_release_tree !! ["srv"; "app"; "releases"; "release-20150212"] = Some Dir.
Proof. split; [run|]. split; vm_compute; reflexivity. Qed.

(** C2: the code breaks it.  Outside check mode a create operation without
    a symlink to set makes the release directory and then dies of an
    uncaught [UnboundLocalError]: line 242 reads [symlink_dir], which only
    [if symlink:] binds.  No result is returned. *)
Theorem create_without_symlink_raises :
  main (task (Some State_exists) 5 PNone (PStr "20150212") PNone false) base_tree
  = Raise (UnboundLocalError "symlink_dir") one_release_tree.
Proof. run. Qed.

(** The same on every tree and for every such task: no result. *)
Lemma create_without_symlink_never_returns module fs r fs' :
  state (params module) = Some State_exists ->
  truthy (symlink (params module)) = false ->
  check_mode module = false ->
  main module fs <> Ok r fs'.
Proof.
  intros Hstate Hsym Hcm H.
  apply main_Ok in H as (prefix_s & de & fs1 & d & c0 & fs2 & c1 & fs3 & ex & fo
                         & _ & _ & _ & _ & H & _).
  rewrite Hstate, Hcm in H. unfold exists_ in H. bind_inv H. bind_inv H.
  by rewrite link_unbound in H1.
Qed.

(** C8: the code breaks it, by the defect of C2.  Without a symlink to set
    and outside check mode, the first run makes the release directory and
    raises, and so does the second, which finds the directory and leaves it
    alone: neither returns [changed]. *)
Theorem create_twice_without_symlink_raises :
  main (task (Some State_exists) 5 PNone (PStr "20150212") PNone false) base_tree
  = Raise (UnboundLocalError "symlink_dir") one_release_tree
  /\ main (task (Some State_exists) 5 PNone (PStr "20150212") PNone false) one_release_tree
     = Raise (UnboundLocalError "symlink_dir") one_release_tree.
Proof. split; run. Qed.

(** With a symlink to set the two runs do what C8 says. *)
Example create_twice_with_symlink :
  let r := {| changed := true;
              removed_releases := [];
              absolute_path := "/srv/app";
              symlinked_folders :=
                [(PStr "current", Some "/srv/app/releases/release-20150212")];
              releases := ["release-20150212"];
              releases_path := "/srv/app/releases" |} in
  main (task (Some State_exists) 5 PNone (PStr "20150212") (PStr "current") false) base_tree
  = Ok r linked_release_tree
  /\ main (task (Some State_exists) 5 PNone (PStr "20150212") (PStr "current") false)
       linked_release_tree
     = Ok r linked_release_tree.
Proof. split; run. Qed.




(** C9, as stated, fails: the path of the symlink to set is taken by the
    releases subfolder, a real directory; the create operation fails on the
    conflict, but only after it has made the release directory inside that
    directory. *)
Lemma conflict_after_release_directory :
  main (task (Some State_exists) 5 PNone (PStr "20150212") (PStr "releases") false) base_tree
  = FailJson (Symlink_exists_but_is_not_a_symlink "/srv/app/releases") one_release_tree
  /\ os.listdir "/srv/app/releases" base_tree = Ok [] base_tree
  /\ os.listdir "/srv/app/releases" one_release_tree
     = Ok ["release-20150212"] one_release_tree.
Proof. split; [run|]. split; run. Qed.

(** C10, as stated, fails: the entry of the report is the text of the link
    joined to the base path, not what the link resolves to.  A link whose
    target is missing is reported with its text, not with [None]; a link to
    a link is reported as the second link, not as the directory reached. *)
Lemma link_text_reported :
  os.path.exists_ "/srv/app/previous" stray_links_tree = Ok false stray_links_tree
  /\ main (task None 5 PNone PNone (PStr "previous") false) stray_links_tree
     = Ok {| changed := false;
             removed_releases := [];
             absolute_path := "/srv/app";
             symlinked_folders := [(PStr "previous", Some "/nowhere/release-1")];
             releases := ["release-3"; "release-2"; "release-1"];
             releases_path := "/srv/app/releases" |}
          stray_links_tree
  /\ stat chained_links_tree "/srv/app/current"
     = inr (["srv"; "app"; "releases"; "release-2"], Some Dir)
  /\ main (task None 5 PNone PNone (PStr "current") false) chained_links_tree
     = Ok {| changed := false;
             removed_releases := [];
             absolute_path := "/srv/app";
             symlinked_folders := [(PStr "current", Some "/srv/app/latest")];
             releases := ["release-3"; "release-2"; "release-1"];
             releases_path := "/srv/app/releases" |}
          chained_links_tree.
Proof.
  split; [run|]. split; [run|]. split; [vm_compute; reflexivity|run].
Qed.

Lemma conflict_detection_witness :
  main (task (Some State_exists) 5 PNone (PStr "20150212") (PStr "current") false) taken_tree
  = FailJson (Symlink_exists_but_is_not_a_symlink "/srv/app/current") taken_release_tree
  /\ lstat taken_release_tree "/srv/app/current" = lstat taken_tree "/srv/app/current".
Proof.
  destruct (conflict_detection
              (task (Some State_exists) 5 PNone (PStr "20150212") (PStr "current") false)
              taken_tree "release-" "current") as (_ & _ & _ & _ & H).
  - reflexivity.
  - reflexivity.
  - reflexivity.
  - vm_compute. discriminate.
  - reflexivity.
  - discriminate.
  - run.
  - run.
  - split; [|vm_compute; reflexivity].
    apply (H true taken_tree "/srv/app/releases/release-20150212"); run.
Defined.

Lemma symlink_is_watched_witness :
  watched PNone (PStr "current") = [PStr "current"] /\
  py_in (PStr "current") (watched PNone (PStr "current")) = true /\
  (forall fs1,
     setup false "/srv/app" "releases" three_releases_tree = Ok true fs1 ->
     dict_get (PStr "current") [(PStr "current", Some "/srv/app/releases/release-2")]
     = Some (reported second_release_tree "/srv/app" (PStr "current"))) /\
  (Some State_cleaned = Some State_cleaned ->
   true = true ->
   forall release,
     protected_by three_releases_tree "/srv/app" (PStr "current") = Some release ->
     release ∉ ["release-3"; "release-1"]).
Proof.
  apply (symlink_is_watched
           (task (Some State_cleaned) 0 PNone PNone (PStr "current") false)
           three_releases_tree
           {| changed := true;
              removed_releases := ["release-3"; "release-1"];
              absolute_path := "/srv/app";
              symlinked_folders := [(PStr "current", Some "/srv/app/releases/release-2")];
              releases := ["release-2"];
              releases_path := "/srv/app/releases" |}
           second_release_tree).
  - reflexivity.
  - run.
Defined.

Lemma configuration_errors_witness :
  (Invalid_timestamp = Invalid_prefix \/ Invalid_timestamp = Invalid_keep) /\ base_tree = ∅
  \/
  (Invalid_timestamp = Invalid_timestamp \/ Invalid_timestamp = Invalid_symlink) /\
  Some State_exists = Some State_exists /\
  exists directories_exist,
    setup false "/srv/app" "releases" ∅ = Ok directories_exist base_tree /\
    extends ∅ base_tree /\
    (false = true -> base_tree = ∅).
Proof.
  apply (configuration_errors
           (task (Some State_exists) 5 PNone PNone PNone false) ∅ Invalid_timestamp base_tree).
  - run.
  - reflexivity.
Defined.

(** ** The recursion of [os.makedirs] *)

Lemma cut_at_last_slash_length p h t :
  os.path.cut_at_last_slash p = (h, t) -> String.length h + String.length t = String.length p.
Proof.
  revert h t. induction p as [|c p IH]; intros h t; simpl.
  - by intros [= <- <-].
  - destruct (os.path.cut_at_last_slash p) as [h0 t0].
    specialize (IH h0 t0 eq_refl).
    destruct (String.eqb_spec h0 "") as [->|_].
    + destruct (Ascii.eqb c "/"); intros [= <- <-]; simpl in *; lia.
    + intros [= <- <-]. simpl. lia.
Qed.

Lemma rstrip_slash_length s : String.length (os.path.rstrip_slash s) <= String.length s.
Proof.
  induction s as [|c s IH]; simpl; [done|].
  destruct (os.path.rstrip_slash s); [destruct (Ascii.eqb c "/")|]; simpl in *; lia.
Qed.

Lemma split_length p h t :
  os.path.split p = (h, t) -> String.length h + String.length t <= String.length p.
Proof.
  unfold os.path.split.
  destruct (os.path.cut_at_last_slash p) as [h0 t0] eqn:E.
  apply cut_at_last_slash_length in E.
  pose proof (rstrip_slash_length h0).
  destruct (String.eqb (os.path.rstrip_slash h0) ""); intros [= <- <-]; lia.
Qed.

Lemma mkdir_not_RuntimeError s fs fs' : os.mkdir s fs <> Raise RuntimeError fs'.
Proof. unfold os.mkdir. by destruct (lstat fs s) as [|[? [|]]]. Qed.

Lemma split_twice_shorter name head tail head' tail' :
  os.path.split name = (head, tail) ->
  (if String.eqb tail "" then os.path.split head else (head, tail)) = (head', tail') ->
  tail' <> "" ->
  String.length head' < String.length name.
Proof.
  intros E1 E2 Hne. apply split_length in E1.
  destruct (String.eqb_spec tail "") as [->|Ht].
  - apply split_length in E2. destruct tail'; simpl in *; [done|lia].
  - injection E2 as <- <-. destruct tail; simpl in *; [done|lia].
Qed.

(** The bound given to the recursion is never reached: every call is on a
    shorter name. *)
Lemma makedirs_rec_depth depth name fs fs' :
  String.length name <= depth -> os.makedirs_rec depth name fs <> Raise RuntimeError fs'.
Proof.
  revert name fs fs'. induction depth as [|depth IH]; intros name fs fs' Hlen; simpl.
  all: destruct (os.path.split name) as [head tail] eqn:E1.
  all: destruct (if String.eqb tail "" then os.path.split head else (head, tail))
         as [head' tail'] eqn:E2.
  all: pose proof (split_twice_shorter _ _ _ _ _ E1 E2) as Hshort.
  all: unfold bind.
  all: destruct (negb (String.eqb head' "") && negb (String.eqb tail' "")) eqn:Ec;
         [|apply mkdir_not_RuntimeError].
  all: apply andb_true_iff in Ec as [_ Ht%negb_true_iff%String.eqb_neq].
  all: specialize (Hshort Ht).
  all: rewrite exists_spec; destruct (exists_b fs head'); simpl;
         [apply mkdir_not_RuntimeError|].
  - lia.
  - pose proof (IH head' fs) as Hrec.
    destruct (os.makedirs_rec depth head' fs) as [[] fs1|e fs1|f fs1]; simpl.
    + unfold ret. destruct (String.eqb tail' "."); [done|apply mkdir_not_RuntimeError].
    + destruct e as [[]| | | | |]; simpl; try done.
      * unfold ret. destruct (String.eqb tail' "."); [done|apply mkdir_not_RuntimeError].
      * intros [= <-]. by apply (Hrec fs1); [lia|].
    + done.
Qed.

Lemma makedirs_total name fs fs' : os.makedirs name fs <> Raise RuntimeError fs'.
Proof. by apply makedirs_rec_depth. Qed.

(** ** Check mode outside create *)

Lemma reads_only_bind {A B} (m : M A) (k : A -> M B) :
  reads_only m -> (forall a, reads_only (k a)) -> reads_only (bind m k).
Proof.
  intros Hm Hk fs. unfold bind. specialize (Hm fs).
  destruct (m fs) as [a fs1| |]; simpl in *; subst; [apply Hk|done|done].
Qed.

Lemma setup_check_mode_reads path subfolder : reads_only (setup true path subfolder).
Proof. intros fs. by rewrite setup_check_mode. Qed.

Lemma cleaned_check_mode_reads path subfolder prefix keep keep_symlinked_dirs vs :
  reads_only (cleaned true path subfolder prefix keep keep_symlinked_dirs vs).
Proof.
  unfold cleaned. apply reads_only_bind; [apply candidates_reads|]. by intros cands fs.
Qed.

(** X1. In check mode a query and a clean operation leave the tree as it
    is, however they end.  (A create operation does not: see C1.) *)
Lemma check_mode_reads_only module :
  check_mode module = true ->
  state (params module) <> Some State_exists ->
  reads_only (main module).
Proof.
  intros Hcm Hstate fs. unfold main. rewrite Hcm.
  destruct (prefix (params module)) as [|prefix_s| |]; try done.
  destruct (negb (isinstance_int (keep (params module))) || (keep (params module) <? 0)%Z); [done|].
  apply reads_only_bind; [apply setup_check_mode_reads|]. intros de.
  apply reads_only_bind.
  { destruct (state (params module)) as [[]|]; try done. apply cleaned_check_mode_reads. }
  intros [d c0]. apply reads_only_bind.
  { by destruct (state (params module)) as [[]|]. }
  intros c1. apply reads_only_bind; [|by intros [ex fo] fs'].
  destruct de; [apply gather_reads|done].
Qed.

(** * Further properties of the module *)

(** ** Frames *)

#[global] Instance extends_preorder : PreOrder extends.
Proof. split; [intros fs; apply extends_refl|intros ? ? ?; apply extends_trans]. Qed.

#[global] Instance keeps_preorder : PreOrder keeps_files_and_dirs.
Proof.
  split; [by intros fs k n|]. intros fs1 fs2 fs3 H12 H23 k n Hk Hn. eauto.
Qed.

Lemma extends_keeps fs fs' : extends fs fs' -> keeps_files_and_dirs fs fs'.
Proof. intros [Hsub _] k n Hk _. by eapply lookup_weaken. Qed.

Lemma frames_reads {A : Type} (R : relation FS) `{!Reflexive R} (m : M A) :
  reads_only m -> frames R m.
Proof. intros Hm fs. by rewrite Hm. Qed.

Lemma frames_bind {A B : Type} (R : relation FS) `{!Transitive R} (m : M A) (k : A -> M B) :
  frames R m -> (forall a, frames R (k a)) -> frames R (bind m k).
Proof.
  intros Hm Hk fs. unfold bind. specialize (Hm fs).
  destruct (m fs) as [a fs1| |]; simpl in *; [|done|done].
  etrans; [done|apply Hk].
Qed.

Lemma frames_weaken {A : Type} (R R' : relation FS) (m : M A) :
  (forall fs fs', R fs fs' -> R' fs fs') -> frames R m -> frames R' m.
Proof. intros HR Hm fs. apply HR, Hm. Qed.

Lemma frames_try_except_OSError {A : Type} (R : relation FS) `{!Transitive R}
    (body handler : M A) :
  frames R body -> frames R handler -> frames R (try_except_OSError body handler).
Proof.
  intros Hb Hh fs. unfold try_except_OSError. specialize (Hb fs).
  destruct (body fs) as [|[]|]; simpl in *; try done.
  etrans; [done|apply Hh].
Qed.

Lemma reads_only_ret {A} (a : A) : reads_only (ret a).
Proof. by intros fs. Qed.

Lemma reads_only_fail_json {A} f : reads_only (@fail_json A f).
Proof. by intros fs. Qed.

Lemma reads_only_raise {A} e : reads_only (@raise A e).
Proof. by intros fs. Qed.

Lemma reads_only_exists s : reads_only (os.path.exists_ s).
Proof. intros fs. by rewrite exists_spec. Qed.

Lemma reads_only_isdir s : reads_only (os.path.isdir s).
Proof. intros fs. by rewrite isdir_spec. Qed.

Lemma reads_only_islink s : reads_only (os.path.islink s).
Proof. intros fs. by rewrite islink_spec. Qed.

Lemma reads_only_and (a b : M bool) : reads_only a -> reads_only b -> reads_only (and_ a b).
Proof.
  intros Ha Hb. unfold and_. apply reads_only_bind; [done|].
  intros []; [done|apply reads_only_ret].
Qed.

Lemma reads_only_not (a : M bool) : reads_only a -> reads_only (not_ a).
Proof.
  intros Ha. unfold not_. apply reads_only_bind; [done|]. intros x. apply reads_only_ret.
Qed.

Lemma frames_setup check_mode path subfolder : frames extends (setup check_mode path subfolder).
Proof.
  intros fs. pose proof (setup_outcome check_mode path subfolder fs) as H.
  by destruct (setup check_mode path subfolder fs).
Qed.

Lemma frames_release_directory path subfolder prefix timestamp symlink :
  frames extends (release_directory path subfolder prefix timestamp symlink).
Proof.
  intros fs.
  pose proof (release_directory_outcome path subfolder prefix timestamp symlink fs) as H.
  destruct (release_directory path subfolder prefix timestamp symlink fs); simpl;
    [done|done|apply H].
Qed.

(** The test of lines 233-238 only looks. *)
Lemma reads_only_link_test path symlink :
  reads_only
    (if truthy symlink then
       symlink_dir <- join_py path symlink ;;
       conflict <- and_ (os.path.exists_ symlink_dir) (not_ (os.path.islink symlink_dir)) ;;
       if conflict : bool then fail_json (Symlink_exists_but_is_not_a_symlink symlink_dir)
       else ret (Some symlink_dir)
     else ret None).
Proof.
  destruct (truthy symlink); [|apply reads_only_ret].
  apply reads_only_bind.
  { destruct symlink; try apply reads_only_raise. apply reads_only_ret. }
  intros sd. apply reads_only_bind.
  { apply reads_only_and; [apply reads_only_exists|].
    apply reads_only_not, reads_only_islink. }
  intros []; [apply reads_only_fail_json|apply reads_only_ret].
Qed.

Lemma reads_only_link_check_mode path symlink release_dir :
  reads_only (link true path symlink release_dir).
Proof.
  unfold link. apply reads_only_bind; [apply reads_only_link_test|].
  intros sd. simpl. apply reads_only_ret.
Qed.

(** A file or a link that a walk finds is the entry at the place it gives. *)
Lemma namei_found links fs follow cur todo p n :
  namei links fs follow cur todo = inr (p, Some n) -> n <> Dir -> fs !! p = Some n.
Proof.
  intros H Hn. revert cur todo H.
  induction links as [|links IHl]; intros cur todo; revert cur;
    induction todo as [|c rest IHt]; intros cur;
    rewrite (namei_eq _ fs); try (by intros [= <- <-]);
    (destruct (is_dot c); [apply IHt|]);
    (destruct (String.eqb c ".."); [apply IHt|]); cbv zeta;
    (destruct (fs !! (cur ++ [c])) as [nd|] eqn:E; [|by destruct (forallb _ rest)]);
    (destruct nd as [| |t]; [destruct rest; [by intros [= <- <-]|done]|apply IHt|]);
    destruct rest, follow; try done; try (by intros [= <- <-]);
    destruct (String.eqb t ""); try done; apply IHl.
Qed.

Lemma lstat_found fs s p n : lstat fs s = inr (p, Some n) -> n <> Dir -> fs !! p = Some n.
Proof.
  unfold lstat, resolve. destruct (String.eqb s ""); [done|]. apply namei_found.
Qed.

Lemma keeps_delete_link fs p t :
  fs !! p = Some (Link t) -> keeps_files_and_dirs fs (delete p fs).
Proof.
  intros Hp k n Hk Hn. destruct (decide (p = k)) as [->|Hne].
  - rewrite Hp in Hk. injection Hk as <-. by destruct (Hn t).
  - by rewrite lookup_delete_ne.
Qed.

Lemma keeps_insert fs p n : fs !! p = None -> keeps_files_and_dirs fs (<[p:=n]> fs).
Proof. intros Hp k n' Hk _. eapply lookup_weaken; [done|by apply insert_subseteq]. Qed.

Lemma frames_symlink src dst : frames keeps_files_and_dirs (os.symlink src dst).
Proof.
  intros fs. unfold os.symlink. destruct (lstat fs dst) as [|[p [n|]]] eqn:E; simpl;
    try reflexivity.
  destruct (ends_with_slash dst); simpl; [reflexivity|].
  apply keeps_insert. by apply resolve_free in E.
Qed.

(** Lines 242-244: an existing link goes, a link is made; nothing else. *)
Lemma frames_relink release_dir symlink_dir :
  frames keeps_files_and_dirs
    (l <- os.path.islink symlink_dir ;;
     when l (os.unlink symlink_dir) ;;
     os.symlink release_dir symlink_dir).
Proof.
  intros fs. unfold bind at 1. rewrite islink_spec. unfold islink_b.
  destruct (lstat fs symlink_dir) as [|[p [[| |t]|]]] eqn:E; simpl;
    try apply (frames_symlink release_dir symlink_dir fs).
  unfold bind, os.unlink. rewrite E.
  etrans; [|apply (frames_symlink release_dir symlink_dir)].
  apply (keeps_delete_link _ _ t). by apply lstat_found in E.
Qed.

Lemma frames_link check_mode path symlink release_dir :
  frames keeps_files_and_dirs (link check_mode path symlink release_dir).
Proof.
  destruct check_mode.
  { apply frames_reads; [apply _|apply reads_only_link_check_mode]. }
  unfold link. apply frames_bind; [apply _| |].
  { apply frames_reads; [apply _|apply reads_only_link_test]. }
  intros sd. simpl. apply frames_try_except_OSError; [apply _| |].
  - destruct sd as [sd|]; simpl.
    + unfold bind at 1. unfold ret at 1. apply frames_relink.
    + by intros fs.
  - by intros fs.
Qed.

Lemma frames_exists check_mode path subfolder prefix timestamp symlink :
  frames keeps_files_and_dirs (exists_ check_mode path subfolder prefix timestamp symlink).
Proof.
  unfold exists_. apply frames_bind; [apply _| |].
  { eapply frames_weaken; [apply extends_keeps|apply frames_release_directory]. }
  intros rd. apply frames_bind; [apply _|apply frames_link|]. by intros ? fs.
Qed.

Lemma frames_exists_check_mode path subfolder prefix timestamp symlink :
  frames extends (exists_ true path subfolder prefix timestamp symlink).
Proof.
  unfold exists_. apply frames_bind; [apply _|apply frames_release_directory|].
  intros rd. apply frames_bind; [apply _| |by intros ? fs].
  apply frames_reads; [apply _|apply reads_only_link_check_mode].
Qed.

(** X2. In check mode, and in a query (no [state]) in either mode, the
    module at most adds directories: no entry is removed or altered, no file
    and no symlink is created, however the run ends. *)
Theorem main_only_adds_directories module :
  check_mode module = true \/ state (params module) = None ->
  frames extends (main module).
Proof.
  intros Hmode. unfold main.
  destruct (prefix (params module)) as [|prefix_s| |]; try (intros fs; reflexivity).
  destruct (negb (isinstance_int (keep (params module))) || (keep (params module) <? 0)%Z); [intros fs; reflexivity|].
  apply frames_bind; [apply _|apply frames_setup|]. intros de.
  apply frames_bind; [apply _| |].
  { destruct (state (params module)) as [[]|] eqn:Hs; try (intros fs; reflexivity).
    destruct Hmode as [->|?]; [|done].
    apply frames_reads; [apply _|apply cleaned_check_mode_reads]. }
  intros [d c0]. apply frames_bind; [apply _| |].
  { destruct (state (params module)) as [[]|] eqn:Hs; try (intros fs; reflexivity).
    destruct Hmode as [->|?]; [|done]. apply frames_exists_check_mode. }
  intros c1. apply frames_bind; [apply _| |by intros [ex fo] fs].
  destruct de; [|intros fs; reflexivity].
  apply frames_reads; [apply _|apply gather_reads].
Qed.

(** X3. Unless the operation is a clean, the module never removes or alters
    a file or a directory, in either mode and however the run ends: the only
    entry that can go or change is a symlink. *)
Theorem main_keeps_files_and_dirs module :
  state (params module) <> Some State_cleaned ->
  frames keeps_files_and_dirs (main module).
Proof.
  intros Hstate. unfold main.
  destruct (prefix (params module)) as [|prefix_s| |]; try (intros fs; reflexivity).
  destruct (negb (isinstance_int (keep (params module))) || (keep (params module) <? 0)%Z); [intros fs; reflexivity|].
  apply frames_bind; [apply _| |].
  { eapply frames_weaken; [apply extends_keeps|apply frames_setup]. }
  intros de. apply frames_bind; [apply _| |].
  { destruct (state (params module)) as [[]|] eqn:Hs; try done; intros fs; reflexivity. }
  intros [d c0]. apply frames_bind; [apply _| |].
  { destruct (state (params module)) as [[]|] eqn:Hs; try (intros fs; reflexivity).
    apply frames_exists. }
  intros c1. apply frames_bind; [apply _| |by intros [ex fo] fs].
  destruct de; [|intros fs; reflexivity].
  apply frames_reads; [apply _|apply gather_reads].
Qed.

Lemma state_of_bind {A B : Type} (m : M A) (k : A -> M B) fs :
  state_of (m fs) = fs -> (forall a, state_of (k a fs) = fs) -> state_of (bind m k fs) = fs.
Proof.
  intros Hm Hk. unfold bind. destruct (m fs) as [a fs1| |]; simpl in *; subst; auto.
Qed.

Lemma isdir_exists fs s : isdir_b fs s = true -> exists_b fs s = true.
Proof. unfold isdir_b, exists_b. by destruct (stat fs s) as [|[? [[]|]]]. Qed.

(** Lines 218-230 on a release directory that is already there. *)
Lemma release_directory_present path subfolder prefix ts symlink fs :
  isdir_b fs (os.path.join3 path subfolder (prefix +:+ ts)) = true ->
  state_of (release_directory path subfolder prefix (PStr ts) symlink fs) = fs.
Proof.
  intros Hd. unfold release_directory.
  destruct (negb (truthy (PStr ts)) || negb (is_basestring (PStr ts))); [done|].
  destruct (truthy symlink && negb (is_basestring symlink)); [done|].
  unfold bind at 1. simpl.
  rewrite (bind_reads _ _ _ _
             (and_spec _ _ _ _ _ (exists_spec _ _) (not_spec _ _ _ (isdir_spec _ _)))).
  rewrite Hd, (isdir_exists _ _ Hd). simpl.
  rewrite (bind_reads _ _ _ _ (not_spec _ _ _ (exists_spec _ _))).
  by rewrite (isdir_exists _ _ Hd).
Qed.

(** X4. In check mode a create operation whose release directory is already
    there leaves the tree as it is, however it ends. *)
Theorem check_mode_create_existing_release module fs prefix_s ts :
  check_mode module = true ->
  state (params module) = Some State_exists ->
  prefix (params module) = PStr prefix_s ->
  timestamp (params module) = PStr ts ->
  os.path.isdir
    (os.path.join3 (path (params module)) (subfolder (params module)) (prefix_s +:+ ts)) fs
  = Ok true fs ->
  state_of (main module fs) = fs.
Proof.
  intros Hcm Hstate Hp Hts Hd. rewrite isdir_spec in Hd. injection Hd as Hd.
  unfold main. rewrite Hcm, Hstate, Hp, Hts.
  destruct (negb (isinstance_int (keep (params module))) || (keep (params module) <? 0)%Z); [done|].
  apply state_of_bind; [apply setup_check_mode_reads|]. intros de.
  apply state_of_bind; [done|]. intros [d c0].
  apply state_of_bind.
  { unfold exists_. apply state_of_bind; [by apply release_directory_present|].
    intros rd. apply state_of_bind; [apply reads_only_link_check_mode|done]. }
  intros c1. apply state_of_bind; [|by intros [ex fo]].
  destruct de; [apply gather_reads|done].
Qed.

Lemma isdir_b_mono_exists fs fs' s :
  fs ⊆ fs' -> exists_b fs s = true -> isdir_b fs' s = isdir_b fs s.
Proof.
  unfold exists_b, isdir_b, stat. intros Hsub Hex.
  destruct (resolve fs true s) as [|[p [n|]]] eqn:E; try discriminate Hex.
  by rewrite (resolve_mono _ _ _ _ _ _ Hsub E).
Qed.

(** X5. A create operation with a [keep] that line 141 accepts (an [int],
    not negative) whose release path is taken by something that
    is not a directory (a file, or a link to one) fails with "Release
    directory exists,but is not a directory", a conflict, as soon as the
    structural setup is through: no release directory is made and no
    symlink is touched. *)
Theorem release_path_occupied module fs prefix_s ts :
  state (params module) = Some State_exists ->
  prefix (params module) = PStr prefix_s ->
  isinstance_int (keep (params module)) = true ->
  (0 <= keep (params module))%Z ->
  timestamp (params module) = PStr ts ->
  ts <> "" ->
  truthy (symlink (params module)) && negb (is_basestring (symlink (params module))) = false ->
  let release_dir :=
    os.path.join3 (path (params module)) (subfolder (params module)) (prefix_s +:+ ts) in
  os.path.exists_ release_dir fs = Ok true fs ->
  os.path.isdir release_dir fs = Ok false fs ->
  kind (Release_directory_not_a_directory release_dir) = ConflictError /\
  main module fs =
  match setup (check_mode module) (path (params module)) (subfolder (params module)) fs with
  | Ok _ fs1 => FailJson (Release_directory_not_a_directory release_dir) fs1
  | Raise e fs1 => Raise e fs1
  | FailJson f fs1 => FailJson f fs1
  end.
Proof.
  intros Hstate Hp Hi Hk Hts Hne Hsym release_dir Hex Hd. split; [done|].
  rewrite exists_spec in Hex. rewrite isdir_spec in Hd.
  injection Hex as Hex. injection Hd as Hd.
  rewrite (main_exists _ _ _ Hstate Hp Hi Hk). unfold bind at 1.
  destruct (setup _ _ _ fs) as [de fs1| |] eqn:Hsetup; [|done|done].
  apply setup_Ok in Hsetup as ([Hsub _] & _).
  unfold bind at 1. unfold exists_. unfold bind at 1.
  unfold release_directory. rewrite Hts, Hsym.
  apply String.eqb_neq in Hne. simpl. rewrite Hne. simpl.
  unfold bind at 1. unfold ret at 1. fold release_dir.
  rewrite (bind_reads _ _ _ _
             (and_spec _ _ _ _ _ (exists_spec _ _) (not_spec _ _ _ (isdir_spec _ _)))).
  rewrite (isdir_b_mono_exists _ _ _ Hsub Hex), Hd, (exists_b_mono _ _ _ Hsub Hex).
  done.
Qed.

(** ** Cleaning *)

Lemma removed_in_candidates (k : Z) (cands : list string) d :
  d ∈ slice_from k (sorted_reverse cands) -> d ∈ cands.
Proof.
  intros H. unfold slice_from in H. apply (subseteq_drop (Z.to_nat k)) in H.
  unfold sorted_reverse in H. by rewrite merge_sort_Permutation in H.
Qed.

Lemma removed_NoDup (k : Z) (cands : list string) :
  NoDup cands -> NoDup (slice_from k (sorted_reverse cands)).
Proof.
  intros H. unfold slice_from. eapply sublist_NoDup; [|apply sublist_drop].
  unfold sorted_reverse. by rewrite merge_sort_Permutation.
Qed.

(** X6. A clean operation marks for removal only what the enumeration
    found in the releases subfolder after the setup: entries whose name
    starts with the prefix and that are directories and no symlinks; with
    protection on, none of them is named by the text of a watched symlink;
    and none is marked twice. *)
Theorem clean_marks_only_releases module fs r fs' :
  state (params module) = Some State_cleaned ->
  main module fs = Ok r fs' ->
  exists prefix_s directories_exist fs1,
    prefix (params module) = PStr prefix_s /\
    setup (check_mode module) (path (params module)) (subfolder (params module)) fs
    = Ok directories_exist fs1 /\
    NoDup (removed_releases r) /\
    forall d, d ∈ removed_releases r ->
      let abs_file :=
        os.path.join (os.path.join (path (params module)) (subfolder (params module))) d in
      startswith d prefix_s = true /\
      os.path.isdir abs_file fs1 = Ok true fs1 /\
      os.path.islink abs_file fs1 = Ok false fs1 /\
      (keep_symlinked_dirs (params module) = true ->
       forall symlink_dir,
         symlink_dir ∈ watched (symlink_dirs (params module)) (symlink (params module)) ->
         protected_by fs1 (path (params module)) symlink_dir <> Some d).
Proof.
  intros Hstate Hmain.
  apply main_Ok in Hmain
    as (prefix_s & de & fs1 & d & c0 & fs2 & c1 & fs3 & ex & fo & Hp & Hk & Hsetup & Hop1 & _ & _ & ->).
  rewrite Hstate in Hop1. apply cleaned_Ok in Hop1 as (cands & Hc & -> & _).
  exists prefix_s, de, fs1. split; [done|]. split; [done|]. simpl.
  rewrite candidates_spec in Hc.
  destruct (get_releases _ _ _ fs1) as [rels ?| |] eqn:Hget; [|done|done].
  injection Hc as <-. apply get_releases_Ok in Hget as (_ & Hnd & files & _ & ->).
  set (rels := filter _ files) in *.
  assert (Hcands : NoDup (if keep_symlinked_dirs (params module)
                          then foldl (unprotect fs1 (path (params module))) rels
                                 (watched (symlink_dirs (params module))
                                    (symlink (params module)))
                          else rels) /\
                   forall x, x ∈ (if keep_symlinked_dirs (params module)
                                  then foldl (unprotect fs1 (path (params module))) rels
                                         (watched (symlink_dirs (params module))
                                            (symlink (params module)))
                                  else rels) ->
                     x ∈ rels /\
                     (keep_symlinked_dirs (params module) = true ->
                      forall v, v ∈ watched (symlink_dirs (params module))
                                      (symlink (params module)) ->
                                protected_by fs1 (path (params module)) v <> Some x)).
  { destruct (keep_symlinked_dirs (params module)).
    - destruct (foldl_unprotect_spec fs1 (path (params module))
                  (watched (symlink_dirs (params module)) (symlink (params module)))
                  rels Hnd) as [Hnd' Hin].
      split; [done|]. intros x Hx. apply Hin in Hx as [? ?]. auto.
    - split; [done|]. intros x Hx. split; [done|]. intros [=]. }
  destruct Hcands as [Hnd' Hin]. split; [by apply removed_NoDup|].
  intros x Hx. apply removed_in_candidates, Hin in Hx as [Hx Hprot].
  apply list_elem_of_filter in Hx as [Hx _]. cbv zeta.
  rewrite isdir_spec, islink_spec. unfold is_release in Hx.
  destruct (startswith x prefix_s), (isdir_b fs1 _), (islink_b fs1 _); done.
Qed.

Lemma under_refl p : under p p = true.
Proof. unfold under. apply bool_decide_eq_true. apply firstn_all. Qed.

Lemma under_nil p : p <> [] -> under p [] = false.
Proof.
  intros Hp. unfold under. apply bool_decide_eq_false. rewrite take_nil. congruence.
Qed.

Lemma under_removelast p k : under p k = false -> under p (removelast k) = false.
Proof.
  unfold under. rewrite !bool_decide_eq_false. intros Hk Hr. apply Hk.
  destruct (decide (k = [])) as [->|Hne]; [done|].
  rewrite (app_removelast_last "" Hne).
  rewrite take_app_le; [done|]. rewrite <- Hr. rewrite length_take. lia.
Qed.

Lemma nothing_under_subseteq (p : fpath) (fs fs' : FS) :
  fs' ⊆ fs -> nothing_under p fs -> nothing_under p fs'.
Proof. intros Hsub H k n Hk. eapply H, lookup_weaken; done. Qed.

(** In a tree with nothing at [p] or below, no walk from outside ends there. *)
Lemma namei_not_under p links fs follow cur todo q n :
  nothing_under p fs -> p <> [] ->
  under p cur = false ->
  namei links fs follow cur todo = inr (q, Some n) ->
  under p q = false.
Proof.
  intros Hfs Hp. revert cur todo.
  induction links as [|links IHl]; intros cur todo; revert cur;
    induction todo as [|c rest IHt]; intros cur Hcur;
    rewrite (namei_eq _ fs); try (by intros [= <- <-]);
    (destruct (is_dot c); [by apply IHt|]);
    (destruct (String.eqb c ".."); [by apply IHt, under_removelast|]); cbv zeta;
    (destruct (fs !! (cur ++ [c])) as [nd|] eqn:E; [|by destruct (forallb _ rest)]);
    pose proof (Hfs _ _ E) as Hkey;
    (destruct nd as [| |t]; [destruct rest; [by intros [= <- <-]|done]|by apply IHt|]);
    destruct rest, follow; try done; try (by intros [= <- <-]);
    destruct (String.eqb t ""); try done; apply IHl;
    destruct (is_abs t); done || by apply under_nil.
Qed.

Lemma stat_not_under p fs s q n :
  nothing_under p fs -> p <> [] -> stat fs s = inr (q, Some n) -> under p q = false.
Proof.
  unfold stat, resolve. intros Hfs Hp. destruct (String.eqb s ""); [done|].
  apply namei_not_under; [done|done|by apply under_nil].
Qed.

Lemma rmtree_Ok s fs fs' :
  shutil.rmtree s fs = Ok tt fs' ->
  exists p,
    p <> [] /\ stat fs s = inr (p, Some Dir) /\
    fs' = filter (fun kv : fpath * node => under p kv.1 = false) fs.
Proof.
  unfold shutil.rmtree, bind. rewrite islink_spec. destruct (islink_b fs s); [done|].
  destruct (stat fs s) as [|[p [[]|]]]; try done.
  destruct p as [|c p]; [done|]. intros [= <-]. by exists (c :: p).
Qed.

Lemma rmtree_effect (p : fpath) (fs : FS) :
  let fs' := filter (fun kv : fpath * node => under p kv.1 = false) fs in
  fs' ⊆ fs /\ nothing_under p fs' /\
  forall k n, fs !! k = Some n -> under p k = false -> fs' !! k = Some n.
Proof.
  cbv zeta. split; [apply map_filter_subseteq|]. split.
  - intros k n Hk. by apply map_lookup_filter_Some in Hk as [_ ?].
  - intros k n Hk Hu. by apply map_lookup_filter_Some.
Qed.

Lemma stat_mono fs fs' s p n :
  fs ⊆ fs' -> stat fs s = inr (p, Some n) -> stat fs' s = inr (p, Some n).
Proof. apply resolve_mono. Qed.

(** Lines 196-203 when every removal succeeds. *)
Lemma remove_loop_Ok path subfolder dirs fs fs' :
  for_each dirs
    (fun dir _ =>
       let remove_dir := os.path.join3 path subfolder dir in
       try_except_OSError (shutil.rmtree remove_dir)
         (fail_json (Could_not_remove_directory remove_dir)))
    tt fs = Ok tt fs' ->
  fs' ⊆ fs /\
  (forall d, d ∈ dirs -> exists_b fs' (os.path.join3 path subfolder d) = false) /\
  (forall k n, fs !! k = Some n -> fs' !! k = None ->
     exists d p, d ∈ dirs /\
                 stat fs (os.path.join3 path subfolder d) = inr (p, Some Dir) /\
                 under p k = true).
Proof.
  revert fs. induction dirs as [|dir dirs IH]; intros fs; simpl.
  { intros [= <-]. split; [done|]. split.
    - intros d Hd. by apply not_elem_of_nil in Hd.
    - intros k n Hk Hk'. congruence. }
  intros H. apply bind_Ok in H as ([] & fs1 & Hrm & H).
  unfold try_except_OSError in Hrm.
  destruct (shutil.rmtree (os.path.join3 path subfolder dir) fs) as [[] fs0|[]|] eqn:E;
    try done.
  injection Hrm as ->. apply rmtree_Ok in E as (p & Hp & Hstat & ->).
  destruct (rmtree_effect p fs) as (Hsub1 & Hnone & Hkeep).
  set (fs1 := filter _ fs) in *.
  destruct (IH fs1 H) as (Hsub & Hgone & Hframe).
  split; [by etrans|]. split.
  - intros d [->|Hd]%elem_of_cons; [|by apply Hgone].
    unfold exists_b.
    destruct (stat fs' (os.path.join3 path subfolder dir)) as [|[q [n|]]] eqn:Eq;
      [done| |done].
    exfalso. apply (stat_mono _ _ _ _ _ Hsub) in Eq.
    pose proof (stat_not_under _ _ _ _ _ Hnone Hp Eq) as Hq.
    apply (stat_mono _ _ _ _ _ Hsub1) in Eq. rewrite Hstat in Eq.
    injection Eq as <- _. by rewrite under_refl in Hq.
  - intros k n Hk Hk'. destruct (under p k) eqn:Hu.
    + exists dir, p. split; [by left|done].
    + destruct (Hframe k n (Hkeep k n Hk Hu) Hk') as (d & p' & Hd & Hst & Hu').
      exists d, p'. split; [by right|]. split; [|done]. by eapply stat_mono.
Qed.

Lemma cleaned_Ok_removals path subfolder prefix keep keep_symlinked_dirs vs fs d c fs' :
  cleaned false path subfolder prefix keep keep_symlinked_dirs vs fs = Ok (d, c) fs' ->
  for_each d
    (fun dir _ =>
       let remove_dir := os.path.join3 path subfolder dir in
       try_except_OSError (shutil.rmtree remove_dir)
         (fail_json (Could_not_remove_directory remove_dir)))
    tt fs = Ok tt fs'.
Proof.
  unfold cleaned. intros H. bind_inv H.
  pose proof (candidates_reads path subfolder prefix keep_symlinked_dirs vs fs) as Hr.
  rewrite H0 in Hr. simpl in Hr. subst fs0.
  bind_inv H. injection H as <- <- <-. simpl in H1. by destruct a0.
Qed.

(** The parts of a successful clean outside check mode. *)
Lemma clean_run module fs r fs' :
  state (params module) = Some State_cleaned ->
  check_mode module = false ->
  main module fs = Ok r fs' ->
  exists prefix_s directories_exist fs1,
    prefix (params module) = PStr prefix_s /\
    setup false (path (params module)) (subfolder (params module)) fs
    = Ok directories_exist fs1 /\
    for_each (removed_releases r)
      (fun dir _ =>
         let remove_dir :=
           os.path.join3 (path (params module)) (subfolder (params module)) dir in
         try_except_OSError (shutil.rmtree remove_dir)
           (fail_json (Could_not_remove_directory remove_dir)))
      tt fs1 = Ok tt fs' /\
    get_releases (path (params module)) (subfolder (params module)) prefix_s fs'
    = Ok (releases r) fs'.
Proof.
  intros Hstate Hcm Hmain.
  apply main_Ok in Hmain
    as (prefix_s & de & fs1 & d & c0 & fs2 & c1 & fs3 & ex & fo & Hp & Hk & Hsetup & Hop1 & Hop2 & Hrep & ->).
  rewrite Hstate in Hop1, Hop2. rewrite Hcm in Hop1, Hsetup.
  apply cleaned_Ok_removals in Hop1. injection Hop2 as _ <-.
  destruct (setup_Ok _ _ _ _ _ _ Hsetup) as (_ & _ & Hde). rewrite (Hde eq_refl) in Hrep.
  rewrite gather_spec in Hrep.
  destruct (get_releases _ _ _ fs2) as [rels fs2'| |] eqn:Hget; [|done|done].
  injection Hrep as <- <- <-.
  apply get_releases_Ok in Hget as Hfs. destruct Hfs as (-> & _).
  exists prefix_s, de, fs1. done.
Qed.

(** X7. After a successful clean outside check mode every release marked
    for removal is gone: its path no longer exists, and the reported
    [releases] do not list it. *)
Theorem clean_removes_marked module fs r fs' d :
  state (params module) = Some State_cleaned ->
  check_mode module = false ->
  main module fs = Ok r fs' ->
  d ∈ removed_releases r ->
  os.path.exists_ (os.path.join3 (path (params module)) (subfolder (params module)) d) fs'
  = Ok false fs' /\
  d ∉ releases r.
Proof.
  intros Hstate Hcm Hmain Hd.
  destruct (clean_run _ _ _ _ Hstate Hcm Hmain)
    as (prefix_s & de & fs1 & _ & _ & Hloop & Hget).
  apply remove_loop_Ok in Hloop as (_ & Hgone & _). specialize (Hgone d Hd).
  split; [by rewrite exists_spec, Hgone|].
  apply get_releases_Ok in Hget as (_ & _ & files & _ & ->).
  intros [Hrel _]%list_elem_of_filter. unfold is_release in Hrel.
  fold (os.path.join3 (path (params module)) (subfolder (params module)) d) in Hrel.
  destruct (isdir_b fs' _) eqn:Hdir.
  - apply isdir_exists in Hdir. congruence.
  - by rewrite andb_false_r in Hrel.
Qed.

(** X8. A successful clean outside check mode deletes nothing but the
    marked release directories and what lies below them: every entry that
    was there after the setup and is gone afterwards lies at or below the
    directory that one of the marked names resolved to, and no entry is
    added or altered. *)
Theorem clean_deletes_only_marked module fs r fs' :
  state (params module) = Some State_cleaned ->
  check_mode module = false ->
  main module fs = Ok r fs' ->
  exists directories_exist fs1,
    setup false (path (params module)) (subfolder (params module)) fs
    = Ok directories_exist fs1 /\
    fs ⊆ fs1 /\ fs' ⊆ fs1 /\
    forall k n, fs1 !! k = Some n -> fs' !! k = None ->
      exists d p,
        d ∈ removed_releases r /\
        stat fs1 (os.path.join3 (path (params module)) (subfolder (params module)) d)
        = inr (p, Some Dir) /\
        under p k = true.
Proof.
  intros Hstate Hcm Hmain.
  destruct (clean_run _ _ _ _ Hstate Hcm Hmain)
    as (prefix_s & de & fs1 & _ & Hsetup & Hloop & _).
  exists de, fs1. split; [done|].
  apply setup_Ok in Hsetup as ([Hsub _] & _). split; [done|].
  by apply remove_loop_Ok in Hloop as (? & _ & ?).
Qed.

Lemma rmtree_state s fs : state_of (shutil.rmtree s fs) ⊆ fs.
Proof.
  unfold shutil.rmtree, bind. rewrite islink_spec. destruct (islink_b fs s); [done|].
  destruct (stat fs s) as [|[p [[]|]]]; try done.
  destruct p; simpl; apply map_filter_subseteq.
Qed.

(** Lines 196-203 when a removal fails. *)
Lemma remove_loop_fails path subfolder dirs fs f fs' :
  for_each dirs
    (fun dir _ =>
       let remove_dir := os.path.join3 path subfolder dir in
       try_except_OSError (shutil.rmtree remove_dir)
         (fail_json (Could_not_remove_directory remove_dir)))
    tt fs = FailJson f fs' ->
  fs' ⊆ fs /\
  exists done_ d rest e fs0,
    dirs = done_ ++ d :: rest /\
    f = Could_not_remove_directory (os.path.join3 path subfolder d) /\
    (forall d', d' ∈ done_ -> exists_b fs' (os.path.join3 path subfolder d') = false) /\
    shutil.rmtree (os.path.join3 path subfolder d) fs0 = Raise (OSError e) fs'.
Proof.
  revert fs. induction dirs as [|dir dirs IH]; intros fs; simpl; [done|].
  intros H. apply bind_FailJson in H as [H|([] & fs1 & Hrm & H)].
  - unfold try_except_OSError in H.
    pose proof (rmtree_state (os.path.join3 path subfolder dir) fs) as Hst.
    destruct (shutil.rmtree (os.path.join3 path subfolder dir) fs) as [|[e| | | | |]|] eqn:E;
      try done.
    + injection H as <- <-. split; [done|].
      exists [], dir, dirs, e, fs. split; [done|]. split; [done|]. split; [|done].
      intros d' Hd'. by apply not_elem_of_nil in Hd'.
    + by apply rmtree_not_FailJson in E.
  - unfold try_except_OSError in Hrm.
    destruct (shutil.rmtree (os.path.join3 path subfolder dir) fs) as [[] fs0|[]|] eqn:E;
      try done.
    injection Hrm as ->.
    destruct (IH fs1 H) as (Hsub & done_ & d & rest & e & fs0 & -> & -> & Hgone & Hfail).
    assert (Hone : for_each [dir]
              (fun dir _ =>
                 let remove_dir := os.path.join3 path subfolder dir in
                 try_except_OSError (shutil.rmtree remove_dir)
                   (fail_json (Could_not_remove_directory remove_dir)))
              tt fs = Ok tt fs1).
    { simpl. unfold bind, try_except_OSError. by rewrite E. }
    apply remove_loop_Ok in Hone as (Hsub1 & Hgone1 & _).
    split; [by etrans|].
    exists (dir :: done_), d, rest, e, fs0. split; [done|]. split; [done|]. split; [|done].
    intros d' [->|Hd']%elem_of_cons; [|by apply Hgone].
    specialize (Hgone1 dir). unfold exists_b in *.
    destruct (stat fs' (os.path.join3 path subfolder dir)) as [|[q [n|]]] eqn:Eq;
      [done| |done].
    apply (stat_mono _ _ _ _ _ Hsub) in Eq. rewrite Eq in Hgone1.
    apply Hgone1. by left.
Qed.

(** X9. A clean operation that ends in [fail_json] after its parameters
    were accepted fails with "Could not remove directory" and the path of a
    marked release whose removal raised; the releases marked before it are
    gone and stay gone, and nothing was added. *)
Theorem clean_failure_names_directory module fs f fs' :
  state (params module) = Some State_cleaned ->
  main module fs = FailJson f fs' ->
  f <> Invalid_prefix -> f <> Invalid_keep ->
  check_mode module = false /\
  exists prefix_s directories_exist fs1 cands done_ d rest,
    setup false (path (params module)) (subfolder (params module)) fs
    = Ok directories_exist fs1 /\
    candidates (path (params module)) (subfolder (params module)) prefix_s
      (keep_symlinked_dirs (params module))
      (watched (symlink_dirs (params module)) (symlink (params module))) fs1
    = Ok cands fs1 /\
    slice_from (keep (params module)) (sorted_reverse cands) = done_ ++ d :: rest /\
    f = Could_not_remove_directory
          (os.path.join3 (path (params module)) (subfolder (params module)) d) /\
    fs' ⊆ fs1 /\
    forall d', d' ∈ done_ ->
      exists_b fs' (os.path.join3 (path (params module)) (subfolder (params module)) d')
      = false.
Proof.
  unfold main. intros Hstate H Hf1 Hf2. rewrite Hstate in H.
  destruct (prefix (params module)) as [|prefix_s| |];
    try (injection H as <- _; done).
  destruct (negb (isinstance_int (keep (params module))) || (keep (params module) <? 0)%Z); [injection H as <- _; done|].
  apply bind_FailJson in H as [H|(de & fs1 & Hsetup & H)].
  { pose proof (setup_outcome (check_mode module) (path (params module))
                  (subfolder (params module)) fs) as Ho. by rewrite H in Ho. }
  apply bind_FailJson in H as [H|([d c0] & fs2 & Hop1 & H)].
  - unfold cleaned in H.
    apply bind_FailJson in H as [H|(cands & fs1' & Hc & H)];
      [by apply candidates_not_FailJson in H|].
    pose proof (candidates_reads (path (params module)) (subfolder (params module))
                  prefix_s (keep_symlinked_dirs (params module))
                  (watched (symlink_dirs (params module)) (symlink (params module)))
                  fs1) as Hr.
    rewrite Hc in Hr. simpl in Hr. subst fs1'.
    apply bind_FailJson in H as [H|(? & ? & _ & H)]; [|done].
    revert Hsetup H. destruct (check_mode module); intros Hsetup H; simpl in H; [done|].
    split; [done|].
    apply remove_loop_fails in H
      as (Hsub & done_ & d & rest & e & fs0 & Hsplit & -> & Hgone & _).
    exists prefix_s, de, fs1, cands, done_, d, rest. done.
  - apply bind_FailJson in H as [H|(c1 & fs3 & _ & H)]; [done|].
    apply bind_FailJson in H as [H|([ex fo] & fs4 & _ & H)]; [|done].
    destruct de; [|done]. by apply gather_not_FailJson in H.
Qed.

(** ** The report *)

(** X10. The report of a successful run is read off the tree the run
    leaves behind: [releases] is the enumeration of that tree, and
    [symlinked_folders] has one entry for each watched name and for no other
    key, holding the text of the link of that name joined to the base path,
    or [None] when there is no such link to read.  Only when check mode found
    the base path or the releases subfolder missing is the report empty. *)
Theorem report_reflects_tree module fs r fs' prefix_s :
  prefix (params module) = PStr prefix_s ->
  main module fs = Ok r fs' ->
  exists directories_exist fs1,
    setup (check_mode module) (path (params module)) (subfolder (params module)) fs
    = Ok directories_exist fs1 /\
    if directories_exist then
      get_releases (path (params module)) (subfolder (params module)) prefix_s fs'
      = Ok (releases r) fs' /\
      forall v,
        dict_get v (symlinked_folders r) =
        if py_in v (watched (symlink_dirs (params module)) (symlink (params module)))
        then Some (reported fs' (path (params module)) v)
        else None
    else
      check_mode module = true /\ releases r = [] /\ symlinked_folders r = [].
Proof.
  intros Hp Hmain.
  apply main_Ok in Hmain
    as (prefix_s' & de & fs1 & d & c0 & fs2 & c1 & fs3 & ex & fo & Hp' & Hk & Hsetup & _ & _ & Hrep & ->).
  rewrite Hp in Hp'. injection Hp' as <-.
  exists de, fs1. split; [done|]. destruct de; simpl.
  - rewrite gather_spec in Hrep.
    destruct (get_releases _ _ _ fs3) as [rels fs3'| |] eqn:Hget; [|done|done].
    injection Hrep as <- <- <-.
    apply get_releases_Ok in Hget as Hfs. destruct Hfs as (-> & _). split; [done|].
    intros v. apply (dict_get_foldl (reported fs3 (path (params module)))), reported_key.
  - injection Hrep as <- <- _. split; [|done].
    apply setup_Ok in Hsetup as (_ & _ & Hde). destruct (check_mode module); [done|].
    by specialize (Hde eq_refl).
Qed.

Lemma listdir_missing s fs :
  exists_b fs s = false -> exists e, os.listdir s fs = Raise (OSError e) fs.
Proof.
  unfold exists_b, os.listdir. destruct (stat fs s) as [e|[p [n|]]]; [eauto|done|eauto].
Qed.

(** X11. In check mode a query with a [keep] that line 141 accepts (an
    [int], not negative) on a tree where the base path or the
    releases subfolder is missing returns an empty report, unchanged, and
    leaves the tree alone: the gathering of line 253 is skipped. *)
Theorem check_mode_query_missing_directories module fs prefix_s :
  check_mode module = true ->
  state (params module) = None ->
  prefix (params module) = PStr prefix_s ->
  isinstance_int (keep (params module)) = true ->
  (0 <= keep (params module))%Z ->
  exists_b fs (path (params module))
  && exists_b fs (os.path.join (path (params module)) (subfolder (params module))) = false ->
  main module fs
  = Ok {| changed := false;
          removed_releases := [];
          absolute_path := path (params module);
          symlinked_folders := [];
          releases := [];
          releases_path := os.path.join (path (params module)) (subfolder (params module)) |}
       fs.
Proof.
  intros Hcm Hstate Hp Hi Hk Hmiss. unfold main. rewrite Hcm, Hstate, Hp.
  rewrite (proj2 (keep_accepted _) (conj Hi Hk)).
  unfold bind at 1. by rewrite setup_check_mode, Hmiss.
Qed.

(** X12. In check mode a clean operation with a [keep] that line 141
    accepts (an [int], not negative) on a tree where the releases
    subfolder is missing ends in an uncaught [OSError]: [os.listdir] at line
    99 is reached through line 179, whatever line 169 found. *)
Theorem check_mode_clean_missing_subfolder module fs prefix_s :
  check_mode module = true ->
  state (params module) = Some State_cleaned ->
  prefix (params module) = PStr prefix_s ->
  isinstance_int (keep (params module)) = true ->
  (0 <= keep (params module))%Z ->
  os.path.exists_ (os.path.join (path (params module)) (subfolder (params module))) fs
  = Ok false fs ->
  exists e, main module fs = Raise (OSError e) fs.
Proof.
  intros Hcm Hstate Hp Hi Hk Hmiss. rewrite exists_spec in Hmiss. injection Hmiss as Hmiss.
  destruct (listdir_missing _ _ Hmiss) as [e He]. exists e.
  unfold main. rewrite Hcm, Hstate, Hp.
  rewrite (proj2 (keep_accepted _) (conj Hi Hk)).
  unfold bind at 1. rewrite setup_check_mode.
  unfold bind at 1. unfold cleaned. unfold bind at 1.
  by rewrite candidates_spec, get_releases_spec, He.
Qed.

Lemma candidates_length path subfolder prefix keep_symlinked_dirs vs fs rels cands :
  get_releases path subfolder prefix fs = Ok rels fs ->
  candidates path subfolder prefix keep_symlinked_dirs vs fs = Ok cands fs ->
  length cands <= length rels.
Proof.
  intros Hget Hc. rewrite candidates_spec, Hget in Hc. injection Hc as <-.
  apply get_releases_Ok in Hget as (_ & Hnd & _).
  destruct keep_symlinked_dirs; [|done].
  destruct (foldl_unprotect_spec fs path vs rels Hnd) as [Hnd' Hin].
  apply submseteq_length, NoDup_submseteq; [done|]. intros x Hx.
  by apply Hin in Hx as [? _].
Qed.

(** X13. A clean operation with [keep] at least the number of releases found
    removes nothing: [removed_releases] is empty, [changed] is false, the
    tree is as the setup left it and the report lists the releases found. *)
Theorem clean_keep_covers_all module fs r fs' prefix_s directories_exist fs1 rels :
  state (params module) = Some State_cleaned ->
  prefix (params module) = PStr prefix_s ->
  setup (check_mode module) (path (params module)) (subfolder (params module)) fs
  = Ok directories_exist fs1 ->
  get_releases (path (params module)) (subfolder (params module)) prefix_s fs1
  = Ok rels fs1 ->
  (Z.of_nat (length rels) <= keep (params module))%Z ->
  main module fs = Ok r fs' ->
  removed_releases r = [] /\ changed r = false /\ fs' = fs1 /\
  (directories_exist = true -> releases r = rels).
Proof.
  intros Hstate Hp Hsetup Hget Hlen Hmain.
  apply main_Ok in Hmain
    as (prefix_s' & de & fs1' & d & c0 & fs2 & c1 & fs3 & ex & fo & Hp' & Hk & Hsetup' & Hop1 & Hop2 & Hrep & ->).
  rewrite Hp in Hp'. injection Hp' as <-.
  rewrite Hsetup in Hsetup'. injection Hsetup' as <- <-.
  rewrite Hstate in Hop1, Hop2. injection Hop2 as <- <-.
  destruct (cleaned_Ok _ _ _ _ _ _ _ _ _ _ _ Hop1) as (cands & Hc & _ & _).
  pose proof (candidates_length _ _ _ _ _ _ _ _ Hget Hc) as Hcl.
  assert (Hnil : slice_from (keep (params module)) (sorted_reverse cands) = []).
  { unfold slice_from. apply drop_ge.
    rewrite (Permutation_length (sorted_reverse_perm cands)). lia. }
  unfold cleaned in Hop1. unfold bind at 1 in Hop1. rewrite Hc, Hnil in Hop1.
  assert (Hd : d = [] /\ c0 = false /\ fs2 = fs1).
  { destruct (check_mode module); simpl in Hop1; by injection Hop1 as <- <- <-. }
  destruct Hd as (-> & -> & ->). simpl.
  split; [done|]. split; [done|].
  destruct directories_exist.
  - rewrite gather_spec, Hget in Hrep. by injection Hrep as <- _ <-.
  - by injection Hrep as _ _ <-.
Qed.

(** ** Creating and linking *)

(** A name that a walk reports free is found there once it is entered,
    provided the path does not end in a slash. *)
Lemma namei_insert (links : nat) (fs : FS) (cur : fpath) (todo : list string) (p : fpath) (n : node)
    (c : string) :
  fs !! p = None -> c <> "" ->
  (exists l, todo = l ++ [c]) ->
  namei links fs false cur todo = inr (p, None) ->
  namei links (<[p:=n]> fs) false cur todo = inr (p, Some n).
Proof.
  intros Hfree Hc. revert cur todo.
  assert (Hfree_here : forall rest : list string, (rest = [] \/ exists l', rest = l' ++ [c]) ->
            forallb (String.eqb "") rest = true -> rest = []).
  { intros rest [->|[l' ->]] Hall; [done|].
    rewrite forallb_app in Hall. apply andb_true_iff in Hall as [_ Hall].
    by destruct c. }
  induction links as [|links IHl]; intros cur todo; revert cur;
    induction todo as [|c0 rest IHt]; intros cur [l Hl];
    try (by destruct l);
    rewrite (namei_eq _ fs), (namei_eq _ (<[p:=n]> fs)).
  all: assert (Hrest : rest = [] /\ c0 = c \/ exists l', rest = l' ++ [c])
         by (destruct l as [|x l']; simpl in Hl; injection Hl as -> ->; eauto).
  all: destruct (is_dot c0) eqn:Hdot;
         [destruct Hrest as [[-> ->]|Hrest]; [by rewrite !namei_eq|by apply IHt]|].
  all: destruct (String.eqb c0 "..");
         [destruct Hrest as [[-> ->]|Hrest]; [by rewrite !namei_eq|by apply IHt]|].
  all: cbv zeta; destruct (fs !! (cur ++ [c0])) as [nd|] eqn:E.
  2,4: destruct (forallb (String.eqb "") rest) eqn:Hall; [|done];
       intros [= <-]; rewrite lookup_insert_eq;
       assert (rest = []) as -> by (apply (Hfree_here rest); [tauto|done]);
       destruct n; by rewrite ?namei_eq.
  all: assert (Hne : p <> cur ++ [c0]) by congruence;
       rewrite (lookup_insert_ne _ _ _ _ Hne), E.
  all: destruct nd as [| |t].
  1,4: by destruct rest.
  1,3: destruct Hrest as [[-> ->]|Hrest]; [by rewrite !namei_eq|by apply IHt].
  all: destruct Hrest as [[-> ->]|[l' ->]]; [done|].
  - by destruct l'.
  - destruct (l' ++ [c]) eqn:El; [by destruct l'|]. rewrite <- El.
    destruct (String.eqb t ""); [done|]. apply IHl.
    exists (components t ++ l'). by rewrite app_assoc.
Qed.
Lemma str_split_nonempty sep s : str_split sep s <> [].
Proof.
  destruct s as [|c s]; simpl; [done|].
  destruct (Ascii.eqb c sep); [done|]. by destruct (str_split sep s).
Qed.

Lemma components_last s :
  exists l, components s = l ++ [os.path.basename s].
Proof.
  unfold os.path.basename. exists (removelast (components s)).
  apply app_removelast_last, str_split_nonempty.
Qed.

Lemma lstat_insert (fs : FS) s p n :
  os.path.basename s <> "" ->
  lstat fs s = inr (p, None) ->
  lstat (<[p:=n]> fs) s = inr (p, Some n).
Proof.
  unfold lstat, resolve. intros Hb. destruct (String.eqb s ""); [done|]. intros H.
  eapply namei_insert; [by eapply namei_free|done|apply components_last|done].
Qed.

(** [os.symlink] and [os.readlink] round trip. *)
Lemma symlink_readlink src dst fs fs' :
  os.path.basename dst <> "" ->
  os.symlink src dst fs = Ok tt fs' ->
  os.readlink dst fs' = Ok src fs'.
Proof.
  intros Hb. unfold os.symlink, os.readlink.
  destruct (lstat fs dst) as [|[p [|]]] eqn:E; try done.
  destruct (ends_with_slash dst); [done|].
  intros [= <-]. by rewrite (lstat_insert _ _ _ (Link src) Hb E).
Qed.

Lemma release_directory_value path subfolder prefix timestamp symlink fs release_dir fs' :
  release_directory path subfolder prefix timestamp symlink fs = Ok release_dir fs' ->
  exists ts, timestamp = PStr ts /\ ts <> "" /\
             release_dir = os.path.join3 path subfolder (prefix +:+ ts).
Proof.
  unfold release_directory.
  destruct timestamp as [|ts| |]; simpl; try done.
  - destruct (String.eqb ts "") eqn:Ets; [done|]. simpl.
    destruct (truthy symlink && negb (is_basestring symlink)); [done|].
    intros H. bind_inv H. injection H0 as <- <-. bind_inv H.
    destruct a; [done|]. bind_inv H. bind_inv H. injection H as <- _.
    exists ts. split; [done|]. split; [|done]. by intros ->.
  - by destruct (negb (Z.eqb n 0)).
  - by destruct b.
Qed.

Lemma link_Ok path symlink release_dir fs fs' :
  link false path symlink release_dir fs = Ok tt fs' ->
  exists s, symlink = PStr s /\ s <> "" /\
    (os.path.basename (os.path.join path s) <> "" ->
     os.readlink (os.path.join path s) fs' = Ok release_dir fs').
Proof.
  destruct (truthy symlink) eqn:Ht; [|by rewrite link_unbound].
  unfold link. rewrite Ht. intros H. bind_inv H. bind_inv H0.
  destruct symlink as [|s| |]; try done. injection H1 as <- <-.
  exists s. split; [done|]. split; [by intros ->|]. intros Hb.
  apply bind_Ok in H0 as (conflict & fsc & Hc & H0).
  destruct conflict; [done|]. injection H0 as <- <-.
  simpl in H. unfold try_except_OSError in H.
  match type of H with
  | match ?b with _ => _ end = _ => destruct b as [[] fsb|[]|] eqn:Eb; try done
  end.
  injection H as <-.
  apply bind_Ok in Eb as (sd & fsd & Hsd & Eb). injection Hsd as <- <-.
  apply bind_Ok in Eb as (l & fsl & _ & Eb).
  apply bind_Ok in Eb as ([] & fsu & _ & Eb).
  by eapply symlink_readlink.
Qed.

(** X14. A successful run with [state == 'exists'] outside check mode was
    given a non-empty string as [timestamp] and as [symlink]; it reports
    [changed] and no removal.  Unless the link name ends in a slash, the link
    [path/symlink] afterwards reads as the release directory
    [path/subfolder/prefix+timestamp], and the report holds that directory,
    joined to the base path, under the key [symlink]. *)
Theorem create_links_release module fs r fs' :
  state (params module) = Some State_exists ->
  check_mode module = false ->
  main module fs = Ok r fs' ->
  exists prefix_s ts s,
    prefix (params module) = PStr prefix_s /\
    timestamp (params module) = PStr ts /\ ts <> "" /\
    symlink (params module) = PStr s /\ s <> "" /\
    changed r = true /\ removed_releases r = [] /\
    let release_dir :=
      os.path.join3 (path (params module)) (subfolder (params module)) (prefix_s +:+ ts) in
    (os.path.basename (os.path.join (path (params module)) s) <> "" ->
     os.readlink (os.path.join (path (params module)) s) fs' = Ok release_dir fs' /\
     dict_get (PStr s) (symlinked_folders r)
     = Some (Some (os.path.join (path (params module)) release_dir))).
Proof.
  intros Hstate Hcm Hmain.
  apply main_Ok in Hmain
    as (prefix_s & de & fs1 & d & c0 & fs2 & c1 & fs3 & ex & fo
        & Hp & Hk & Hsetup & Hrem & Hop & Hrep & ->).
  rewrite Hstate in Hrem, Hop. rewrite Hcm in Hsetup, Hop.
  injection Hrem as <- <- <-.
  apply setup_Ok in Hsetup as (_ & _ & Hde). specialize (Hde eq_refl). subst de.
  unfold exists_ in Hop.
  apply bind_Ok in Hop as (release_dir & fsa & Hrd & Hop).
  apply bind_Ok in Hop as ([] & fsb & Hlink & Hop). injection Hop as <- <-.
  apply release_directory_value in Hrd as (ts & Hts & Htsne & ->).
  apply link_Ok in Hlink as (s & Hs & Hsne & Hlink).
  rewrite gather_spec in Hrep.
  destruct (get_releases _ _ _ fsb) as [rels fsb'| |] eqn:Hget; [|done|done].
  injection Hrep as <- <- <-.
  exists prefix_s, ts, s. simpl.
  split; [done|]. split; [done|]. split; [done|]. split; [done|]. split; [done|].
  split; [done|]. split; [done|]. intros Hb. specialize (Hlink Hb). split; [done|].
  rewrite (dict_get_foldl (reported fsb (path (params module))));
    [|apply reported_key].
  rewrite Hs, watched_contains by (simpl; by destruct s).
  unfold reported, link_text. unfold os.readlink in Hlink.
  destruct (lstat fsb (os.path.join (path (params module)) s)) as [|[p [[| |t]|]]];
    try discriminate Hlink.
  by injection Hlink as ->.
Qed.

(** ** The flags of the report *)

(** X15. What a successful run reports besides the lists: [changed] is true
    for every create operation, false for every query, and for a clean
    operation true exactly when some release is marked for removal, in check
    mode as outside it; a run without [state == 'cleaned'] marks none;
    [absolute_path] and [releases_path] are the base path and the releases
    subfolder joined to it. *)
Theorem report_flags module fs r fs' :
  main module fs = Ok r fs' ->
  changed r =
    match state (params module) with
    | Some State_exists => true
    | Some State_cleaned => negb (Nat.eqb (length (removed_releases r)) 0)
    | None => false
    end /\
  (state (params module) <> Some State_cleaned -> removed_releases r = []) /\
  absolute_path r = path (params module) /\
  releases_path r = os.path.join (path (params module)) (subfolder (params module)).
Proof.
  intros Hmain.
  apply main_Ok in Hmain
    as (prefix_s & de & fs1 & d & c0 & fs2 & c1 & fs3 & ex & fo
        & Hp & Hk & Hsetup & Hrem & Hop & Hrep & ->).
  simpl. destruct (state (params module)) as [[]|].
  - injection Hrem as <- <- <-. unfold exists_ in Hop.
    apply bind_Ok in Hop as (rd & fsa & _ & Hop).
    apply bind_Ok in Hop as ([] & fsb & _ & Hop). by injection Hop as <- <-.
  - injection Hop as <- <-.
    apply cleaned_Ok in Hrem as (cands & _ & _ & ->).
    split; [by destruct d|]. done.
  - injection Hrem as <- <- <-. by injection Hop as <- <-.
Qed.

(** ** The enumeration and the setup *)

(** X16. [get_releases] returns a list exactly when the releases subfolder
    is (or resolves to) a directory, and the list has no name twice;
    otherwise it raises [OSError].  In both cases the tree is as before. *)
Theorem get_releases_outcome path subfolder prefix fs :
  match get_releases path subfolder prefix fs with
  | Ok rels fs' =>
      fs' = fs /\ NoDup rels /\
      os.path.isdir (os.path.join path subfolder) fs = Ok true fs
  | Raise e fs' =>
      fs' = fs /\ (exists n, e = OSError n) /\
      os.path.isdir (os.path.join path subfolder) fs = Ok false fs
  | FailJson _ _ => False
  end.
Proof.
  destruct (get_releases path subfolder prefix fs) as [rels fs'|e fs'|f fs'] eqn:E.
  - apply get_releases_Ok in E as (-> & Hnd & files & Hl & _).
    split; [done|]. split; [done|].
    apply listdir_Ok in Hl as (_ & p & Hp & _).
    unfold os.path.isdir. by rewrite Hp.
  - rewrite get_releases_spec in E. unfold os.listdir, os.path.isdir in *.
    destruct (stat fs (os.path.join path subfolder)) as [n|[p [[]|]]];
      try discriminate E; injection E as <- <-; eauto.
  - by apply get_releases_not_FailJson in E.
Qed.

(** X17. [ensure_dir] does nothing to a path that exists.  Whatever it does
    and however it ends, every entry of the tree stays as it was and every
    entry added is a directory; it never ends in [fail_json]. *)
Theorem ensure_dir_only_adds_directories path fs :
  (os.path.exists_ path fs = Ok true fs -> ensure_dir path fs = Ok tt fs) /\
  match ensure_dir path fs with
  | Ok _ fs' | Raise _ fs' =>
      fs ⊆ fs' /\ forall p n, fs' !! p = Some n -> fs !! p = None -> n = Dir
  | FailJson _ _ => False
  end.
Proof.
  split.
  - intros H. unfold ensure_dir. by rewrite (bind_reads _ _ _ _ H).
  - pose proof (ensure_dir_outcome path fs) as H.
    by destruct (ensure_dir path fs).
Qed.

(** ** Retention: the tree after a clean *)

Lemma plain_names_lookup fs k n :
  plain_names fs = true -> fs !! k = Some n -> forallb plain_name k = true.
Proof.
  unfold plain_names. rewrite forallb_forall. intros H Hk.
  apply (H (k, n)). apply list_elem_of_In. by apply elem_of_map_to_list.
Qed.

Lemma namei_dots (links : nat) (fs : FS) (follow : bool) (cur : fpath) (e : list string) :
  forallb is_dot e = true -> namei links fs follow cur e = inr (cur, Some Dir).
Proof.
  induction e as [|c e IH]; intros He; rewrite namei_eq; [done|].
  simpl in He. apply andb_true_iff in He as [Hc He]. rewrite Hc. by apply IH.
Qed.

Lemma namei_child (links : nat) (fs : FS) (follow : bool) (cur : fpath) (l e : list string)
    (x : string) (P : fpath) :
  forallb is_dot e = true ->
  is_dot x = false -> String.eqb x ".." = false ->
  (follow = false \/ forall t, fs !! (P ++ [x]) <> Some (Link t)) ->
  namei links fs true cur (l ++ e) = inr (P, Some Dir) ->
  namei links fs follow cur (l ++ [x]) = inr (P ++ [x], fs !! (P ++ [x])).
Proof.
  intros He Hx1 Hx2 Hf. revert cur l.
  assert (Hbase : forall links cur,
            namei links fs true cur e = inr (P, Some Dir) ->
            namei links fs follow cur [x] = inr (P ++ [x], fs !! (P ++ [x]))).
  { intros links' cur. rewrite (namei_dots _ _ _ _ _ He). intros [= <-].
    rewrite namei_eq, Hx1, Hx2. cbv zeta.
    destruct (fs !! (cur ++ [x])) as [[| |t]|] eqn:E; try done.
    - by rewrite namei_eq.
    - destruct Hf as [->|Hf]; [done|]. by destruct (Hf t). }
  induction links as [|links IHl]; intros cur l; revert cur;
    induction l as [|c rest IHt]; intros cur; try apply Hbase.
  all: simpl app; rewrite (namei_eq _ fs true), (namei_eq _ fs follow).
  all: destruct (is_dot c); [apply IHt|].
  all: destruct (String.eqb c ".."); [apply IHt|]; cbv zeta.
  all: destruct (fs !! (cur ++ [c])) as [[| |t]|] eqn:E;
         [by destruct (rest ++ e)|apply IHt| |by destruct (forallb _ (rest ++ e))].
  - by destruct (rest ++ e).
  - assert (Hne : rest ++ [x] <> []) by (by destruct rest).
    destruct (rest ++ [x]) as [|y ys] eqn:Er; [done|]. rewrite <- Er.
    assert (Hhyp : forall R : errno + fpath * option node,
              match rest ++ e, true with
              | [], false => inr (cur ++ [c], Some (Link t))
              | _, _ => R
              end = R) by (intros R; by destruct (rest ++ e)).
    rewrite Hhyp.
    destruct (String.eqb t ""); [done|].
    rewrite !app_assoc. apply IHl.
Qed.

Lemma str_split_app sep a b :
  str_split sep (a +:+ String sep b) = str_split sep a ++ str_split sep b.
Proof.
  induction a as [|c a IH]; simpl.
  - by rewrite Ascii.eqb_refl.
  - destruct (Ascii.eqb c sep); [by rewrite IH|].
    rewrite IH. pose proof (str_split_nonempty sep a) as Hne.
    by destruct (str_split sep a).
Qed.

Lemma append_assoc (a b c : string) : (a +:+ b) +:+ c = a +:+ (b +:+ c).
Proof.
  induction a as [|x a IH]; [reflexivity|].
  change (String x ((a +:+ b) +:+ c) = String x (a +:+ (b +:+ c))). by rewrite IH.
Qed.

Lemma ends_with_slash_inv a : ends_with_slash a = true -> exists a', a = a' +:+ "/".
Proof.
  induction a as [|c a IH]; [done|]. simpl. destruct a as [|d a].
  - intros ->%Ascii.eqb_eq. by exists "".
  - intros H. destruct (IH H) as [a' ->]. by exists (String c a').
Qed.

Lemma plain_name_spec x :
  plain_name x = true ->
  is_dot x = false /\ String.eqb x ".." = false /\ components x = [x] /\
  startswith x "/" = false.
Proof.
  unfold plain_name. intros H.
  apply andb_true_iff in H as [H H3]. apply andb_true_iff in H as [H1 H2].
  apply negb_true_iff in H1, H2. apply bool_decide_eq_true in H3.
  repeat split; try done.
  destruct x as [|c x]; [done|].
  destruct (Ascii.ascii_dec "/"%char c) as [<-|Hc].
  - unfold components in H3. simpl in H3. discriminate H3.
  - unfold startswith. cbn [String.prefix]. by destruct (Ascii.ascii_dec "/"%char c).
Qed.

Lemma resolve_child fs follow a x P :
  stat fs a = inr (P, Some Dir) ->
  plain_name x = true ->
  (follow = false \/ forall t, fs !! (P ++ [x]) <> Some (Link t)) ->
  resolve fs follow (os.path.join a x) = inr (P ++ [x], fs !! (P ++ [x])).
Proof.
  intros Ha (Hx1 & Hx2 & Hx3 & Hx4)%plain_name_spec Hf.
  unfold stat, resolve in *. unfold os.path.join. rewrite Hx4.
  destruct (String.eqb_spec a "") as [->|Hne]; [done|]. simpl.
  destruct (ends_with_slash a) eqn:Hs.
  - apply ends_with_slash_inv in Hs as [a' ->].
    rewrite append_assoc. change ("/" +:+ x) with (String "/"%char x).
    destruct (String.eqb_spec (a' +:+ String "/"%char x) "") as [E|_]; [by destruct a'|].
    unfold components in *. rewrite str_split_app in Ha. rewrite str_split_app, Hx3.
    by apply (namei_child _ _ _ _ _ [""]).
  - change ("/" +:+ x) with (String "/"%char x).
    destruct (String.eqb_spec (a +:+ String "/"%char x) "") as [E|_]; [by destruct a|].
    unfold components in *.
    rewrite str_split_app, Hx3.
    apply (namei_child _ _ _ _ _ []); try done. by rewrite app_nil_r.
Qed.

Lemma is_release_child fs abs_path prefix x P :
  stat fs abs_path = inr (P, Some Dir) ->
  plain_name x = true ->
  is_release fs abs_path prefix x
  = startswith x prefix && match fs !! (P ++ [x]) with Some Dir => true | _ => false end.
Proof.
  intros Ha Hx. unfold is_release, isdir_b, islink_b, stat, lstat.
  rewrite (resolve_child fs false abs_path x P Ha Hx) by (by left).
  destruct (fs !! (P ++ [x])) as [[| |t]|] eqn:E.
  - rewrite (resolve_child fs true abs_path x P Ha Hx) by (right; congruence).
    by rewrite E.
  - rewrite (resolve_child fs true abs_path x P Ha Hx) by (right; congruence).
    by rewrite E.
  - by rewrite andb_false_r.
  - rewrite (resolve_child fs true abs_path x P Ha Hx) by (right; congruence).
    by rewrite E.
Qed.

Lemma under_sibling (P : fpath) (d x : string) : under (P ++ [d]) (P ++ [x]) = true -> d = x.
Proof.
  unfold under. intros H%bool_decide_eq_true.
  rewrite take_ge in H by (rewrite !length_app; simpl; lia).
  by apply app_inj_1 in H as [_ [= ->]].
Qed.

(** The releases found after the loop of lines 196-203 are those found
    before it, less the removed ones. *)
Lemma releases_after_removal path subfolder prefix dirs fs fs' rels rels' :
  for_each dirs
    (fun dir _ =>
       let remove_dir := os.path.join3 path subfolder dir in
       try_except_OSError (shutil.rmtree remove_dir)
         (fail_json (Could_not_remove_directory remove_dir)))
    tt fs = Ok tt fs' ->
  get_releases path subfolder prefix fs = Ok rels fs ->
  get_releases path subfolder prefix fs' = Ok rels' fs' ->
  (forall d, d ∈ dirs -> d ∈ rels) ->
  (forall x, x ∈ rels' -> x ∈ rels /\ x ∉ dirs) /\
  (plain_names fs = true -> forall x, x ∈ rels -> x ∉ dirs -> x ∈ rels').
Proof.
  intros Hloop Hget Hget' Hdirs.
  apply remove_loop_Ok in Hloop as (Hsub & Hgone & Hframe).
  apply get_releases_Ok in Hget as (_ & _ & files & Hl & ->).
  apply get_releases_Ok in Hget' as (_ & _ & files' & Hl' & ->).
  apply listdir_Ok in Hl as (_ & P & HP & ->).
  apply listdir_Ok in Hl' as (_ & P' & HP' & ->).
  pose proof (stat_mono _ _ _ _ _ Hsub HP') as HP''. rewrite HP in HP''.
  injection HP'' as <-.
  split.
  - intros x [Hrel Hx]%list_elem_of_filter. apply Is_true_true in Hrel.
    assert (Hrel1 : is_release fs (os.path.join path subfolder) prefix x = true).
    { unfold is_release in *.
      apply andb_true_iff in Hrel as [Hs Hrel]. apply andb_true_iff in Hrel as [Hd Hnl].
      rewrite Hs, (isdir_b_mono _ _ _ Hsub Hd).
      rewrite <- (islink_b_mono _ _ _ Hsub (isdir_exists _ _ Hd)) in Hnl. by rewrite Hnl. }
    split.
    + apply list_elem_of_filter. split; [by apply Is_true_true|].
      apply elem_of_children in Hx as [n Hn]. apply elem_of_children.
      exists n. by eapply lookup_weaken.
    + intros Hd. specialize (Hgone x Hd). unfold is_release in Hrel.
      apply andb_true_iff in Hrel as [_ Hrel]. apply andb_true_iff in Hrel as [Hdir _].
      apply isdir_exists in Hdir. unfold os.path.join3 in Hgone. congruence.
  - intros Hplain x [Hrel Hx]%list_elem_of_filter Hnd. apply Is_true_true in Hrel.
    assert (Hpl : forall y, y ∈ children fs P -> plain_name y = true).
    { intros y [n Hn]%elem_of_children. apply (plain_names_lookup _ _ _ Hplain) in Hn.
      rewrite forallb_app in Hn. apply andb_true_iff in Hn as [_ Hn]. simpl in Hn.
      by rewrite andb_true_r in Hn. }
    rewrite (is_release_child _ _ _ _ _ HP (Hpl x Hx)) in Hrel.
    apply andb_true_iff in Hrel as [Hs Hd].
    assert (fs !! (P ++ [x]) = Some Dir) as Hd0
      by (by destruct (fs !! (P ++ [x])) as [[]|]).
    clear Hd. rename Hd0 into Hd.
    assert (Hd' : fs' !! (P ++ [x]) = Some Dir).
    { destruct (fs' !! (P ++ [x])) as [n|] eqn:E.
      - by rewrite (lookup_weaken _ _ _ _ E Hsub) in Hd.
      - exfalso. destruct (Hframe _ _ Hd E) as (d & p & Hdin & Hp & Hu).
        specialize (Hdirs d Hdin). apply list_elem_of_filter in Hdirs as [Hrd Hdc].
        apply Is_true_true in Hrd.
        rewrite (is_release_child _ _ _ _ _ HP (Hpl d Hdc)) in Hrd.
        apply andb_true_iff in Hrd as [_ Hdd].
        assert (fs !! (P ++ [d]) = Some Dir) as Hdd0
          by (by destruct (fs !! (P ++ [d])) as [[]|]).
        clear Hdd. rename Hdd0 into Hdd.
        unfold os.path.join3, stat in Hp.
        rewrite (resolve_child fs true _ d P HP (Hpl d Hdc)) in Hp
          by (right; congruence).
        injection Hp as <- _. apply under_sibling in Hu as ->. done. }
    apply list_elem_of_filter. split.
    + apply Is_true_true. by rewrite (is_release_child _ _ _ _ _ HP' (Hpl x Hx)), Hs, Hd'.
    + apply elem_of_children. by exists Dir.
Qed.

Lemma clean_check_mode_tree module fs r fs' :
  state (params module) = Some State_cleaned ->
  check_mode module = true ->
  main module fs = Ok r fs' ->
  fs' = fs.
Proof.
  intros Hstate Hcm Hmain.
  apply main_Ok in Hmain
    as (prefix_s & de & fs1 & d & c0 & fs2 & c1 & fs3 & ex & fo & Hp & Hk & Hsetup & Hop1 & Hop2 & Hrep & ->).
  rewrite Hstate in Hop1, Hop2. rewrite Hcm in Hsetup, Hop1.
  apply setup_Ok in Hsetup as (_ & Hfs1 & _). rewrite (Hfs1 eq_refl) in *.
  pose proof (cleaned_check_mode_reads (path (params module)) (subfolder (params module))
                prefix_s (keep (params module)) (keep_symlinked_dirs (params module))
                (watched (symlink_dirs (params module)) (symlink (params module))) fs) as H1.
  rewrite Hop1 in H1. simpl in H1. subst fs2. injection Hop2 as _ <-.
  destruct de; [|by injection Hrep as _ _ <-].
  pose proof (gather_reads (path (params module)) (subfolder (params module)) prefix_s
                (watched (symlink_dirs (params module)) (symlink (params module))) fs) as H2.
  rewrite Hrep in H2. done.
Qed.

Lemma candidates_sub path subfolder prefix keep_symlinked_dirs vs fs rels cands :
  get_releases path subfolder prefix fs = Ok rels fs ->
  candidates path subfolder prefix keep_symlinked_dirs vs fs = Ok cands fs ->
  NoDup cands /\ forall y, y ∈ cands -> y ∈ rels.
Proof.
  intros Hget Hc. rewrite candidates_spec, Hget in Hc. injection Hc as <-.
  apply get_releases_Ok in Hget as (_ & Hnd & _).
  destruct keep_symlinked_dirs; [|done].
  destruct (foldl_unprotect_spec fs path vs rels Hnd) as [Hnd' Hin].
  split; [done|]. intros y Hy. by apply Hin in Hy as [? _].
Qed.

(** C6. In a clean operation the candidates left after protection are sorted
    in descending order of their names and the part from index [keep] on is
    what is marked for removal: the [keep] greatest names are kept, every
    kept name is at least every removed one, and with [keep = 0] all
    candidates are marked.  Outside check mode the marked releases are then
    removed and nothing else is: afterwards none of them exists or is
    listed, no entry is added or altered, and every entry that is gone lies
    at or below the directory of a marked release; every release listed
    afterwards was found before and is not marked, and in a tree whose
    names are the names of a file system every release found before and
    not marked is still listed, the kept candidates among them.  In check
    mode the tree stays as it is. *)
Theorem retention_ordering module fs r fs' :
  state (params module) = Some State_cleaned ->
  main module fs = Ok r fs' ->
  exists prefix_s directories_exist fs1 cands,
    prefix (params module) = PStr prefix_s /\
    setup (check_mode module) (path (params module)) (subfolder (params module)) fs
    = Ok directories_exist fs1 /\
    candidates (path (params module)) (subfolder (params module)) prefix_s
      (keep_symlinked_dirs (params module))
      (watched (symlink_dirs (params module)) (symlink (params module))) fs1
    = Ok cands fs1 /\
    let k := Z.to_nat (keep (params module)) in
    let sorted := sorted_reverse cands in
    (0 <= keep (params module))%Z /\
    sorted ≡ₚ cands /\
    StronglySorted str_ge sorted /\
    removed_releases r = drop k sorted /\
    sorted = take k sorted ++ removed_releases r /\
    length (take k sorted) = min k (length cands) /\
    (forall x y, x ∈ take k sorted -> y ∈ removed_releases r -> str_ge x y) /\
    (keep (params module) = 0%Z -> removed_releases r = sorted) /\
    changed r = bool_decide (removed_releases r <> []) /\
    (check_mode module = false ->
     fs' ⊆ fs1 /\
     (forall d, d ∈ removed_releases r ->
        os.path.exists_
          (os.path.join3 (path (params module)) (subfolder (params module)) d) fs'
        = Ok false fs' /\
        d ∉ releases r) /\
     (forall q n, fs1 !! q = Some n -> fs' !! q = None ->
        exists d p,
          d ∈ removed_releases r /\
          stat fs1 (os.path.join3 (path (params module)) (subfolder (params module)) d)
          = inr (p, Some Dir) /\
          under p q = true) /\
     (forall rels,
        get_releases (path (params module)) (subfolder (params module)) prefix_s fs1
        = Ok rels fs1 ->
        (forall x, x ∈ releases r -> x ∈ rels /\ x ∉ removed_releases r) /\
        (plain_names fs1 = true ->
         (forall x, x ∈ rels -> x ∉ removed_releases r -> x ∈ releases r) /\
         (forall x, x ∈ take k sorted -> x ∈ releases r)))) /\
    (check_mode module = true -> fs' = fs).
Proof.
  intros Hstate Hmain.
  pose proof (fun H => clean_run module fs r fs' Hstate H Hmain) as Hrun.
  pose proof (fun H => clean_check_mode_tree module fs r fs' Hstate H Hmain) as Hcheck.
  apply main_Ok in Hmain
    as (prefix_s & de & fs1 & d & c0 & fs2 & c1 & fs3 & ex & fo & Hp & Hk & Hsetup & Hop1 & Hop2 & Hrep & ->).
  rewrite Hstate in Hop1, Hop2. apply cleaned_Ok in Hop1 as (cands & Hc & -> & ->).
  injection Hop2 as <- _.
  exists prefix_s, de, fs1, cands. simpl.
  split; [done|]. split; [done|]. split; [done|]. split; [done|].
  split; [apply sorted_reverse_perm|]. split; [apply sorted_reverse_sorted|].
  split; [done|]. split; [apply slice_from_split|].
  split; [by rewrite length_take, (Permutation_length (sorted_reverse_perm cands))|].
  split; [apply kept_above_removed|]. split; [by intros ->|].
  split; [by destruct (slice_from _ _)|]. split.
  - intros Hcm. destruct (Hrun Hcm) as (prefix_s' & de' & fs1' & Hp' & Hsetup' & Hloop & Hget).
    rewrite Hp in Hp'. injection Hp' as <-.
    rewrite Hcm in Hsetup. rewrite Hsetup in Hsetup'. injection Hsetup' as <- <-.
    simpl in Hloop, Hget.
    pose proof Hloop as Hloop'. pose proof Hget as Hget'.
    apply remove_loop_Ok in Hloop as (Hsub & Hgone & Hframe).
    split; [done|]. split; [|split; [done|]].
    + intros x Hx. specialize (Hgone x Hx). split; [by rewrite exists_spec, Hgone|].
      apply get_releases_Ok in Hget as (_ & _ & files & _ & ->).
      intros [Hrel _]%list_elem_of_filter. unfold is_release in Hrel.
      fold (os.path.join3 (path (params module)) (subfolder (params module)) x) in Hrel.
      destruct (isdir_b fs' _) eqn:Hdir.
      * apply isdir_exists in Hdir. congruence.
      * by rewrite andb_false_r in Hrel.
    + intros rels Hrels.
      destruct (candidates_sub _ _ _ _ _ _ _ _ Hrels Hc) as [Hnd Hin].
      destruct (releases_after_removal _ _ _ _ _ _ _ _ Hloop' Hrels Hget') as [Hleft Hkept].
      { intros y Hy. by apply Hin, (removed_in_candidates (keep (params module))). }
      split; [done|]. intros Hplain. split; [by apply Hkept|].
      intros x Hx. apply Hkept; [done| |].
      * apply Hin. rewrite <- (sorted_reverse_perm cands). by eapply subseteq_take.
      * unfold slice_from. intros Hx'.
        assert (Hs : NoDup (sorted_reverse cands)) by (by rewrite sorted_reverse_perm).
        rewrite <- (take_drop (Z.to_nat (keep (params module)))) in Hs.
        apply NoDup_app in Hs as (_ & Hs & _). by apply (Hs x).
  - exact Hcheck.
Qed.

Lemma retention_ordering_witness :
  exists prefix_s directories_exist fs1 cands,
    PStr "release-" = PStr prefix_s /\
    setup false "/srv/app" "releases" dated_releases_tree = Ok directories_exist fs1 /\
    candidates "/srv/app" "releases" prefix_s true [] fs1 = Ok cands fs1 /\
    let k := Z.to_nat 1 in
    let sorted := sorted_reverse cands in
    (0 <= 1)%Z /\
    sorted ≡ₚ cands /\
    StronglySorted str_ge sorted /\
    ["release-20240102"; "release-20240101"] = drop k sorted /\
    sorted = take k sorted ++ ["release-20240102"; "release-20240101"] /\
    length (take k sorted) = min k (length cands) /\
    (forall x y,
       x ∈ take k sorted -> y ∈ ["release-20240102"; "release-20240101"] -> str_ge x y) /\
    (1%Z = 0%Z -> ["release-20240102"; "release-20240101"] = sorted) /\
    true = bool_decide (["release-20240102"; "release-20240101"] <> []) /\
    (false = false ->
     newest_release_tree ⊆ fs1 /\
     (forall d, d ∈ ["release-20240102"; "release-20240101"] ->
        os.path.exists_ (os.path.join3 "/srv/app" "releases" d) newest_release_tree
        = Ok false newest_release_tree /\
        d ∉ ["release-20240103"]) /\
     (forall q n, fs1 !! q = Some n -> newest_release_tree !! q = None ->
        exists d p,
          d ∈ ["release-20240102"; "release-20240101"] /\
          stat fs1 (os.path.join3 "/srv/app" "releases" d) = inr (p, Some Dir) /\
          under p q = true) /\
     (forall rels,
        get_releases "/srv/app" "releases" prefix_s fs1 = Ok rels fs1 ->
        (forall x, x ∈ ["release-20240103"] ->
           x ∈ rels /\ x ∉ ["release-20240102"; "release-20240101"]) /\
        (plain_names fs1 = true ->
         (forall x, x ∈ rels -> x ∉ ["release-20240102"; "release-20240101"] ->
            x ∈ ["release-20240103"]) /\
         (forall x, x ∈ take k sorted -> x ∈ ["release-20240103"])))) /\
    (false = true -> newest_release_tree = dated_releases_tree).
Proof.
  apply (retention_ordering
           (task (Some State_cleaned) 1 PNone PNone PNone false)
           dated_releases_tree
           {| changed := true;
              removed_releases := ["release-20240102"; "release-20240101"];
              absolute_path := "/srv/app";
              symlinked_folders := [];
              releases := ["release-20240103"];
              releases_path := "/srv/app/releases" |}
           newest_release_tree).
  - reflexivity.
  - run.
Defined.

(** The trees of the scenarios hold plain names only. *)
Lemma scenario_trees_plain :
  plain_names dated_releases_tree = true /\ plain_names three_releases_tree = true.
Proof. split; vm_compute; reflexivity. Qed.

(** * Instances *)

Lemma check_mode_reads_only_witness :
  state_of (main (task (Some State_cleaned) 0 PNone PNone PNone true) three_releases_tree)
  = three_releases_tree.
Proof.
  apply (check_mode_reads_only (task (Some State_cleaned) 0 PNone PNone PNone true));
    [reflexivity|discriminate].
Defined.

Lemma main_only_adds_directories_witness :
  extends ∅ (state_of (main (task None 5 PNone PNone PNone false) ∅)).
Proof.
  apply (main_only_adds_directories (task None 5 PNone PNone PNone false)).
  right. reflexivity.
Defined.

Lemma main_keeps_files_and_dirs_witness :
  keeps_files_and_dirs taken_tree (state_of (main (create_task false) taken_tree)).
Proof.
  apply (main_keeps_files_and_dirs (create_task false)). discriminate.
Defined.

Lemma check_mode_create_existing_release_witness :
  state_of (main (create_task true) one_release_tree) = one_release_tree.
Proof.
  apply (check_mode_create_existing_release (create_task true) one_release_tree
           "release-" "20150212");
    [reflexivity|reflexivity|reflexivity|reflexivity|run].
Defined.

Lemma release_path_occupied_witness :
  kind (Release_directory_not_a_directory "/srv/app/releases/release-20150212")
  = ConflictError /\
  main (create_task false) occupied_tree =
  match setup false "/srv/app" "releases" occupied_tree with
  | Ok _ fs1 =>
      FailJson (Release_directory_not_a_directory "/srv/app/releases/release-20150212") fs1
  | Raise e fs1 => Raise e fs1
  | FailJson f fs1 => FailJson f fs1
  end.
Proof.
  apply (release_path_occupied (create_task false) occupied_tree "release-" "20150212").
  - reflexivity.
  - reflexivity.
  - reflexivity.
  - discriminate.
  - reflexivity.
  - discriminate.
  - reflexivity.
  - run.
  - run.
Defined.

Lemma clean_marks_only_releases_witness :
  exists prefix_s directories_exist fs1,
    PStr "release-" = PStr prefix_s /\
    setup false "/srv/app" "releases" three_releases_tree = Ok directories_exist fs1 /\
    NoDup ["release-3"; "release-1"] /\
    forall d, d ∈ ["release-3"; "release-1"] ->
      let abs_file := os.path.join (os.path.join "/srv/app" "releases") d in
      startswith d prefix_s = true /\
      os.path.isdir abs_file fs1 = Ok true fs1 /\
      os.path.islink abs_file fs1 = Ok false fs1 /\
      (true = true ->
       forall symlink_dir,
         symlink_dir ∈ watched PNone (PStr "current") ->
         protected_by fs1 "/srv/app" symlink_dir <> Some d).
Proof.
  apply (clean_marks_only_releases clean_task three_releases_tree clean_report
           second_release_tree).
  - reflexivity.
  - run.
Defined.

Lemma clean_removes_marked_witness :
  os.path.exists_ (os.path.join3 "/srv/app" "releases" "release-3") second_release_tree
  = Ok false second_release_tree /\
  "release-3" ∉ ["release-2"].
Proof.
  apply (clean_removes_marked clean_task three_releases_tree clean_report
           second_release_tree "release-3").
  - reflexivity.
  - reflexivity.
  - run.
  - left.
Defined.

Lemma clean_deletes_only_marked_witness :
  exists directories_exist fs1,
    setup false "/srv/app" "releases" three_releases_tree = Ok directories_exist fs1 /\
    three_releases_tree ⊆ fs1 /\ second_release_tree ⊆ fs1 /\
    forall k n, fs1 !! k = Some n -> second_release_tree !! k = None ->
      exists d p,
        d ∈ ["release-3"; "release-1"] /\
        stat fs1 (os.path.join3 "/srv/app" "releases" d) = inr (p, Some Dir) /\
        under p k = true.
Proof.
  apply (clean_deletes_only_marked clean_task three_releases_tree clean_report
           second_release_tree).
  - reflexivity.
  - reflexivity.
  - run.
Defined.

Lemma clean_failure_names_directory_witness :
  false = false /\
  exists prefix_s directories_exist fs1 cands done_ d rest,
    setup false "/srv/app" "releases/release-2/.." three_releases_tree
    = Ok directories_exist fs1 /\
    candidates "/srv/app" "releases/release-2/.." prefix_s true (watched PNone PNone) fs1
    = Ok cands fs1 /\
    slice_from 0 (sorted_reverse cands) = done_ ++ d :: rest /\
    Could_not_remove_directory "/srv/app/releases/release-2/../release-1"
    = Could_not_remove_directory (os.path.join3 "/srv/app" "releases/release-2/.." d) /\
    first_release_tree ⊆ fs1 /\
    forall d', d' ∈ done_ ->
      exists_b first_release_tree (os.path.join3 "/srv/app" "releases/release-2/.." d')
      = false.
Proof.
  apply (clean_failure_names_directory nested_task three_releases_tree
           (Could_not_remove_directory "/srv/app/releases/release-2/../release-1")
           first_release_tree).
  - reflexivity.
  - run.
  - discriminate.
  - discriminate.
Defined.

Lemma report_reflects_tree_witness :
  exists directories_exist fs1,
    setup false "/srv/app" "releases" three_releases_tree = Ok directories_exist fs1 /\
    if directories_exist then
      get_releases "/srv/app" "releases" "release-" second_release_tree
      = Ok ["release-2"] second_release_tree /\
      forall v,
        dict_get v [(PStr "current", Some "/srv/app/releases/release-2")] =
        if py_in v (watched PNone (PStr "current"))
        then Some (reported second_release_tree "/srv/app" v)
        else None
    else
      false = true /\ ["release-2"] = [] /\
      [(PStr "current", Some "/srv/app/releases/release-2")] = [].
Proof.
  apply (report_reflects_tree clean_task three_releases_tree clean_report
           second_release_tree "release-").
  - reflexivity.
  - run.
Defined.

Lemma check_mode_query_missing_directories_witness :
  main (task None 5 PNone PNone PNone true) ∅
  = Ok {| changed := false;
          removed_releases := [];
          absolute_path := "/srv/app";
          symlinked_folders := [];
          releases := [];
          releases_path := os.path.join "/srv/app" "releases" |}
       ∅.
Proof.
  apply (check_mode_query_missing_directories (task None 5 PNone PNone PNone true) ∅
           "release-").
  - reflexivity.
  - reflexivity.
  - reflexivity.
  - reflexivity.
  - discriminate.
  - vm_compute. reflexivity.
Defined.

Lemma check_mode_clean_missing_subfolder_witness :
  exists e, main (task (Some State_cleaned) 5 PNone PNone PNone true) ∅ = Raise (OSError e) ∅.
Proof.
  apply (check_mode_clean_missing_subfolder
           (task (Some State_cleaned) 5 PNone PNone PNone true) ∅ "release-").
  - reflexivity.
  - reflexivity.
  - reflexivity.
  - reflexivity.
  - discriminate.
  - run.
Defined.

Lemma clean_keep_covers_all_witness :
  removed_releases keep_all_report = [] /\ changed keep_all_report = false /\
  dated_releases_tree = dated_releases_tree /\
  (true = true ->
   releases keep_all_report = ["release-20240103"; "release-20240102"; "release-20240101"]).
Proof.
  apply (clean_keep_covers_all keep_all_task dated_releases_tree keep_all_report
           dated_releases_tree "release-" true dated_releases_tree
           ["release-20240103"; "release-20240102"; "release-20240101"]).
  - reflexivity.
  - reflexivity.
  - run.
  - run.
  - vm_compute. discriminate.
  - run.
Defined.

Lemma create_links_release_witness :
  exists prefix_s ts s,
    PStr "release-" = PStr prefix_s /\
    PStr "20150212" = PStr ts /\ ts <> "" /\
    PStr "current" = PStr s /\ s <> "" /\
    changed create_report = true /\ removed_releases create_report = [] /\
    let release_dir := os.path.join3 "/srv/app" "releases" (prefix_s +:+ ts) in
    (os.path.basename (os.path.join "/srv/app" s) <> "" ->
     os.readlink (os.path.join "/srv/app" s) linked_release_tree
     = Ok release_dir linked_release_tree /\
     dict_get (PStr s) (symlinked_folders create_report)
     = Some (Some (os.path.join "/srv/app" release_dir))).
Proof.
  apply (create_links_release (create_task false) base_tree create_report
           linked_release_tree).
  - reflexivity.
  - reflexivity.
  - run.
Defined.

Lemma report_flags_witness :
  changed clean_report = negb (Nat.eqb (length (removed_releases clean_report)) 0) /\
  (Some State_cleaned <> Some State_cleaned -> removed_releases clean_report = []) /\
  absolute_path clean_report = "/srv/app" /\
  releases_path clean_report = os.path.join "/srv/app" "releases".
Proof.
  apply (report_flags clean_task three_releases_tree clean_report second_release_tree).
  run.
Defined.
